(** * ITAttendance: a model of the attendance server and its storage

    The server (src/server.js) is a set of request handlers over a
    PostgreSQL schema (src/config/postgres.js).  Tables are modelled as
    lists of rows, every SQL statement as the list expression it denotes,
    and every handler as a function from the database (and the clock) to a
    response and a new database.

    A WHERE clause keeps the rows on which it is TRUE.  The clauses below
    contain no NOT, so a comparison with a NULL operand (UNKNOWN) behaves as
    a false one; nullable columns are [option]s and [col = Some v] is the
    SQL test [col = v]. *)

From stdpp Require Import gmap strings list sorting.
From Stdlib Require Import ZArith Lia.

Local Open Scope Z_scope.

(** ** Calendar dates

    A [Date] is a calendar day: a value of SQL type DATE, or the local
    calendar day of a JavaScript [Date] object (the history handler only ever reads
    the year, month, day-of-month and weekday of the objects it builds, so
    the time of day is not represented).  [d_month] is zero-based, as
    [getMonth()] returns it.  The server pins its zone to Asia/Kolkata
    (server.js, line 3), which has no daylight saving: the string produced
    by [formatDateLocal] names the same calendar day when it is parsed back
    by [new Date(...)] or cast to DATE, so that string is represented by the
    [Date] itself. *)

Record Date := mkDate { d_year : Z; d_month : Z; d_day : Z }.

#[global] Instance Date_eq_dec : EqDecision Date.
Proof. solve_decision. Defined.

#[global] Instance Date_countable : Countable Date.
Proof.
  refine (inj_countable' (λ d, (d_year d, d_month d, d_day d))
                         (λ t, mkDate t.1.1 t.1.2 t.2) _).
  by intros [].
Defined.

Definition is_leap (y : Z) : bool :=
  (y mod 4 =? 0) && (negb (y mod 100 =? 0) || (y mod 400 =? 0)).

Definition days_in_month (y m : Z) : Z :=
  match m with
  | 0 => 31 | 1 => if is_leap y then 29 else 28 | 2 => 31 | 3 => 30
  | 4 => 31 | 5 => 30 | 6 => 31 | 7 => 31 | 8 => 30 | 9 => 31
  | 10 => 30 | 11 => 31
  | _ => 0
  end.

Definition days_before_month (leap : bool) (m : Z) : Z :=
  let l := if leap then 1 else 0 in
  match m with
  | 0 => 0 | 1 => 31 | 2 => 59 + l | 3 => 90 + l | 4 => 120 + l
  | 5 => 151 + l | 6 => 181 + l | 7 => 212 + l | 8 => 243 + l
  | 9 => 273 + l | 10 => 304 + l | 11 => 334 + l
  | _ => 0
  end.

(** ECMAScript's DayFromYear: the day number of 1 January of year [y],
    counted from 1 January 1970. *)
Definition DayFromYear (y : Z) : Z :=
  365 * (y - 1970) + (y - 1969) / 4 - (y - 1901) / 100 + (y - 1601) / 400.

(** Days since 1 January 1970. *)
Definition day_number (d : Date) : Z :=
  DayFromYear (d_year d) + days_before_month (is_leap (d_year d)) (d_month d)
  + d_day d - 1.

(** A day of the calendar. *)
Definition calendar_date (d : Date) : Prop :=
  0 ≤ d_month d ≤ 11 ∧ 1 ≤ d_day d ≤ days_in_month (d_year d) (d_month d).

#[global] Instance calendar_date_dec d : Decision (calendar_date d).
Proof. unfold calendar_date. apply _. Defined.

(** A value the DATE type of PostgreSQL takes from a string year-month-day:
    a day of the calendar from year 1 to year 5874897.  (The type reaches
    back to 4713 BC, but a year written without an era is AD and the year 0
    is refused.) *)
Definition valid_date (d : Date) : Prop :=
  1 ≤ d_year d ≤ 5874897 ∧ calendar_date d.

#[global] Instance valid_date_dec d : Decision (valid_date d).
Proof. unfold valid_date. apply _. Defined.

(** A day a JavaScript [Date] can hold, a year away from either end of the
    range of time values (8.64e15 ms on both sides of the epoch), so that
    the days the handlers derive from it are in range too. *)
Definition js_date (d : Date) : Prop :=
  -271820 ≤ d_year d ≤ 275759 ∧ calendar_date d.

#[global] Instance js_date_dec d : Decision (js_date d).
Proof. unfold js_date. apply _. Defined.

Definition next_day (d : Date) : Date :=
  if decide (d_day d < days_in_month (d_year d) (d_month d))
  then mkDate (d_year d) (d_month d) (d_day d + 1)
  else if decide (d_month d < 11)
       then mkDate (d_year d) (d_month d + 1) 1
       else mkDate (d_year d + 1) 0 1.

Definition prev_day (d : Date) : Date :=
  if decide (1 < d_day d)
  then mkDate (d_year d) (d_month d) (d_day d - 1)
  else if decide (0 < d_month d)
       then mkDate (d_year d) (d_month d - 1)
                   (days_in_month (d_year d) (d_month d - 1))
       else mkDate (d_year d - 1) 11 31.

Definition add_days (n : Z) (d : Date) : Date :=
  if decide (0 ≤ n) then Nat.iter (Z.to_nat n) next_day d
  else Nat.iter (Z.to_nat (- n)) prev_day d.

(** ECMAScript's MakeDay carries a month outside 0..11 into the year and
    then counts [date - 1] days from the first of that month, whatever the
    sign or size of [date]. *)
Definition MakeDay (y m d : Z) : Date :=
  add_days (d - 1) (mkDate (y + m / 12) (m mod 12) 1).

(** The year a constructor argument stands for: one from 0 to 99 is taken
    as 1900 + year. *)
Definition full_year (y : Z) : Z :=
  if decide (0 ≤ y ≤ 99) then 1900 + y else y.

(** [new Date(year, month, date)] *)
Definition new_Date (y m d : Z) : Date := MakeDay (full_year y) m d.

Definition getFullYear (d : Date) : Z := d_year d.
Definition getMonth (d : Date) : Z := d_month d.
Definition getDate (d : Date) : Z := d_day d.

(** [getDay()]: 0 = Sunday ... 6 = Saturday; 1 January 1970 was a Thursday. *)
Definition getDay (d : Date) : Z := (day_number d + 4) mod 7.

(** [dt.setDate(n)] on a copy of [dt]: the year is taken as it is. *)
Definition setDate (dt : Date) (n : Z) : Date :=
  MakeDay (getFullYear dt) (getMonth dt) n.

(** ** Schema (src/config/postgres.js)

    Columns that no modelled statement reads ([created_at], [break_name],
    the subject and user details) are left out.  [users] and [classes] are
    kept as the lists of their primary keys: the attendance table refers to
    them through foreign keys only.  TIME columns are seconds since
    midnight. *)

Record Student := mkStudent {
  st_id : Z;
  st_roll_no : Z;
  st_class_id : option Z;
  st_student_name : string
}.

Record Period := mkPeriod {
  tp_id : Z;
  tp_class_id : option Z;
  tp_day_of_week : Z;
  tp_period_number : Z;
  tp_start_time : Z;
  tp_end_time : Z;
  tp_subject_id : option Z;
  tp_teacher_id : option Z;
  tp_is_break : bool
}.

(** [a_student_id] and [a_marked_by] are nullable in the schema, but both
    writers of the table always supply them. *)
Record Attendance := mkAttendance {
  a_id : Z;
  a_student_id : Z;
  a_class_id : option Z;
  a_period_id : option Z;
  a_date : Date;
  a_status : string;
  a_marked_by : Z
}.

Record DB := mkDB {
  users : list Z;
  classes : list Z;
  students : list Student;
  timetable_periods : list Period;
  attendance : list Attendance;
  attendance_id_seq : Z
}.

#[global] Instance Student_eq_dec : EqDecision Student.
Proof. solve_decision. Defined.
#[global] Instance Period_eq_dec : EqDecision Period.
Proof. solve_decision. Defined.
#[global] Instance Attendance_eq_dec : EqDecision Attendance.
Proof. solve_decision. Defined.

(** CHECK(status IN ('P', 'A')) *)
Definition status_check (s : string) : Prop := s = "P" ∨ s = "A".

(** A parameter compared with, or stored in, an INTEGER column is read as
    a 32-bit integer: outside this range the statement raises. *)
Definition int4 (n : Z) : Prop := -2147483648 ≤ n ≤ 2147483647.

#[global] Instance int4_dec n : Decision (int4 n).
Proof. unfold int4. apply _. Defined.

(** A parameter stored in the VARCHAR(1) column [status] must fit: a longer
    string makes the statement raise when it is planned, before any row is
    built. *)
Definition varchar_1 (s : string) : Prop := (String.length s ≤ 1)%nat.

#[global] Instance varchar_1_dec s : Decision (varchar_1 s).
Proof. unfold varchar_1. apply _. Defined.

(** A row of students s LEFT JOIN attendance a LEFT JOIN timetable_periods tp. *)
Abbreviation JoinedRow := (Student * option Attendance * option Period)%type.

(** The keys of a day's cells: a period id, or 'general'. *)
Inductive CellKey := PeriodCell (periodId : Z) | General.

#[global] Instance CellKey_eq_dec : EqDecision CellKey.
Proof. solve_decision. Defined.

#[global] Instance CellKey_countable : Countable CellKey.
Proof.
  refine (inj_countable' (λ k, match k with PeriodCell i => Some i | General => None end)
                         (λ o, match o with Some i => PeriodCell i | None => General end) _).
  by intros [].
Defined.

(** A cell holds null or a status; an absent key reads as undefined. *)
Abbreviation Cells := (gmap CellKey (option string)).
Abbreviation Grid := (gmap Z (gmap Date (gmap CellKey (option string)))).

(** ** Time Resolver (server.js, lines 64-78) *)

Section Server.

(** [TIME_OFFSET_MINUTES]: read once from the environment at start-up. *)
Variable TIME_OFFSET_MINUTES : Z.

(** A [Date] holds a time value of at most 8.64e15 ms on either side of
    the epoch; [new Date(v)] with [v] beyond that is an Invalid Date, whose
    time value and fields are NaN. *)
Definition maxTime : Z := 8640000000000000.

Definition TimeClip (v : Z) : option Z :=
  if decide (- maxTime ≤ v ≤ maxTime) then Some v else None.

(** [now] is [Date.now()], milliseconds since the epoch.  The result is
    the time value of the [Date] returned; [None] is the Invalid Date. *)
Definition getNowIST (now : Z) : option Z :=
  TimeClip (now + 19800000 + TIME_OFFSET_MINUTES * 60 * 1000).

(** [None] is NaN. *)
Definition getCurrentDayOfWeek (now : Z) : option Z :=
  ist ← getNowIST now;
  let dayOfWeek := (ist / 86400000 + 4) mod 7 in
  Some (if decide (dayOfWeek = 0) then 7 else dayOfWeek).

(** The string "HH:MM", given as the TIME value PostgreSQL reads it as;
    [None] is the string "NaN:NaN". *)
Definition getCurrentTime (now : Z) : option Z :=
  ist ← getNowIST now;
  let hours := (ist / 3600000) mod 24 in
  let minutes := (ist / 60000) mod 60 in
  Some (hours * 3600 + minutes * 60).

(** ** Period Matcher *)

(** ORDER BY over an integer column: rows compared by that column. *)
Definition le_on {A} (key : A → Z) (x y : A) : Prop := key x ≤ key y.

#[global] Instance le_on_dec {A} (key : A → Z) : RelDecision (le_on key).
Proof. intros x y. unfold le_on. apply _. Defined.

(** [queryOne]: [result.rows[0] || null]. *)
Definition queryOne {A} (rows : list A) : option A := head rows.

(** The current-period query of the teacher's handlers (server.js, lines
    312-327, 412-427, 488-503, 529-544 and 593-608). *)
Definition teacherCurrentPeriod (periods : list Period)
    (classId teacherId currentDay currentTime : Z) : option Period :=
  queryOne (merge_sort (le_on tp_period_number)
    (filter (λ tp, tp_class_id tp = Some classId
                 ∧ tp_teacher_id tp = Some teacherId
                 ∧ tp_day_of_week tp = currentDay
                 ∧ tp_start_time tp ≤ currentTime
                 ∧ tp_end_time tp >= currentTime
                 ∧ tp_is_break tp = false) periods)).

(** [getCurrentPeriod(classId)] (server.js, lines 80-107): the matcher that
    is not scoped to a teacher.  No handler calls it.  Its catch clause
    turns a query that raises (on NaN) into null. *)
Definition getCurrentPeriod (periods : list Period) (classId : Z) (now : Z)
    : option Period :=
  match getCurrentDayOfWeek now, getCurrentTime now with
  | Some currentDay, Some currentTime =>
      queryOne (merge_sort (le_on tp_period_number)
        (filter (λ tp, tp_class_id tp = Some classId
                     ∧ tp_day_of_week tp = currentDay
                     ∧ tp_start_time tp ≤ currentTime
                     ∧ tp_end_time tp >= currentTime) periods))
  | _, _ => None
  end.

(** ** Storage rules for the attendance table

    The DATE column accepts only the dates of its range; an integer
    parameter must be a 32-bit integer and a status must fit VARCHAR(1):
    a statement with a parameter that cannot be read raises before it
    runs.  CHECK(status IN ('P','A')) and the foreign keys to students,
    classes, timetable_periods and users are tested on the row: an INSERT
    that runs draws its id from the table's sequence before the row is
    tested, and a drawn value is never given back. *)

Definition fk_ok (ids : list Z) (v : option Z) : Prop :=
  match v with None => True | Some x => x ∈ ids end.

#[global] Instance fk_ok_dec ids v : Decision (fk_ok ids v).
Proof. destruct v; simpl; apply _. Defined.

Definition attendance_row_ok (db : DB) (r : Attendance) : Prop :=
  status_check (a_status r)
  ∧ a_student_id r ∈ (st_id <$> students db)
  ∧ fk_ok (classes db) (a_class_id r)
  ∧ fk_ok (tp_id <$> timetable_periods db) (a_period_id r)
  ∧ a_marked_by r ∈ users db.

#[global] Instance attendance_row_ok_dec db r : Decision (attendance_row_ok db r).
Proof. unfold attendance_row_ok, status_check. apply _. Defined.

Definition with_attendance (db : DB) (rows : list Attendance) (seq : Z) : DB :=
  mkDB (users db) (classes db) (students db) (timetable_periods db) rows seq.

Definition set_status (status : string) (a : Attendance) : Attendance :=
  mkAttendance (a_id a) (a_student_id a) (a_class_id a) (a_period_id a)
               (a_date a) status (a_marked_by a).

Definition set_status_marked_by (status : string) (markedBy : Z)
    (a : Attendance) : Attendance :=
  mkAttendance (a_id a) (a_student_id a) (a_class_id a) (a_period_id a)
               (a_date a) status markedBy.

(** The arbiter of ON CONFLICT (student_id, date, period_id), for a proposed
    row whose period is not NULL. *)
Definition same_key (studentId : Z) (date : Date) (periodId : Z)
    (a : Attendance) : Prop :=
  a_student_id a = studentId ∧ a_date a = date ∧ a_period_id a = Some periodId.

#[global] Instance same_key_dec s d p a : Decision (same_key s d p a).
Proof. unfold same_key. apply _. Defined.

(** INSERT INTO attendance (student_id, class_id, period_id, date, status,
    marked_by) VALUES (...) ON CONFLICT (student_id, date, period_id)
    DO UPDATE SET status = $5, marked_by = $6.
    The boolean tells whether the statement succeeded. *)
Definition upsert_attendance (db : DB) (studentId classId periodId : Z)
    (date : Date) (status : string) (markedBy : Z) : bool * DB :=
  if decide (int4 studentId ∧ int4 classId ∧ valid_date date
             ∧ varchar_1 status) then
    let id := attendance_id_seq db + 1 in
    let row := mkAttendance id studentId (Some classId) (Some periodId)
                            date status markedBy in
    if decide (Exists (same_key studentId date periodId) (attendance db)) then
      if decide (status_check status ∧ markedBy ∈ users db) then
        (true, with_attendance db
                 ((λ a, if decide (same_key studentId date periodId a)
                        then set_status_marked_by status markedBy a else a)
                    <$> attendance db) id)
      else (false, with_attendance db (attendance db) id)
    else
      if decide (attendance_row_ok db row) then
        (true, with_attendance db (attendance db ++ [row]) id)
      else (false, with_attendance db (attendance db) id)
  else (false, db).

(** ** Attendance Recorder: POST /teacher/mark-attendance
    (server.js, lines 588-630) *)

Record MarkRequest := mkMarkRequest {
  mr_studentId : Z;
  mr_classId : Z;
  mr_status : string;
  mr_date : Date
}.

Inductive MarkResponse :=
  | MarkSuccess          (* { success: true } *)
  | NoActivePeriod       (* 'No active period found for you in this class...' *)
  | MarkFailed.          (* 'Failed to mark attendance' *)

(** [teacherId] is [req.session.user.id].  The current-period query
    raises, and the catch clause answers, when the clock is an Invalid Date
    (its parameters are NaN) or the class id is no 32-bit integer. *)
Definition mark_attendance (db : DB) (teacherId : Z) (req : MarkRequest)
    (now : Z) : MarkResponse * DB :=
  match getCurrentDayOfWeek now, getCurrentTime now with
  | Some currentDay, Some currentTime =>
      if decide (int4 (mr_classId req)) then
        match teacherCurrentPeriod (timetable_periods db) (mr_classId req)
                teacherId currentDay currentTime with
        | None => (NoActivePeriod, db)
        | Some currentPeriod =>
            match upsert_attendance db (mr_studentId req) (mr_classId req)
                    (tp_id currentPeriod) (mr_date req) (mr_status req)
                    teacherId with
            | (true, db') => (MarkSuccess, db')
            | (false, db') => (MarkFailed, db')
            end
        end
      else (MarkFailed, db)
  | _, _ => (MarkFailed, db)
  end.

(** ** DELETE /api/timetable/period/:periodId (server.js, lines 1409-1451)

    attendance.period_id REFERENCES timetable_periods(id) ON DELETE CASCADE
    (postgres.js, lines 160-165) is the only reference to the table. *)

Inductive DeleteResponse :=
  | PeriodNotFound                          (* 404 *)
  | PeriodDeleted (deletedAttendanceCount : nat).

(** DELETE FROM timetable_periods WHERE id = $1, with the cascade. *)
Definition delete_period_rows (db : DB) (periodId : Z) : DB :=
  mkDB (users db) (classes db) (students db)
       (filter (λ tp, tp_id tp ≠ periodId) (timetable_periods db))
       (filter (λ a, a_period_id a ≠ Some periodId) (attendance db))
       (attendance_id_seq db).

Definition delete_period (db : DB) (periodId : Z) : DeleteResponse * DB :=
  match queryOne (filter (λ tp, tp_id tp = periodId) (timetable_periods db)) with
  | None => (PeriodNotFound, db)
  | Some periodDetails =>
      let attendanceCount :=
        length (filter (λ a, a_period_id a = Some periodId) (attendance db)) in
      (PeriodDeleted attendanceCount, delete_period_rows db periodId)
  end.

(** ** POST /api/attendance/bulk-update (server.js, lines 1617-1683) *)

Record Change := mkChange {
  ch_studentId : Z;
  ch_date : Date;
  ch_status : string      (* a missing or null status is the empty string *)
}.

Inductive BulkResponse :=
  | BulkSuccess (updatedCount : nat)
  | BulkAccessDenied       (* 403 *)
  | BulkError.             (* 500 *)

(** SELECT DISTINCT tp.id FROM timetable_periods tp WHERE tp.class_id = $1
    AND tp.teacher_id = $2 AND tp.is_break = false *)
Definition teacherAssignment (db : DB) (classId teacherId : Z) : option Z :=
  queryOne (remove_dups (tp_id <$>
    filter (λ tp, tp_class_id tp = Some classId
                ∧ tp_teacher_id tp = Some teacherId
                ∧ tp_is_break tp = false) (timetable_periods db))).

(** WHERE student_id = $1 AND date = $2 *)
Definition student_date (studentId : Z) (date : Date) (a : Attendance) : Prop :=
  a_student_id a = studentId ∧ a_date a = date.

#[global] Instance student_date_dec s d a : Decision (student_date s d a).
Proof. unfold student_date. apply _. Defined.

(** One turn of the loop over [changes]; the boolean is false when a
    statement raises. *)
Definition apply_change (db : DB) (teacherId : Z) (change : Change) : bool * DB :=
  let studentId := ch_studentId change in
  let date := ch_date change in
  let status := ch_status change in
  if decide (status = EmptyString) then
    (* DELETE FROM attendance WHERE student_id = $1 AND date = $2 *)
    if decide (int4 studentId ∧ valid_date date) then
      (true, with_attendance db
               (filter (λ a, ¬ student_date studentId date a) (attendance db))
               (attendance_id_seq db))
    else (false, db)
  else if decide (int4 studentId ∧ valid_date date) then
    (* SELECT id FROM attendance WHERE student_id = $1 AND date = $2 *)
    match queryOne (a_id <$> filter (student_date studentId date) (attendance db)) with
    | Some existingRecord =>
        (* UPDATE attendance SET status = $1 WHERE student_id = $2 AND date = $3 *)
        if decide (status_check status) then
          (true, with_attendance db
                   ((λ a, if decide (student_date studentId date a)
                          then set_status status a else a) <$> attendance db)
                   (attendance_id_seq db))
        else (false, db)
    | None =>
        (* INSERT INTO attendance (student_id, date, status, marked_by, created_at) *)
        if decide (varchar_1 status) then
          let id := attendance_id_seq db + 1 in
          let row := mkAttendance id studentId None None date status teacherId in
          if decide (attendance_row_ok db row) then
            (true, with_attendance db (attendance db ++ [row]) id)
          else (false, with_attendance db (attendance db) id)
        else (false, db)
    end
  else (false, db).

Fixpoint apply_changes (db : DB) (teacherId : Z) (changes : list Change)
    (updatedCount : nat) : BulkResponse * DB :=
  match changes with
  | [] => (BulkSuccess updatedCount, db)
  | change :: rest =>
      match apply_change db teacherId change with
      | (true, db') => apply_changes db' teacherId rest (S updatedCount)
      | (false, db') => (BulkError, db')
      end
  end.

Definition bulk_update (db : DB) (teacherId classId : Z)
    (changes : list Change) : BulkResponse * DB :=
  match teacherAssignment db classId teacherId with
  | None => (BulkAccessDenied, db)
  | Some _ => apply_changes db teacherId changes 0
  end.

(** ** Report Aggregator: GET /teacher/reports/:classId
    (server.js, lines 1033-1114) *)

(** [l LEFT JOIN r ON on]: a row of [l] without a partner is kept once,
    extended with NULLs. *)
Definition left_join {A B} (on : A → B → Prop) `{∀ a b, Decision (on a b)}
    (l : list A) (r : list B) : list (A * option B) :=
  a ← l;
  match filter (on a) r with
  | [] => [(a, None)]
  | bs => (λ b, (a, Some b)) <$> bs
  end.

(** GROUP BY: one group per distinct key. *)
Definition group_by {A K} `{EqDecision K} (key : A → K) (l : list A)
    : list (K * list A) :=
  (λ k, (k, filter (λ x, key x = k) l)) <$> remove_dups (key <$> l).

(** ON s.id = a.student_id *)
Definition on_student (s : Student) (a : Attendance) : Prop :=
  st_id s = a_student_id a.

(** ON a.period_id = tp.id *)
Definition on_period (sa : Student * option Attendance) (tp : Period) : Prop :=
  match sa.2 with
  | Some a => a_period_id a = Some (tp_id tp)
  | None => False
  end.

#[global] Instance on_student_dec s a : Decision (on_student s a).
Proof. unfold on_student. apply _. Defined.
#[global] Instance on_period_dec sa tp : Decision (on_period sa tp).
Proof. unfold on_period. destruct sa.2; apply _. Defined.

Definition report_from (db : DB) : list JoinedRow :=
  left_join on_period (left_join on_student (students db) (attendance db))
            (timetable_periods db).

(** The date of [ms], in UTC: [new Date(ms).toISOString().split('T')[0]],
    as the day number of that DATE. *)
Definition iso_date (ms : Z) : Z := ms / 86400000.

(** The [switch(period)]: the parameter $3, when the query has one. *)
Definition report_since (period : string) (now : Z) : option Z :=
  if decide (period = "week") then Some (iso_date (now - 7 * 24 * 60 * 60 * 1000))
  else if decide (period = "month") then Some (iso_date (now - 30 * 24 * 60 * 60 * 1000))
  else None.

(** WHERE s.class_id = $1 AND (tp.teacher_id = $2 OR a.id IS NULL)
    [AND (a.id IS NULL OR a.date >= $3)] *)
Definition report_where (classId teacherId : Z) (since : option Z)
    (row : JoinedRow) : Prop :=
  st_class_id row.1.1 = Some classId
  ∧ ((row.2 ≫= tp_teacher_id) = Some teacherId ∨ row.1.2 = None)
  ∧ match since, row.1.2 with
    | Some bound, Some a => day_number (a_date a) >= bound
    | _, _ => True
    end.

#[global] Instance report_where_dec c t since row :
  Decision (report_where c t since row).
Proof. unfold report_where. destruct since, row.1.2; apply _. Defined.

Record ReportRow := mkReportRow {
  roll_no : Z;
  student_name : string;
  total_days : Z;
  present_days : Z;
  absent_days : Z;
  attendance_percentage : option Z    (* in hundredths; [None] is NULL *)
}.

#[global] Instance ReportRow_eq_dec : EqDecision ReportRow.
Proof. solve_decision. Defined.

(** COUNT(a.id), and SUM(CASE WHEN a.status = c THEN 1 ELSE 0 END) *)
Definition count_id (rows : list JoinedRow) : Z :=
  Z.of_nat (length (filter (λ row : JoinedRow, is_Some row.1.2) rows)).

Definition sum_status (c : string) (rows : list JoinedRow) : Z :=
  Z.of_nat (length (filter (λ row : JoinedRow, a_status <$> row.1.2 = Some c) rows)).

(** ROUND(num / den, 2) for num >= 0 and den > 0, in hundredths: halves are
    rounded away from zero. *)
Definition round_2 (num den : Z) : Z := (2 * (num * 100) + den) / (2 * den).

(** GROUP BY s.id, s.roll_no, s.student_name *)
Definition report_key (row : JoinedRow) : Z * Z * string :=
  (st_id row.1.1, st_roll_no row.1.1, st_student_name row.1.1).

Definition report_select (g : (Z * Z * string) * list JoinedRow) : ReportRow :=
  let total := count_id g.2 in
  let present := sum_status "P" g.2 in
  mkReportRow g.1.1.2 g.1.2 total present (sum_status "A" g.2)
    (if decide (total = 0) then None else Some (round_2 (present * 100) total)).

Definition report_groups (db : DB) (classId teacherId : Z) (period : string)
    (now : Z) : list ((Z * Z * string) * list JoinedRow) :=
  group_by report_key
    (filter (report_where classId teacherId (report_since period now))
            (report_from db)).

(** [None] is the redirect to the dashboard; [period] is absent when the
    query string has none. *)
Definition reports (db : DB) (teacherId classId : Z) (period : option string)
    (now : Z) : option (list ReportRow) :=
  match teacherAssignment db classId teacherId with
  | None => None
  | Some _ =>
      Some (merge_sort (le_on roll_no)
              (report_select <$>
                 report_groups db classId teacherId (default "week" period) now))
  end.

(** ** History Grid Builder: GET /teacher/attendance/:classId/history
    (server.js, lines 728-945) *)

Record DateInfo := mkDateInfo {
  di_date : Date;        (* formatDateLocal(date) *)
  di_day : string;       (* toLocaleDateString('en-US', { weekday: 'short' }) *)
  di_dayNum : Z          (* date.getDate() *)
}.

#[global] Instance DateInfo_eq_dec : EqDecision DateInfo.
Proof. solve_decision. Defined.

Definition weekday_short (dayOfWeek : Z) : string :=
  match dayOfWeek with
  | 0 => "Sun" | 1 => "Mon" | 2 => "Tue" | 3 => "Wed"
  | 4 => "Thu" | 5 => "Fri" | _ => "Sat"
  end.

Definition dateInfo (date : Date) : DateInfo :=
  mkDateInfo date (weekday_short (getDay date)) (getDate date).

(** The date range and the generated dates (lines 760-800).  [None]: with
    any other view [startDate] stays undefined and the attendance query
    raises on it. *)
Definition history_window (view : string) (currentDate : Date)
    : option (Date * Date * list DateInfo) :=
  if decide (view = "week") then
    let dayOfWeek := getDay currentDate in
    let daysToMonday := if decide (dayOfWeek = 0) then -6 else 1 - dayOfWeek in
    let startDate := setDate currentDate (getDate currentDate + daysToMonday) in
    let endDate := setDate startDate (getDate startDate + 6) in
    let dates := (λ i, dateInfo (setDate startDate (getDate startDate + i)))
                   <$> seqZ 0 7 in
    Some (startDate, endDate, dates)
  else if decide (view = "month") then
    let startDate := new_Date (getFullYear currentDate) (getMonth currentDate) 1 in
    let endDate := new_Date (getFullYear currentDate) (getMonth currentDate + 1) 0 in
    let daysInMonth := getDate endDate in
    let dates := (λ i, dateInfo (new_Date (getFullYear currentDate)
                                          (getMonth currentDate) i))
                   <$> seqZ 1 daysInMonth in
    Some (startDate, endDate, dates)
  else None.

(** ORDER BY tp.day_of_week, tp.period_number *)
Definition by_day_and_number (p q : Period) : Prop :=
  tp_day_of_week p < tp_day_of_week q
  ∨ (tp_day_of_week p = tp_day_of_week q ∧ tp_period_number p ≤ tp_period_number q).

#[global] Instance by_day_and_number_dec : RelDecision by_day_and_number.
Proof. intros p q. unfold by_day_and_number. apply _. Defined.

(** SELECT DISTINCT tp.*, ... WHERE tp.teacher_id = $1 AND tp.class_id = $2
    AND tp.is_break = false ORDER BY tp.day_of_week, tp.period_number
    (lines 803-812).  The inner join with classes keeps every such row: the
    handler has already found the class. *)
Definition teacherPeriodsOnSameDays (db : DB) (teacherId classId : Z) : list Period :=
  merge_sort by_day_and_number
    (remove_dups
       (filter (λ tp, tp_teacher_id tp = Some teacherId
                    ∧ tp_class_id tp = Some classId
                    ∧ tp_is_break tp = false) (timetable_periods db))).

(** ** Rows that ORDER BY leaves in no fixed order

    ORDER BY fixes the order of the rows it tells apart; in which order the
    rows it compares equal come is the executor's choice.  A [RowOrder] is
    that choice: the order in which the selected rows reach the sort, which
    keeps the rows it compares equal in the order they came. *)
Record RowOrder := mkRowOrder {
  arrange : ∀ A : Type, list A → list A;
  arrange_Permutation : ∀ (A : Type) (l : list A), arrange A l ≡ₚ l
}.

Arguments arrange _ {A} _.

(** The rows in the order the model holds them. *)
Definition as_stored : RowOrder :=
  mkRowOrder (λ _ l, l) (λ _ l, reflexivity l).

(** ORDER BY a.date::date, st.roll_no *)
Definition by_date_and_roll (x y : Attendance * Student) : Prop :=
  day_number (a_date x.1) < day_number (a_date y.1)
  ∨ (day_number (a_date x.1) = day_number (a_date y.1)
     ∧ st_roll_no x.2 ≤ st_roll_no y.2).

#[global] Instance by_date_and_roll_dec : RelDecision by_date_and_roll.
Proof. intros x y. unfold by_date_and_roll. apply _. Defined.

(** FROM attendance a JOIN students st ON a.student_id = st.id
    WHERE st.class_id = $1 AND a.date >= $2 AND a.date <= $3
    ORDER BY a.date, st.roll_no (lines 815-835).  The left joins with the
    periods and subjects only add columns the grid does not read.  The
    records of one student on one date come in the order [order] gives. *)
Definition attendanceRecords (order : RowOrder) (db : DB) (classId : Z)
    (startDate endDate : Date) : list Attendance :=
  fst <$> merge_sort by_date_and_roll
    (arrange order
       (filter (λ x : Attendance * Student,
                  st_class_id x.2 = Some classId
                  ∧ day_number (a_date x.1) >= day_number startDate
                  ∧ day_number (a_date x.1) ≤ day_number endDate)
          (a ← attendance db;
           (λ st, (a, st)) <$>
             filter (λ st, a_student_id a = st_id st) (students db)))).

(** The bookmarks table (postgres.js, lines 343-354), which the database
    record does not carry: the history handler only reads it. *)
Record Bookmark := mkBookmark {
  b_id : Z;
  b_date : Date;
  b_title : string;
  b_description : option string;
  b_marked_by : option Z;
  b_class_id : option Z
}.

#[global] Instance Bookmark_eq_dec : EqDecision Bookmark.
Proof. solve_decision. Defined.

(** ON b.marked_by = u.id *)
Definition on_marked_by (b : Bookmark) (u : Z) : Prop := b_marked_by b = Some u.

#[global] Instance on_marked_by_dec b u : Decision (on_marked_by b u).
Proof. unfold on_marked_by. apply _. Defined.

(** SELECT b.*, u.name as marked_by_name FROM bookmarks b
    LEFT JOIN users u ON b.marked_by = u.id
    WHERE b.class_id = $1 AND b.date >= $2 AND b.date <= $3 ORDER BY b.date
    (lines 844-852).  The joined user stands for the name read from it. *)
Definition bookmarksInRange (order : RowOrder) (bookmarks : list Bookmark)
    (db : DB) (classId : Z) (startDate endDate : Date)
    : list (Bookmark * option Z) :=
  merge_sort (le_on (λ row : Bookmark * option Z, day_number (b_date row.1)))
    (arrange order
       (filter (λ row : Bookmark * option Z,
                  b_class_id row.1 = Some classId
                  ∧ day_number (b_date row.1) >= day_number startDate
                  ∧ day_number (b_date row.1) ≤ day_number endDate)
          (left_join on_marked_by bookmarks (users db)))).

(** Lines 862-873: the cells of one date, all null. *)
Definition init_cells (teacherPeriods : list Period) (date : Date) : Cells :=
  let dayOfWeek := getDay date in
  let adjustedDayOfWeek := if decide (dayOfWeek = 0) then 7 else dayOfWeek in
  let periodsForThisDay :=
    filter (λ period, tp_day_of_week period = adjustedDayOfWeek) teacherPeriods in
  if decide (0 < length periodsForThisDay)%nat then
    foldl (λ cells period, <[PeriodCell (tp_id period) := None]> cells)
          ∅ periodsForThisDay
  else {[ General := None ]}.

(** Lines 855-875. *)
Definition init_grid (students : list Student) (dates : list DateInfo)
    (teacherPeriods : list Period) : Grid :=
  foldl (λ grid student,
           <[st_id student :=
               foldl (λ row info,
                        <[di_date info := init_cells teacherPeriods (di_date info)]> row)
                     ∅ dates]> grid)
        ∅ students.

(** Lines 880-903: one turn of [attendanceRecords.forEach]. *)
Definition overlay_record (grid : Grid) (record : Attendance) : Grid :=
  let recordDate := a_date record in
  match grid !! a_student_id record with
  | None => grid
  | Some row =>
      let cells := default ∅ (row !! recordDate) in
      let key :=
        match a_period_id record with
        | Some period_id =>
            if decide (period_id ≠ 0 ∧ is_Some (cells !! PeriodCell period_id))
            then PeriodCell period_id else General
        | None => General
        end in
      <[a_student_id record :=
          <[recordDate := <[key := Some (a_status record)]> cells]> row]> grid
  end.

(** What the page is rendered from, but for [classInfo] and the session's
    user. *)
Record HistoryPage := mkHistoryPage {
  h_students : list Student;
  h_dates : list DateInfo;
  h_attendanceGrid : Grid;
  h_bookmarks : list (Bookmark * option Z);
  h_teacherPeriodsOnSameDays : list Period;
  h_view : string;
  h_currentDate : Date;
  h_prevDate : Date;
  h_nextDate : Date;
  h_startDate : Date;
  h_endDate : Date
}.

(** [None] is the redirect to the dashboard.  [view] is absent when the
    query string has none; [currentDate] is the parsed [date] parameter, or
    today.  [bookmarks] is the bookmarks table and [order] the order of
    the rows that the two ORDER BY clauses leave open. *)
Definition attendance_history (order : RowOrder) (bookmarks : list Bookmark)
    (db : DB) (teacherId classId : Z) (view : option string)
    (currentDate : Date) : option HistoryPage :=
  let view := default "week" view in
  match teacherAssignment db classId teacherId with
  | None => None
  | Some _ =>
      if decide (classId ∈ classes db) then
        let students :=
          merge_sort (le_on st_roll_no)
            (filter (λ st, st_class_id st = Some classId) (students db)) in
        match history_window view currentDate with
        | None => None
        | Some (startDate, endDate, dates) =>
            let teacherPeriods := teacherPeriodsOnSameDays db teacherId classId in
            let records := attendanceRecords order db classId startDate endDate in
            let bookmarks :=
              bookmarksInRange order bookmarks db classId startDate endDate in
            let attendanceGrid :=
              foldl overlay_record (init_grid students dates teacherPeriods) records in
            let prevDate :=
              if decide (view = "week")
              then setDate startDate (getDate startDate - 7)
              else new_Date (getFullYear currentDate) (getMonth currentDate - 1) 1 in
            let nextDate :=
              if decide (view = "week")
              then setDate startDate (getDate startDate + 7)
              else new_Date (getFullYear currentDate) (getMonth currentDate + 1) 1 in
            Some (mkHistoryPage students dates attendanceGrid bookmarks
                                teacherPeriods view currentDate
                                prevDate nextDate startDate endDate)
        end
      else None
  end.

End Server.
(** ** Statements about the Period Matcher *)

(** UNIQUE(class_id, day_of_week, period_number) on timetable_periods; rows
    whose class is NULL never collide. *)
Definition period_slot_unique (periods : list Period) : Prop :=
  ∀ p q, p ∈ periods → q ∈ periods →
    is_Some (tp_class_id p) →
    tp_class_id p = tp_class_id q →
    tp_day_of_week p = tp_day_of_week q →
    tp_period_number p = tp_period_number q →
    p = q.

(** What the contract of the matcher asks of a period at the instant
    (weekday, time of day), for a class and a teacher: the period is theirs,
    falls on the weekday, its closed interval holds the time, and it is no
    break. *)
Definition covers (classId teacherId day time : Z) (p : Period) : Prop :=
  tp_class_id p = Some classId
  ∧ tp_teacher_id p = Some teacherId
  ∧ tp_day_of_week p = day
  ∧ tp_start_time p ≤ time ≤ tp_end_time p
  ∧ tp_is_break p = false.

#[global] Instance covers_dec c t day time p : Decision (covers c t day time p).
Proof. unfold covers. apply _. Defined.

(** A Monday of class 5: a break of teacher 2 from 09:00 to 09:20 entered as
    period 0, then teacher 2's periods 1 (09:00-10:00) and 3 (09:30-10:30),
    which overlap, and teacher 3's period 2 (09:00-10:00). *)
Definition monday_class_5 : list Period :=
  [mkPeriod 9 (Some 5) 1 0 32400 33600 None (Some 2) true;
   mkPeriod 3 (Some 5) 1 3 34200 37800 None (Some 2) false;
   mkPeriod 1 (Some 5) 1 1 32400 36000 None (Some 2) false;
   mkPeriod 2 (Some 5) 1 2 32400 36000 None (Some 3) false].

(** ** Statements about the Attendance Recorder *)

(** The request is one the storage accepts: a date of the DATE type, a
    status the CHECK allows, a student id that is a 32-bit integer, and
    references that resolve. *)
Definition accepted (db : DB) (teacherId : Z) (req : MarkRequest) : Prop :=
  valid_date (mr_date req)
  ∧ status_check (mr_status req)
  ∧ int4 (mr_studentId req)
  ∧ mr_studentId req ∈ (st_id <$> students db)
  ∧ mr_classId req ∈ classes db
  ∧ teacherId ∈ users db.

#[global] Instance accepted_dec db teacherId req :
  Decision (accepted db teacherId req).
Proof. unfold accepted, status_check. apply _. Defined.

(** [after] is [before] with the record keyed (student, date, period)
    upserted: inserted if absent, else its status and marked-by overwritten;
    records under other keys are as they were. *)
Definition upserted (before after : list Attendance) (studentId classId : Z)
    (periodId : Z) (date : Date) (status : string) (markedBy : Z) : Prop :=
  (∃ a, a ∈ after ∧ same_key studentId date periodId a)
  ∧ (∀ a, a ∈ after → same_key studentId date periodId a →
       a_status a = status ∧ a_marked_by a = markedBy)
  ∧ (¬ Exists (same_key studentId date periodId) before →
       ∃ id, after = before ++ [mkAttendance id studentId (Some classId)
                                  (Some periodId) date status markedBy])
  ∧ (Exists (same_key studentId date periodId) before →
       after = (λ a, if decide (same_key studentId date periodId a)
                     then set_status_marked_by status markedBy a else a)
               <$> before)
  ∧ filter (λ a, ¬ same_key studentId date periodId a) after
    = filter (λ a, ¬ same_key studentId date periodId a) before.

(** Everything but the attendance rows and the id sequence is the same. *)
Definition same_other_tables (db db' : DB) : Prop :=
  users db' = users db ∧ classes db' = classes db
  ∧ students db' = students db
  ∧ timetable_periods db' = timetable_periods db.

(** UNIQUE(student_id, date, period_id) on attendance, for rows whose period
    is not NULL. *)
Definition attendance_key_unique (rows : list Attendance) : Prop :=
  ∀ s d p, (length (filter (same_key s d p) rows) ≤ 1)%nat.

(** The keys the constraint compares. *)
Definition attendance_keys (rows : list Attendance) : list (Z * Date * Z) :=
  omap (λ a, (λ p, (a_student_id a, a_date a, p)) <$> a_period_id a) rows.

(** A small database: class 5 with three students; teacher 2 has its first
    Monday period (09:00-10:00), teacher 3 the second (10:00-11:00). *)
Definition period_1 : Period := mkPeriod 1 (Some 5) 1 1 32400 36000 None (Some 2) false.
Definition period_2 : Period := mkPeriod 2 (Some 5) 1 2 36000 39600 None (Some 3) false.
Definition student_a : Student := mkStudent 10 1 (Some 5) "A".
Definition student_b : Student := mkStudent 11 2 (Some 5) "B".
Definition student_c : Student := mkStudent 12 3 (Some 5) "C".

(** Monday 11 March 2024. *)
Definition mar_11 : Date := mkDate 2024 2 11.

(** Student A on that Monday: present in period 1 (taken by teacher 2),
    absent in period 2 (taken by teacher 3), and a manual entry for the
    Friday before; student B has one manual entry; student C has none. *)
Definition rec_a1 : Attendance := mkAttendance 1 10 (Some 5) (Some 1) mar_11 "P" 2.
Definition rec_a2 : Attendance := mkAttendance 2 10 (Some 5) (Some 2) mar_11 "A" 3.
Definition rec_b : Attendance := mkAttendance 3 11 None None mar_11 "P" 2.
Definition rec_a0 : Attendance := mkAttendance 4 10 None None (mkDate 2024 2 8) "A" 2.

Definition sample_db : DB :=
  mkDB [2; 3] [5] [student_a; student_b; student_c] [period_1; period_2]
       [rec_a1; rec_a2; rec_b; rec_a0] 4.

(** Monday 11 March 2024, 09:30 and 09:45 in Asia/Kolkata. *)
Definition mar_11_0930 : Z := 19793 * 86400000 + 4 * 3600000.
Definition mar_11_0945 : Z := 19793 * 86400000 + 4 * 3600000 + 15 * 60000.

(** ** Statements about the Report Aggregator *)

(** PRIMARY KEY (id) on students and on timetable_periods. *)
Definition primary_keys (db : DB) : Prop :=
  NoDup (st_id <$> students db) ∧ NoDup (tp_id <$> timetable_periods db).

(** The timetable period an attendance record refers to, if any. *)
Definition period_of (periods : list Period) (a : Attendance) : option Period :=
  head (filter (λ tp, a_period_id a = Some (tp_id tp)) periods).

(** The lower bound on dates, as a day number: seven or thirty days before
    today's date (in UTC); none for any other period. *)
Definition window_start (period : string) (now : Z) : option Z :=
  if decide (period = "week") then Some (iso_date now - 7)
  else if decide (period = "month") then Some (iso_date now - 30)
  else None.

Definition in_window (since : option Z) (a : Attendance) : Prop :=
  match since with
  | Some bound => bound ≤ day_number (a_date a)
  | None => True
  end.

#[global] Instance in_window_dec since a : Decision (in_window since a).
Proof. destruct since; simpl; apply _. Defined.

(** The records of student [s] that the code counts for [teacherId]:
    those whose period is taught by that teacher. *)
Definition counted (db : DB) (teacherId : Z) (since : option Z) (s : Student)
    : list Attendance :=
  filter (λ a, a_student_id a = st_id s
             ∧ (period_of (timetable_periods db) a ≫= tp_teacher_id) = Some teacherId
             ∧ in_window since a)
         (attendance db).

(** The records section 4.5 of the specification says are counted: those
    of the teacher's periods and those with no period. *)
Definition spec_counted (db : DB) (teacherId : Z) (since : option Z) (s : Student)
    : list Attendance :=
  filter (λ a, a_student_id a = st_id s
             ∧ ((period_of (timetable_periods db) a ≫= tp_teacher_id) = Some teacherId
                ∨ a_period_id a = None)
             ∧ in_window since a)
         (attendance db).

(** The GROUP BY key of a student, and the joined rows of one student. *)
Definition student_key (s : Student) : Z * Z * string :=
  (st_id s, st_roll_no s, st_student_name s).

Definition student_rows (db : DB) (s : Student) : list JoinedRow :=
  left_join on_period (left_join on_student [s] (attendance db))
            (timetable_periods db).

(** [h] hundredths is [num / den] rounded to two decimals, halves upwards. *)
Definition rounded_2 (num den h : Z) : Prop :=
  - den < 2 * (h * den - num * 100) ≤ den.

(** The report row of student [s] over the records [recs]. *)
Definition row_over (s : Student) (recs : list Attendance) (row : ReportRow) : Prop :=
  roll_no row = st_roll_no s
  ∧ student_name row = st_student_name s
  ∧ total_days row = Z.of_nat (length recs)
  ∧ present_days row = Z.of_nat (length (filter (λ a, a_status a = "P") recs))
  ∧ absent_days row = Z.of_nat (length (filter (λ a, a_status a = "A") recs))
  ∧ match attendance_percentage row with
    | None => total_days row = 0
    | Some h => 0 < total_days row
                ∧ rounded_2 (present_days row * 100) (total_days row) h
    end.

(** Section 4.5 as the specification words it: every student of the class
    has a row, over the records of [spec_counted]. *)
Definition spec_report (db : DB) (teacherId classId : Z) (period : string)
    (now : Z) : Prop :=
  ∀ s, s ∈ students db → st_class_id s = Some classId →
    ∃ rows row,
      reports db teacherId classId (Some period) now = Some rows
      ∧ row ∈ rows
      ∧ row_over s (spec_counted db teacherId (window_start period now) s) row.

(** Tuesday 12 March 2024, 00:00 UTC. *)
Definition mar_12 : Z := 19794 * 86400000.

(** ** Statements about the History Grid Builder *)

(** [startDate .. endDate] is the Monday-to-Sunday week of [currentDate],
    and [dates] lists its seven days in order. *)
Definition is_week_of (currentDate startDate endDate : Date)
    (dates : list DateInfo) : Prop :=
  getDay startDate = 1 ∧ getDay endDate = 0
  ∧ endDate = add_days 6 startDate
  ∧ day_number endDate = day_number startDate + 6
  ∧ day_number startDate ≤ day_number currentDate ≤ day_number endDate
  ∧ (getDay currentDate = 0 → startDate = add_days (-6) currentDate)
  ∧ dates = (λ i, dateInfo (add_days i startDate)) <$> seqZ 0 7
  ∧ (λ info, day_number (di_date info)) <$> dates = seqZ (day_number startDate) 7
  ∧ currentDate ∈ di_date <$> dates.

(** [startDate .. endDate] is month [m] of year [y], and [dates] lists its
    days in order. *)
Definition is_month (y m : Z) (startDate endDate : Date)
    (dates : list DateInfo) : Prop :=
  startDate = mkDate y m 1
  ∧ endDate = mkDate y m (days_in_month y m)
  ∧ dates = (λ i, dateInfo (mkDate y m i)) <$> seqZ 1 (days_in_month y m).

(** [startDate .. endDate] is the calendar month of [currentDate], and
    [dates] lists its days in order. *)
Definition is_month_of (currentDate startDate endDate : Date)
    (dates : list DateInfo) : Prop :=
  is_month (d_year currentDate) (d_month currentDate) startDate endDate dates
  ∧ currentDate ∈ di_date <$> dates.

(** Sunday 10 March 2024. *)
Definition mar_10 : Date := mkDate 2024 2 10.

(** The weekday of a date in the timetable's convention: 1 = Monday ...
    7 = Sunday. *)
Definition day_of_week (date : Date) : Z :=
  if decide (getDay date = 0) then 7 else getDay date.

(** [p] is a non-break period of the teacher in the class, scheduled on the
    weekday of [date]. *)
Definition scheduled (teacherId classId : Z) (date : Date) (p : Period) : Prop :=
  tp_teacher_id p = Some teacherId
  ∧ tp_class_id p = Some classId
  ∧ tp_is_break p = false
  ∧ tp_day_of_week p = day_of_week date.

#[global] Instance scheduled_dec t c d p : Decision (scheduled t c d p).
Proof. unfold scheduled. apply _. Defined.

(** [grid[studentId][date][k]]; [None] is undefined. *)
Definition cell (grid : Grid) (studentId : Z) (date : Date) (k : CellKey)
    : option (option string) :=
  row ← grid !! studentId; cells ← row !! date; cells !! k.

(** The cell a record goes to: the cell of its period when the initialized
    grid has one for the record's student and date, else 'general'. *)
Definition target_cell (init : Grid) (record : Attendance) : CellKey :=
  match a_period_id record with
  | Some period_id =>
      if decide (is_Some (cell init (a_student_id record) (a_date record)
                               (PeriodCell period_id)))
      then PeriodCell period_id else General
  | None => General
  end.

(** The cell one turn of the overlay writes, read off the grid as it is
    at that turn. *)
Definition overlay_key (grid : Grid) (record : Attendance) : CellKey :=
  match a_period_id record with
  | Some period_id =>
      if decide (period_id ≠ 0
                 ∧ is_Some (cell grid (a_student_id record) (a_date record)
                                 (PeriodCell period_id)))
      then PeriodCell period_id else General
  | None => General
  end.

(** ** The instant the server's clock shows *)

(** The wall clock of Asia/Kolkata at [now], the manual offset of [off]
    minutes applied, in milliseconds. *)
Definition ist_ms (off now : Z) : Z := now + 19800000 + off * 60000.

(** The clock can be held by a [Date]. *)
Definition clock_in_range (off now : Z) : Prop :=
  - maxTime ≤ ist_ms off now ≤ maxTime.

#[global] Instance clock_in_range_dec off now : Decision (clock_in_range off now).
Proof. unfold clock_in_range. apply _. Defined.

(** The calendar day the clock shows. *)
Definition ist_day (off now : Z) : Date :=
  add_days (ist_ms off now / 86400000) (mkDate 1970 0 1).

(** The time of day the clock shows, to the minute, in seconds since
    midnight. *)
Definition ist_time (off now : Z) : Z :=
  ist_ms off now mod 86400000 / 60000 * 60.

(** ** Invariants of the stored data *)

(** One week, in milliseconds. *)
Definition msPerWeek : Z := 7 * 24 * 60 * 60 * 1000.

(** Every attendance row satisfies the column rules of the table, and no
    two rows share a (student, date, period) with a period. *)
Definition attendance_integrity (db : DB) : Prop :=
  attendance_key_unique (attendance db)
  ∧ Forall (λ a, attendance_row_ok db a ∧ valid_date (a_date a)) (attendance db).

(** [tp] gives the teacher access to the class: a non-break period of the
    teacher in it. *)
Definition teaches (classId teacherId : Z) (tp : Period) : Prop :=
  tp_class_id tp = Some classId
  ∧ tp_teacher_id tp = Some teacherId
  ∧ tp_is_break tp = false.

#[global] Instance teaches_dec c t tp : Decision (teaches c t tp).
Proof. unfold teaches. apply _. Defined.

(** UNIQUE(roll_no, class_id) on students; rows whose class is NULL never
    collide. *)
Definition roll_no_unique (sts : list Student) : Prop :=
  ∀ s1 s2, s1 ∈ sts → s2 ∈ sts →
    is_Some (st_class_id s1) → st_class_id s1 = st_class_id s2 →
    st_roll_no s1 = st_roll_no s2 → s1 = s2.

(** The Monday at or before [d]: 1 January 1970, day 0, was a Thursday. *)
Definition week_start (d : Date) : Date :=
  add_days (- ((day_number d + 3) mod 7)) d.

(** ** Attendance page: GET /teacher/class/:classId/attendance
    (server.js, lines 463-586) *)

(** [new Date().toISOString().split('T')[0]] as the DATE PostgreSQL reads
    it as: the UTC day of [now]. *)
Definition today_utc (now : Z) : Date :=
  add_days (iso_date now) (mkDate 1970 0 1).

(** [nextTime.setHours(nextTime.getHours() + 2)] and
    [toTimeString().slice(0, 5)]: the local clock two hours from now, as
    the TIME value of "HH:MM".  The zone is Asia/Kolkata; the manual offset
    is not applied here.  [None]: two hours from now is beyond the range of
    a [Date], and the string is no time. *)
Definition nextTimeString (now : Z) : option Z :=
  nextTime ← TimeClip (now + 2 * 3600000);
  let local := nextTime + 19800000 in
  Some ((local / 3600000) mod 24 * 3600 + (local / 60000) mod 60 * 60).

(** ON s.id = a.student_id AND a.date = $1 AND a.period_id = $2 *)
Definition on_today (today : Date) (periodId : Z) (s : Student)
    (a : Attendance) : Prop :=
  st_id s = a_student_id a ∧ a_date a = today ∧ a_period_id a = Some periodId.

#[global] Instance on_today_dec today periodId s a :
  Decision (on_today today periodId s a).
Proof. unfold on_today. apply _. Defined.

Definition dayNames : list string :=
  [EmptyString; "Monday"; "Tuesday"; "Wednesday"; "Thursday"; "Friday";
   "Saturday"; "Sunday"].

(** What the page is rendered from; a line of [ap_students] is [s.*] with
    the joined record, of which the view reads status and period_id. *)
Record AttendancePage := mkAttendancePage {
  ap_students : list (Student * option Attendance);
  ap_date : Date;
  ap_currentPeriodInfo : option Period;
  ap_upcomingPeriod : option Period;
  ap_currentTime : Z;
  ap_currentDayName : option string
}.

Section AttendancePage.

Variable TIME_OFFSET_MINUTES : Z.

(** [None] is the redirect to the dashboard, also taken when a query
    raises on a parameter that is NaN or no time. *)
Definition attendance_page (db : DB) (teacherId classId : Z) (now : Z)
    : option AttendancePage :=
  let today := today_utc now in
  match teacherAssignment db classId teacherId with
  | None => None
  | Some _ =>
      if decide (classId ∈ classes db) then
        match getCurrentDayOfWeek TIME_OFFSET_MINUTES now,
              getCurrentTime TIME_OFFSET_MINUTES now,
              nextTimeString now with
        | Some currentDay, Some currentTime, Some nextTime =>
            let currentPeriod :=
              teacherCurrentPeriod (timetable_periods db) classId teacherId
                currentDay currentTime in
            let students :=
              match currentPeriod with
              | Some currentPeriod =>
                  merge_sort (le_on (λ row : Student * option Attendance,
                                       st_roll_no row.1))
                    (filter (λ row : Student * option Attendance,
                               st_class_id row.1 = Some classId)
                       (left_join (on_today today (tp_id currentPeriod))
                          (students db) (attendance db)))
              | None =>
                  (λ s, (s, None)) <$>
                    merge_sort (le_on st_roll_no)
                      (filter (λ s, st_class_id s = Some classId) (students db))
              end in
            let currentPeriodInfo :=
              teacherCurrentPeriod (timetable_periods db) classId teacherId
                currentDay currentTime in
            let upcomingPeriod :=
              queryOne (merge_sort (le_on tp_start_time)
                (filter (λ tp, tp_class_id tp = Some classId
                             ∧ tp_teacher_id tp = Some teacherId
                             ∧ tp_day_of_week tp = currentDay
                             ∧ tp_start_time tp > currentTime
                             ∧ tp_start_time tp ≤ nextTime
                             ∧ tp_is_break tp = false) (timetable_periods db))) in
            Some (mkAttendancePage students today currentPeriodInfo
                    upcomingPeriod currentTime
                    (dayNames !! Z.to_nat currentDay))
        | _, _, _ => None
        end
      else None
  end.

End AttendancePage.

(** ** DELETE /api/admin/class/:classId/periods (server.js, lines
    1579-1614) *)

Inductive DeletePeriodsResponse :=
  | ClassNotFound
  | ClassPeriodsDeleted (periods attendance : nat).

(** [a] refers to a period of the class. *)
Definition in_class_period (periods : list Period) (classId : Z)
    (a : Attendance) : Prop :=
  Exists (λ tp, tp_class_id tp = Some classId ∧ a_period_id a = Some (tp_id tp))
         periods.

#[global] Instance in_class_period_dec periods classId a :
  Decision (in_class_period periods classId a).
Proof. unfold in_class_period. apply _. Defined.

(** DELETE FROM timetable_periods WHERE class_id = $1, with the cascade. *)
Definition delete_class_period_rows (db : DB) (classId : Z) : DB :=
  mkDB (users db) (classes db) (students db)
       (filter (λ tp, tp_class_id tp ≠ Some classId) (timetable_periods db))
       (filter (λ a, ¬ in_class_period (timetable_periods db) classId a)
               (attendance db))
       (attendance_id_seq db).

Definition delete_class_periods (db : DB) (classId : Z)
    : DeletePeriodsResponse * DB :=
  match queryOne (filter (λ c, c = classId) (classes db)) with
  | None => (ClassNotFound, db)
  | Some classDetails =>
      let periodCount :=
        length (filter (λ tp, tp_class_id tp = Some classId)
                       (timetable_periods db)) in
      let attendanceCount :=
        length (filter (λ a, a_class_id a = Some classId) (attendance db)) in
      (ClassPeriodsDeleted periodCount attendanceCount,
       delete_class_period_rows db classId)
  end.

(** The record's class is the class of its period, as for every record
    the Attendance Recorder writes. *)
Definition period_class_agrees (periods : list Period) (a : Attendance) : Prop :=
  match a_period_id a with
  | None => True
  | Some pid =>
      Exists (λ tp, tp_id tp = pid ∧ tp_class_id tp = a_class_id a) periods
  end.

#[global] Instance period_class_agrees_dec periods a :
  Decision (period_class_agrees periods a).
Proof. unfold period_class_agrees. destruct (a_period_id a); apply _. Defined.

(** The sample with a record of class 5 that has no period, as the table
    held them before it had a period column. *)
Definition rec_c : Attendance := mkAttendance 5 12 (Some 5) None mar_11 "P" 2.

Definition sample_db_manual : DB :=
  with_attendance sample_db (attendance sample_db ++ [rec_c]) 5.

(** ** Timetables by day *)

(** One entry of the object sent: [{ day, periods }]. *)
Record DaySchedule := mkDaySchedule {
  ds_day : string;
  ds_periods : list Period
}.

(** GET /api/timetable/:classId (server.js, lines 1323-1356).  The left
    joins with subjects and users add columns only. *)
Definition class_timetable (db : DB) (classId : Z) : gmap Z DaySchedule :=
  let timetable :=
    merge_sort by_day_and_number
      (filter (λ tp, tp_class_id tp = Some classId) (timetable_periods db)) in
  let days := ["Monday"; "Tuesday"; "Wednesday"; "Thursday"; "Friday";
               "Saturday"; "Sunday"] in
  foldl (λ organizedTimetable '(index, day),
           <[Z.of_nat index + 1 :=
               mkDaySchedule day
                 (filter (λ period, tp_day_of_week period = Z.of_nat index + 1)
                         timetable)]> organizedTimetable)
        ∅ (imap pair days).

(** GET /teacher/timetable (server.js, lines 633-725). *)
Record TimetablePage := mkTimetablePage {
  tt_timetable : gmap Z DaySchedule;
  tt_currentDayName : option string;
  tt_currentTime : option Z;          (* [None] is the empty string *)
  tt_currentPeriodInfo : option Period;
  tt_totalPeriods : nat;
  tt_uniqueClasses : nat;
  tt_uniqueSubjects : nat;
  tt_todayPeriods : nat
}.

(** [timetable[period.day_of_week].periods.push(period)], when the day has
    an entry. *)
Definition push_period (timetable : gmap Z DaySchedule) (period : Period)
    : gmap Z DaySchedule :=
  match timetable !! tp_day_of_week period with
  | Some entry =>
      <[tp_day_of_week period :=
          mkDaySchedule (ds_day entry) (ds_periods entry ++ [period])]> timetable
  | None => timetable
  end.

Section TeacherTimetable.

Variable TIME_OFFSET_MINUTES : Z.

(** [subjects] holds the primary keys of the subjects table, which the
    database record does not carry.  The inner joins keep the periods whose
    subject and class exist.  With an Invalid Date for a clock the
    current-period query raises on NaN, and the catch clause renders the
    empty page. *)
Definition teacher_timetable (subjects : list Z) (db : DB) (teacherId : Z)
    (now : Z) : TimetablePage :=
  match getCurrentDayOfWeek TIME_OFFSET_MINUTES now,
        getCurrentTime TIME_OFFSET_MINUTES now with
  | Some currentDay, Some currentTime =>
      let currentDayName := dayNames !! Z.to_nat currentDay in
      let allPeriods :=
        merge_sort by_day_and_number
          (filter (λ tp, Exists (λ s, tp_subject_id tp = Some s) subjects
                       ∧ Exists (λ c, tp_class_id tp = Some c) (classes db)
                       ∧ tp_teacher_id tp = Some teacherId
                       ∧ tp_is_break tp = false) (timetable_periods db)) in
      let days := ["Monday"; "Tuesday"; "Wednesday"; "Thursday"; "Friday";
                   "Saturday"] in
      let timetable :=
        foldl (λ timetable '(index, day),
                 <[Z.of_nat index + 1 := mkDaySchedule day []]> timetable)
              ∅ (imap pair days) in
      let timetable := foldl push_period timetable allPeriods in
      let currentPeriodInfo :=
        queryOne (merge_sort (le_on tp_period_number)
          (filter (λ tp, tp_teacher_id tp = Some teacherId
                       ∧ tp_day_of_week tp = currentDay
                       ∧ tp_start_time tp ≤ currentTime
                       ∧ tp_end_time tp >= currentTime
                       ∧ tp_is_break tp = false) (timetable_periods db))) in
      let totalPeriods := length allPeriods in
      let uniqueClasses := length (remove_dups (tp_class_id <$> allPeriods)) in
      let uniqueSubjects := length (remove_dups (tp_subject_id <$> allPeriods)) in
      let todayPeriods :=
        match timetable !! currentDay with
        | Some entry => length (ds_periods entry)
        | None => 0%nat
        end in
      mkTimetablePage timetable currentDayName (Some currentTime)
        currentPeriodInfo totalPeriods uniqueClasses uniqueSubjects todayPeriods
  | _, _ =>
      mkTimetablePage ∅ (Some EmptyString) None None 0 0 0 0
  end.

End TeacherTimetable.

(** The periods the teacher's timetable is built from: the teacher's
    non-break periods whose subject and class exist. *)
Definition teacher_periods (subjects : list Z) (db : DB) (teacherId : Z)
    : list Period :=
  filter (λ tp, Exists (λ s, tp_subject_id tp = Some s) subjects
              ∧ Exists (λ c, tp_class_id tp = Some c) (classes db)
              ∧ tp_teacher_id tp = Some teacherId
              ∧ tp_is_break tp = false) (timetable_periods db).

(** Decidable facts about concrete data are settled by evaluation. *)
Ltac by_decide := apply (bool_decide_unpack _); vm_compute; exact I.

(** * Rows kept by a WHERE clause *)

Lemma filter_eq_nil {A} (P : A → Prop) `{∀ x, Decision (P x)} (l : list A) :
  filter P l = [] ↔ ∀ x, x ∈ l → ¬ P x.
Proof.
  split.
  - intros Hnil x Hx HP. by eapply filter_nil_not_elem_of.
  - intros Hall. induction l as [|x l IH]; [done|].
    rewrite filter_cons_False by (apply Hall; left).
    apply IH. intros y Hy. apply Hall. by right.
Qed.

(** An UPDATE ... WHERE P whose SET clause keeps P true leaves the rows
    outside P alone. *)
Lemma filter_not_fmap_update {A} (P : A → Prop) `{∀ x, Decision (P x)}
    (f : A → A) (l : list A) :
  (∀ x, P x → P (f x)) →
  filter (λ x, ¬ P x) ((λ x, if decide (P x) then f x else x) <$> l)
  = filter (λ x, ¬ P x) l.
Proof.
  intros Hf. induction l as [|x l IH]; [done|]. rewrite fmap_cons.
  destruct (decide (P x)) as [HP|HP].
  - rewrite !filter_cons_False by (intros Hn; apply Hn; auto). done.
  - rewrite !filter_cons_True by done. by rewrite IH.
Qed.

(** * Period Matcher *)

Section order_by.
Context {A : Type} (key : A → Z).

#[global] Instance le_on_total : Total (le_on key).
Proof. intros x y. unfold le_on. lia. Qed.

#[global] Instance le_on_trans : Transitive (le_on key).
Proof. intros x y z. unfold le_on. lia. Qed.

(** ORDER BY key LIMIT 1 returns a row with the least key. *)
Lemma queryOne_order_by_Some (l : list A) (p : A) :
  queryOne (merge_sort (le_on key) l) = Some p →
  p ∈ l ∧ ∀ q, q ∈ l → key p ≤ key q.
Proof.
  unfold queryOne. intros Hhd.
  destruct (merge_sort (le_on key) l) as [|r rest] eqn:Hs; simplify_eq/=.
  pose proof (merge_sort_Permutation (le_on key) l) as Hperm.
  pose proof (StronglySorted_merge_sort (le_on key) l) as Hsorted.
  rewrite Hs in Hperm, Hsorted.
  split.
  - rewrite <- Hperm. left.
  - intros q Hq. rewrite <- Hperm in Hq.
    apply StronglySorted_inv in Hsorted as [_ Hall].
    apply elem_of_cons in Hq as [->|Hq]; [lia|].
    rewrite Forall_forall in Hall. by apply Hall.
Qed.

Lemma queryOne_order_by_None (l : list A) :
  queryOne (merge_sort (le_on key) l) = None ↔ l = [].
Proof.
  unfold queryOne. pose proof (merge_sort_Permutation (le_on key) l) as Hperm.
  split.
  - intros Hhd. destruct (merge_sort (le_on key) l); [|done].
    by apply Permutation_nil_l in Hperm.
  - intros ->. by apply Permutation_nil_r in Hperm as ->.
Qed.

Lemma queryOne_order_by_lowest (l : list A) (p : A) :
  (∀ x y, x ∈ l → y ∈ l → key x = key y → x = y) →
  p ∈ l → (∀ q, q ∈ l → key p ≤ key q) →
  queryOne (merge_sort (le_on key) l) = Some p.
Proof.
  intros Hinj Hp Hmin.
  destruct (queryOne (merge_sort (le_on key) l)) as [r|] eqn:Hr.
  - apply queryOne_order_by_Some in Hr as [Hrl Hrmin].
    f_equal. apply Hinj; [done..|].
    specialize (Hmin r Hrl). specialize (Hrmin p Hp). lia.
  - apply queryOne_order_by_None in Hr. subst. by apply elem_of_nil in Hp.
Qed.
End order_by.

(** The rows the current-period query keeps are the periods that cover the
    instant. *)
Lemma teacherCurrentPeriod_rows (periods : list Period) classId teacherId
    day time p :
  p ∈ filter (λ tp, tp_class_id tp = Some classId
                  ∧ tp_teacher_id tp = Some teacherId
                  ∧ tp_day_of_week tp = day
                  ∧ tp_start_time tp ≤ time
                  ∧ tp_end_time tp >= time
                  ∧ tp_is_break tp = false) periods
  ↔ p ∈ periods ∧ covers classId teacherId day time p.
Proof.
  rewrite list_elem_of_filter. unfold covers. split.
  - intros [(? & ? & ? & ? & ? & ?) ?]. split_and!; try done; lia.
  - intros [? (? & ? & ? & ? & ?)]. split_and!; try done; lia.
Qed.

Lemma teacherCurrentPeriod_Some_iff periods classId teacherId day time p :
  period_slot_unique periods →
  teacherCurrentPeriod periods classId teacherId day time = Some p ↔
    p ∈ periods
    ∧ covers classId teacherId day time p
    ∧ ∀ q, q ∈ periods → covers classId teacherId day time q →
           tp_period_number p ≤ tp_period_number q.
Proof.
  intros Huniq. unfold teacherCurrentPeriod. split.
  - intros [Hp Hmin]%queryOne_order_by_Some.
    apply teacherCurrentPeriod_rows in Hp as [Hp Hm]. split_and!; [done..|].
    intros q Hq Hmq. by apply Hmin, teacherCurrentPeriod_rows.
  - intros (Hp & Hm & Hmin). apply queryOne_order_by_lowest.
    + intros x y [Hx Hmx]%teacherCurrentPeriod_rows
        [Hy Hmy]%teacherCurrentPeriod_rows Hnum.
      destruct Hmx as (Hcx & _ & Hdx & _), Hmy as (Hcy & _ & Hdy & _).
      apply Huniq; try done; [by rewrite Hcx|congruence..].
    + by apply teacherCurrentPeriod_rows.
    + intros q [Hq Hmq]%teacherCurrentPeriod_rows. by apply Hmin.
Qed.

(** C3: at every instant (weekday and time of day) the Period Matcher --
    the current-period query, scoped to the class and the teacher --
    returns p iff p is a period of that class and teacher on the instant's
    weekday, its closed interval [start_time, end_time] holds the instant's
    time, p is no break, and p has the lowest period number among the
    periods of which this is true. *)
Theorem period_matcher_lowest_match periods classId teacherId day time p :
  period_slot_unique periods →
  teacherCurrentPeriod periods classId teacherId day time = Some p ↔
    p ∈ periods
    ∧ tp_class_id p = Some classId
    ∧ tp_teacher_id p = Some teacherId
    ∧ tp_day_of_week p = day
    ∧ tp_start_time p ≤ time ≤ tp_end_time p
    ∧ tp_is_break p = false
    ∧ ∀ q, q ∈ periods →
        tp_class_id q = Some classId → tp_teacher_id q = Some teacherId →
        tp_day_of_week q = day → tp_start_time q ≤ time ≤ tp_end_time q →
        tp_is_break q = false →
        tp_period_number p ≤ tp_period_number q.
Proof.
  intros Huniq. rewrite teacherCurrentPeriod_Some_iff by done.
  unfold covers. split.
  - intros (Hp & (? & ? & ? & ? & ?) & Hmin).
    split_and!; try done; try lia.
    intros q Hq ? ? ? ? ?. by apply Hmin.
  - intros (Hp & ? & ? & ? & ? & ? & Hmin).
    split_and!; try done; try lia.
    intros q Hq (? & ? & ? & ? & ?). by apply Hmin.
Qed.

Lemma monday_class_5_slot_unique : period_slot_unique monday_class_5.
Proof.
  intros p q Hp Hq _ _ _ Hnum. unfold monday_class_5 in Hp, Hq.
  rewrite !elem_of_cons, elem_of_nil in Hp, Hq.
  destruct_or!; subst; try done; by vm_compute in Hnum.
Qed.

(** Monday 09:45, class 5, teacher 2: the break is over, teacher 3's period
    is not the teacher's, and of the teacher's two overlapping periods the
    one numbered 1 is returned. *)
Lemma period_matcher_lowest_match_witness :
  teacherCurrentPeriod monday_class_5 5 2 1 35100
  = Some (mkPeriod 1 (Some 5) 1 1 32400 36000 None (Some 2) false).
Proof.
  apply (period_matcher_lowest_match monday_class_5 5 2 1 35100);
    [apply monday_class_5_slot_unique|].
  split_and!; try done; try by_decide.
  intros q Hq Hc Ht Hd Htime Hb. unfold monday_class_5 in Hq.
  rewrite !elem_of_cons, elem_of_nil in Hq.
  destruct_or!; subst; simpl in *; try done; lia.
Defined.

(** * Calendar arithmetic *)

Ltac each_month m :=
  let H := fresh in
  assert (m = 0 ∨ m = 1 ∨ m = 2 ∨ m = 3 ∨ m = 4 ∨ m = 5 ∨ m = 6 ∨ m = 7
          ∨ m = 8 ∨ m = 9 ∨ m = 10 ∨ m = 11) as H by lia;
  destruct_or! H; subst m.

Lemma DayFromYear_succ y :
  DayFromYear (y + 1) = DayFromYear y + (if is_leap y then 366 else 365).
Proof.
  unfold DayFromYear, is_leap.
  replace (y + 1 - 1969) with (y - 1968) by lia.
  replace (y + 1 - 1901) with (y - 1900) by lia.
  replace (y + 1 - 1601) with (y - 1600) by lia.
  destruct (Z.eqb_spec (y mod 4) 0), (Z.eqb_spec (y mod 100) 0),
    (Z.eqb_spec (y mod 400) 0); simpl;
    Z.div_mod_to_equations; lia.
Qed.

Lemma days_in_month_pos y m : 0 ≤ m ≤ 11 → 28 ≤ days_in_month y m ≤ 31.
Proof. intros Hm. each_month m; simpl; try destruct (is_leap y); lia. Qed.

Lemma next_day_valid d : calendar_date d → calendar_date (next_day d).
Proof.
  destruct d as [y m dd]. unfold calendar_date, next_day. simpl. intros [Hm Hd].
  repeat case_decide; simpl.
  - lia.
  - pose proof (days_in_month_pos y (m + 1)). lia.
  - simpl. lia.
Qed.

Lemma prev_day_valid d : calendar_date d → calendar_date (prev_day d).
Proof.
  destruct d as [y m dd]. unfold calendar_date, prev_day. simpl. intros [Hm Hd].
  repeat case_decide; simpl.
  - lia.
  - pose proof (days_in_month_pos y (m - 1)). lia.
  - simpl. lia.
Qed.

Lemma prev_next_day d : calendar_date d → prev_day (next_day d) = d.
Proof.
  destruct d as [y m dd]. unfold calendar_date, next_day, prev_day. simpl.
  intros [Hm Hd]. repeat (case_decide; simpl in * ); f_equal; try lia.
  - replace (m + 1 - 1) with m by lia. lia.
  - assert (m = 11) as -> by lia. simpl in *. lia.
Qed.

Lemma next_prev_day d : calendar_date d → next_day (prev_day d) = d.
Proof.
  destruct d as [y m dd]. unfold calendar_date, next_day, prev_day. simpl.
  intros [Hm Hd]. repeat (case_decide; simpl in * ); f_equal; lia.
Qed.

Lemma day_number_next_day d :
  calendar_date d → day_number (next_day d) = day_number d + 1.
Proof.
  destruct d as [y m dd]. unfold calendar_date, next_day, day_number. simpl.
  intros [Hm Hd]. repeat case_decide; simpl.
  - lia.
  - each_month m; simpl in *; try lia; destruct (is_leap y); lia.
  - assert (m = 11) as -> by lia. simpl in *.
    rewrite DayFromYear_succ. destruct (is_leap y); lia.
Qed.

Lemma day_number_prev_day d :
  calendar_date d → day_number (prev_day d) = day_number d - 1.
Proof.
  intros Hd. pose proof (day_number_next_day _ (prev_day_valid _ Hd)) as Hn.
  rewrite next_prev_day in Hn by done. lia.
Qed.

Lemma iter_next_day_valid k d :
  calendar_date d → calendar_date (Nat.iter k next_day d).
Proof. intros Hd. induction k; simpl; auto using next_day_valid. Qed.

Lemma iter_prev_day_valid k d :
  calendar_date d → calendar_date (Nat.iter k prev_day d).
Proof. intros Hd. induction k; simpl; auto using prev_day_valid. Qed.

Lemma add_days_valid n d : calendar_date d → calendar_date (add_days n d).
Proof.
  intros Hd. unfold add_days.
  case_decide; auto using iter_next_day_valid, iter_prev_day_valid.
Qed.

Lemma add_days_0 d : add_days 0 d = d.
Proof. done. Qed.

Lemma add_days_succ n d :
  calendar_date d → add_days (n + 1) d = next_day (add_days n d).
Proof.
  intros Hd. unfold add_days.
  destruct (decide (0 ≤ n)) as [Hn|Hn].
  - rewrite decide_True by lia.
    replace (Z.to_nat (n + 1)) with (S (Z.to_nat n)) by lia. done.
  - replace (Z.to_nat (- n)) with (S (Z.to_nat (- (n + 1)))) by lia.
    simpl. rewrite next_prev_day by by apply iter_prev_day_valid.
    destruct (decide (0 ≤ n + 1)); [|done].
    by replace (n + 1) with 0 by lia.
Qed.

Lemma add_days_pred n d :
  calendar_date d → add_days (n - 1) d = prev_day (add_days n d).
Proof.
  intros Hd.
  rewrite <- (prev_next_day (add_days (n - 1) d)) by by apply add_days_valid.
  rewrite <- add_days_succ by done. by replace (n - 1 + 1) with n by lia.
Qed.

Lemma add_days_add n m d :
  calendar_date d → add_days n (add_days m d) = add_days (n + m) d.
Proof.
  intros Hd. pose proof (add_days_valid m d Hd) as Hm.
  induction n as [|n IH|n IH] using Z.peano_ind.
  - done.
  - unfold Z.succ. rewrite add_days_succ, IH by done.
    replace (n + 1 + m) with (n + m + 1) by lia. by rewrite add_days_succ.
  - unfold Z.pred. replace (n + -1) with (n - 1) by lia.
    rewrite add_days_pred, IH by done.
    replace (n - 1 + m) with (n + m - 1) by lia. by rewrite add_days_pred.
Qed.

Lemma day_number_add_days n d :
  calendar_date d → day_number (add_days n d) = day_number d + n.
Proof.
  intros Hd. induction n as [|n IH|n IH] using Z.peano_ind.
  - rewrite add_days_0. lia.
  - unfold Z.succ. rewrite add_days_succ, day_number_next_day, IH
      by auto using add_days_valid. lia.
  - unfold Z.pred. replace (n + -1) with (n - 1) by lia.
    rewrite add_days_pred, day_number_prev_day, IH
      by auto using add_days_valid. lia.
Qed.

(** Counting from the first of a month stays in the month up to its last
    day. *)
Lemma add_days_in_month y m k :
  0 ≤ m ≤ 11 → 0 ≤ k < days_in_month y m →
  add_days k (mkDate y m 1) = mkDate y m (1 + k).
Proof.
  intros Hm [Hk0 Hk]. rewrite <- (Z2Nat.id k) in * by done.
  induction (Z.to_nat k) as [|j IH].
  - done.
  - rewrite Nat2Z.inj_succ in *. unfold Z.succ in *.
    rewrite add_days_succ.
    2:{ unfold calendar_date. simpl. lia. }
    rewrite IH by lia.
    unfold next_day. simpl. rewrite decide_True by lia. f_equal. lia.
Qed.

Lemma MakeDay_in_month y m i :
  0 ≤ m ≤ 11 → 1 ≤ i ≤ days_in_month y m → MakeDay y m i = mkDate y m i.
Proof.
  intros Hm Hi. unfold MakeDay.
  rewrite Z.div_small, Z.mod_small, Z.add_0_r by lia.
  rewrite add_days_in_month by lia. f_equal. lia.
Qed.

(** Day 0 of the following month is the last day of this one. *)
Lemma MakeDay_last_day y m :
  0 ≤ m ≤ 11 → MakeDay y (m + 1) 0 = mkDate y m (days_in_month y m).
Proof.
  intros Hm. unfold MakeDay.
  change (add_days (0 - 1) ?d) with (prev_day d).
  destruct (decide (m = 11)) as [->|Hne].
  - change ((11 + 1) / 12) with 1. change ((11 + 1) mod 12) with 0.
    unfold prev_day. simpl. f_equal. lia.
  - rewrite Z.div_small, Z.mod_small, Z.add_0_r by lia.
    unfold prev_day. simpl. rewrite decide_True by lia.
    by replace (m + 1 - 1) with m by lia.
Qed.

(** [setDate] moves a date by whole days. *)
Lemma setDate_add_days d n :
  calendar_date d → setDate d n = add_days (n - getDate d) d.
Proof.
  destruct d as [y m dd]. intros [Hm Hd]. simpl in *.
  unfold setDate, MakeDay, getFullYear, getMonth, getDate. simpl.
  rewrite Z.div_small, Z.mod_small, Z.add_0_r by lia.
  replace (n - 1) with ((n - dd) + (dd - 1)) by lia.
  assert (calendar_date (mkDate y m 1)) as Hfirst.
  { unfold calendar_date. simpl. lia. }
  rewrite <- add_days_add by done.
  rewrite add_days_in_month by lia. do 2 f_equal. lia.
Qed.

Lemma new_Date_in_month y m i :
  0 ≤ m ≤ 11 → 1 ≤ i ≤ days_in_month (full_year y) m →
  new_Date y m i = mkDate (full_year y) m i.
Proof. intros. by apply MakeDay_in_month. Qed.

Lemma new_Date_last_day y m :
  0 ≤ m ≤ 11 →
  new_Date y (m + 1) 0
  = mkDate (full_year y) m (days_in_month (full_year y) m).
Proof. intros. by apply MakeDay_last_day. Qed.

Lemma full_year_other y : ¬ 0 ≤ y ≤ 99 → full_year y = y.
Proof. intros. unfold full_year. by rewrite decide_False. Qed.

Lemma full_year_full y : full_year (full_year y) = full_year y.
Proof. unfold full_year. repeat case_decide; lia. Qed.

(** The day number of the epoch, and of the days counted from it. *)
Lemma day_number_from_epoch n :
  day_number (add_days n (mkDate 1970 0 1)) = n.
Proof. rewrite day_number_add_days by done. by vm_compute. Qed.

Lemma getDay_from_epoch n :
  getDay (add_days n (mkDate 1970 0 1)) = (n + 4) mod 7.
Proof. unfold getDay. by rewrite day_number_from_epoch. Qed.

(** * The clock *)

Lemma getNowIST_in_range off now :
  clock_in_range off now → getNowIST off now = Some (ist_ms off now).
Proof.
  intros Hrange. unfold getNowIST, TimeClip.
  replace (now + 19800000 + off * 60 * 1000) with (ist_ms off now)
    by (unfold ist_ms; lia).
  by rewrite decide_True.
Qed.

Lemma getNowIST_out_of_range off now :
  ¬ clock_in_range off now → getNowIST off now = None.
Proof.
  intros Hrange. unfold getNowIST, TimeClip.
  replace (now + 19800000 + off * 60 * 1000) with (ist_ms off now)
    by (unfold ist_ms; lia).
  by rewrite decide_False.
Qed.

Lemma getNowIST_is_Some off now :
  is_Some (getNowIST off now) ↔ clock_in_range off now.
Proof.
  destruct (decide (clock_in_range off now)) as [Hr|Hr].
  - rewrite getNowIST_in_range by done. split; [done|by eexists].
  - rewrite getNowIST_out_of_range by done. split; [by intros []|done].
Qed.

(** The weekday comes out as the weekday of the calendar day the clock
    shows. *)
Lemma getCurrentDayOfWeek_ist off now :
  clock_in_range off now →
  getCurrentDayOfWeek off now = Some (day_of_week (ist_day off now)).
Proof.
  intros Hrange. unfold getCurrentDayOfWeek.
  rewrite getNowIST_in_range by done. simpl.
  unfold day_of_week, ist_day. by rewrite getDay_from_epoch.
Qed.

Lemma getCurrentTime_ist off now :
  clock_in_range off now →
  getCurrentTime off now = Some (ist_time off now).
Proof.
  intros Hrange. unfold getCurrentTime.
  rewrite getNowIST_in_range by done. simpl. f_equal.
  unfold ist_time. remember (ist_ms off now) as x eqn:Hx. clear Hx Hrange.
  replace (x / 3600000) with (x / 60000 / 60)
    by (rewrite Z.div_div by lia; done).
  replace (x mod 86400000 / 60000) with (x / 60000 mod 1440).
  2:{ change 86400000 with (60000 * 1440).
      rewrite Z.rem_mul_r by lia.
      rewrite (Z.mul_comm 60000), Z.div_add by lia.
      rewrite (Z.div_small (x mod 60000)) by (apply Z.mod_pos_bound; lia).
      lia. }
  remember (x / 60000) as m eqn:Hm. clear Hm.
  Z.div_mod_to_equations. lia.
Qed.

Lemma clock_out_of_range off now :
  ¬ clock_in_range off now →
  getCurrentDayOfWeek off now = None ∧ getCurrentTime off now = None.
Proof.
  intros Hrange. unfold getCurrentDayOfWeek, getCurrentTime.
  by rewrite getNowIST_out_of_range.
Qed.

(** * Attendance Recorder *)

Lemma teacherCurrentPeriod_None periods classId teacherId day time :
  teacherCurrentPeriod periods classId teacherId day time = None ↔
  ∀ p, p ∈ periods → ¬ covers classId teacherId day time p.
Proof.
  unfold teacherCurrentPeriod. rewrite queryOne_order_by_None.
  rewrite filter_eq_nil. unfold covers. split; intros H p Hp.
  - intros (? & ? & ? & ? & ?). apply (H p Hp). split_and!; try done; lia.
  - intros (? & ? & ? & ? & ? & ?). apply (H p Hp).
    split_and!; try done; lia.
Qed.

Lemma teacherCurrentPeriod_elem_of periods classId teacherId day time p :
  teacherCurrentPeriod periods classId teacherId day time = Some p →
  p ∈ periods.
Proof.
  intros [Hp _]%queryOne_order_by_Some.
  by apply list_elem_of_filter in Hp as [_ Hp].
Qed.

Lemma status_check_varchar_1 status : status_check status → varchar_1 status.
Proof. intros [-> | ->]; by_decide. Qed.

Lemma upsert_attendance_accepted db studentId classId p date status markedBy :
  int4 studentId → int4 classId →
  valid_date date → status_check status →
  studentId ∈ (st_id <$> students db) → classId ∈ classes db →
  markedBy ∈ users db → p ∈ timetable_periods db →
  ∃ db', upsert_attendance db studentId classId (tp_id p) date status markedBy
           = (true, db')
    ∧ same_other_tables db db'
    ∧ upserted (attendance db) (attendance db') studentId classId (tp_id p)
               date status markedBy.
Proof.
  intros Hsid Hcid Hdate Hstatus Hstudent Hclass Huser Hp.
  unfold upsert_attendance.
  rewrite decide_True by by (split_and!; try done; apply status_check_varchar_1).
  destruct (decide (Exists _ (attendance db))) as [Hex|Hnex].
  - rewrite decide_True by done. eexists. split; [done|].
    split; [done|]. simpl. split_and!.
    + apply Exists_exists in Hex as (a & Ha & Hk).
      exists (set_status_marked_by status markedBy a). split.
      * apply list_elem_of_fmap. exists a. by rewrite decide_True.
      * destruct Hk as (? & ? & ?). done.
    + intros a (b & -> & Hb)%list_elem_of_fmap Hk.
      destruct (decide (same_key _ _ _ b)) as [|Hnk]; [done|]. by destruct Hnk.
    + done.
    + done.
    + apply (filter_not_fmap_update (same_key studentId date (tp_id p))).
      by intros a (? & ? & ?).
  - rewrite decide_True.
    2:{ split_and!; simpl; try done. apply list_elem_of_fmap. by exists p. }
    eexists. split; [done|]. split; [done|]. simpl. split_and!.
    + eexists. split; [apply elem_of_app; right; apply list_elem_of_singleton; done|].
      done.
    + intros a [Ha| ->%list_elem_of_singleton]%elem_of_app Hk; [|done].
      destruct Hnex. apply Exists_exists. eauto.
    + intros _. by eexists.
    + done.
    + rewrite filter_app, filter_cons_False, filter_nil, app_nil_r; [done|].
      intros []. done.
Qed.

(** C2: markAttendance resolves the teacher's current period from the live
    clock -- the weekday of the calendar day and the time of day that the
    IST clock shows at the instant of the call -- never from the date in
    the request.  When no period of that teacher in that class covers the
    instant it answers NoActivePeriod and the database is left as it was;
    when one does, the record keyed (student, date, resolved period) is
    upserted with the given status and the teacher as marked-by, the
    resolved period being the covering period of lowest number. *)
Theorem mark_attendance_uses_live_clock off db teacherId req now :
  clock_in_range off now → int4 (mr_classId req) →
  let day := day_of_week (ist_day off now) in
  let time := ist_time off now in
  ((∀ p, p ∈ timetable_periods db →
         ¬ covers (mr_classId req) teacherId day time p) →
   mark_attendance off db teacherId req now = (NoActivePeriod, db))
  ∧ (∀ p, period_slot_unique (timetable_periods db) →
          p ∈ timetable_periods db →
          covers (mr_classId req) teacherId day time p →
          (∀ q, q ∈ timetable_periods db →
                covers (mr_classId req) teacherId day time q →
                tp_period_number p ≤ tp_period_number q) →
          accepted db teacherId req →
          ∃ db', mark_attendance off db teacherId req now = (MarkSuccess, db')
            ∧ same_other_tables db db'
            ∧ upserted (attendance db) (attendance db') (mr_studentId req)
                (mr_classId req) (tp_id p) (mr_date req) (mr_status req)
                teacherId).
Proof.
  intros Hclock Hcid day time. unfold mark_attendance.
  rewrite getCurrentDayOfWeek_ist, getCurrentTime_ist by done.
  fold day time. rewrite decide_True by done. split.
  - intros Hnone%teacherCurrentPeriod_None. by rewrite Hnone.
  - intros p Huniq Hp Hcovers Hlowest
      (Hdate & Hstatus & Hsid & Hstudent & Hclass & Huser).
    assert (teacherCurrentPeriod (timetable_periods db) (mr_classId req)
              teacherId day time = Some p) as ->
      by by apply teacherCurrentPeriod_Some_iff.
    destruct (upsert_attendance_accepted db (mr_studentId req) (mr_classId req)
                p (mr_date req) (mr_status req) teacherId)
      as (db' & -> & Hframe & Hup); try done.
    by exists db'.
Qed.

(** Teacher 2 has the first Monday period of class 5, 09:00 to 10:00.  On
    Wednesday 13 March 2024 at 09:30 a mark for Monday the 11th is refused;
    on Monday the 11th at 09:30 it is stored under period 1. *)
Lemma mark_attendance_uses_live_clock_witness :
  mark_attendance 0 sample_db 2 (mkMarkRequest 11 5 "P" mar_11)
    (mar_11_0930 + 2 * 86400000)
  = (NoActivePeriod, sample_db)
  ∧ ∃ db', mark_attendance 0 sample_db 2 (mkMarkRequest 11 5 "P" mar_11)
             mar_11_0930
           = (MarkSuccess, db')
      ∧ same_other_tables sample_db db'
      ∧ upserted (attendance sample_db) (attendance db') 11 5 1 mar_11 "P" 2.
Proof.
  split.
  - apply (proj1 (mark_attendance_uses_live_clock 0 sample_db 2
                    (mkMarkRequest 11 5 "P" mar_11)
                    (mar_11_0930 + 2 * 86400000)
                    ltac:(by_decide) ltac:(by_decide))).
    intros p Hp. unfold sample_db in Hp. simpl in Hp.
    rewrite !elem_of_cons, elem_of_nil in Hp.
    destruct_or!; subst; try done; by_decide.
  - apply (proj2 (mark_attendance_uses_live_clock 0 sample_db 2
                    (mkMarkRequest 11 5 "P" mar_11) mar_11_0930
                    ltac:(by_decide) ltac:(by_decide)) period_1).
    + intros p q Hp Hq _ _ _ Hnum. unfold sample_db in Hp, Hq.
      simpl in Hp, Hq. rewrite !elem_of_cons, elem_of_nil in Hp, Hq.
      destruct_or!; subst; try done; by vm_compute in Hnum.
    + by_decide.
    + by_decide.
    + intros q Hq _. unfold sample_db in Hq. simpl in Hq.
      rewrite !elem_of_cons, elem_of_nil in Hq.
      destruct_or!; subst; try done; by_decide.
    + by_decide.
Defined.

(** What a successful upsert leaves behind. *)
Lemma upsert_attendance_success db studentId classId periodId date status
    markedBy db1 :
  upsert_attendance db studentId classId periodId date status markedBy
    = (true, db1) →
  valid_date date ∧ status_check status ∧ markedBy ∈ users db
  ∧ same_other_tables db db1
  ∧ ((Exists (same_key studentId date periodId) (attendance db)
      ∧ attendance db1
        = (λ a, if decide (same_key studentId date periodId a)
                then set_status_marked_by status markedBy a else a)
          <$> attendance db)
     ∨ (¬ Exists (same_key studentId date periodId) (attendance db)
        ∧ attendance db1
          = attendance db ++ [mkAttendance (attendance_id_seq db + 1) studentId
                                (Some classId) (Some periodId) date status
                                markedBy])).
Proof.
  unfold upsert_attendance. intros Hup.
  destruct (decide (int4 studentId ∧ _)) as [(? & ? & ? & ?)|]; [|done].
  destruct (decide (Exists _ _)) as [Hex|Hnex].
  - destruct (decide (status_check status ∧ _)) as [[? ?]|]; [|done].
    simplify_eq. split_and!; try done. by left.
  - destruct (decide (attendance_row_ok _ _)) as [(? & ? & ? & ? & ?)|]; [|done].
    simplify_eq. split_and!; try done. by right.
Qed.

(** The parameters of an upsert that ran could all be read. *)
Lemma upsert_attendance_success_params db studentId classId periodId date
    status markedBy db1 :
  upsert_attendance db studentId classId periodId date status markedBy
    = (true, db1) →
  int4 studentId ∧ int4 classId ∧ valid_date date ∧ varchar_1 status.
Proof.
  unfold upsert_attendance. intros Hup.
  by destruct (decide (int4 studentId ∧ _)).
Qed.

Lemma set_status_marked_by_id status markedBy a :
  a_status a = status → a_marked_by a = markedBy →
  set_status_marked_by status markedBy a = a.
Proof. destruct a. simpl. by intros -> ->. Qed.

Lemma filter_same_key_update s d p status markedBy (rows : list Attendance) :
  filter (same_key s d p)
    ((λ a, if decide (same_key s d p a)
           then set_status_marked_by status markedBy a else a) <$> rows)
  = set_status_marked_by status markedBy <$> filter (same_key s d p) rows.
Proof.
  induction rows as [|a rows IH]; [done|]. rewrite fmap_cons.
  destruct (decide (same_key s d p a)) as [Hk|Hk].
  - rewrite (filter_cons_True _ a) by done.
    rewrite filter_cons_True by (by destruct Hk as (? & ? & ?)).
    by rewrite fmap_cons, IH.
  - rewrite !filter_cons_False by done. done.
Qed.

Lemma attendance_keys_NoDup rows :
  NoDup (attendance_keys rows) → attendance_key_unique rows.
Proof.
  intros Hnd s d p. induction rows as [|a rows IH]; [simpl; lia|].
  unfold attendance_keys in Hnd. simpl in Hnd.
  destruct (decide (same_key s d p a)) as [(Hs & Hd & Hp)|Hk].
  - rewrite filter_cons_True by done. rewrite Hp in Hnd. simpl in Hnd.
    apply NoDup_cons in Hnd as [Hnew _].
    replace (filter (same_key s d p) rows) with (@nil Attendance); [simpl; lia|].
    symmetry. apply filter_eq_nil. intros b Hb (Hs' & Hd' & Hp'). apply Hnew.
    apply list_elem_of_omap. exists b. split; [done|].
    rewrite Hp'. simpl. congruence.
  - rewrite filter_cons_False by done. apply IH.
    destruct (a_period_id a); simpl in Hnd; [|done].
    by apply NoDup_cons in Hnd as [_ ?].
Qed.



(** * Deleting a timetable period *)

Lemma length_filter_split {A} (P : A → Prop) `{∀ x, Decision (P x)} (l : list A) :
  length l = (length (filter P l) + length (filter (λ x, ¬ P x) l))%nat.
Proof.
  rewrite <- length_app. apply Permutation_length.
  symmetry. apply filter_app_complement.
Qed.



(** * Bulk historical edit *)

Lemma left_join_elem_of {A B} (on : A → B → Prop) `{∀ a b, Decision (on a b)}
    (l : list A) (r : list B) (a : A) (ob : option B) :
  (a, ob) ∈ left_join on l r →
  a ∈ l ∧ ∀ b, ob = Some b → b ∈ r ∧ on a b.
Proof.
  unfold left_join. intros (a' & Hin & Ha')%list_elem_of_bind.
  destruct (filter (on a') r) as [|b0 bs] eqn:Hf.
  - apply list_elem_of_singleton in Hin. simplify_eq. split; [done|]. done.
  - apply list_elem_of_fmap in Hin as (b & ? & Hb). simplify_eq.
    split; [done|]. intros ? [= <-]. rewrite <- Hf in Hb.
    apply list_elem_of_filter in Hb as [? ?]. done.
Qed.

(** The attendance half of a joined row is a row of the attendance table. *)
Lemma report_from_attendance db (row : JoinedRow) a :
  row ∈ report_from db → row.1.2 = Some a → a ∈ attendance db.
Proof.
  destruct row as [[s oa] otp]. simpl. intros Hrow ->.
  unfold report_from in Hrow.
  apply left_join_elem_of in Hrow as [Hsa _].
  apply left_join_elem_of in Hsa as [_ Ha].
  by destruct (Ha a eq_refl).
Qed.

Lemma report_groups_attendance db classId teacherId period now g
    (row : JoinedRow) a :
  g ∈ report_groups db classId teacherId period now →
  row ∈ g.2 → row.1.2 = Some a → a ∈ attendance db.
Proof.
  unfold report_groups, group_by.
  intros (k & -> & _)%list_elem_of_fmap Hrow Ha. simpl in Hrow.
  apply list_elem_of_filter in Hrow as [_ Hrow].
  apply list_elem_of_filter in Hrow as [_ Hrow].
  by eapply report_from_attendance.
Qed.

Lemma status_check_nonempty status : status_check status → status ≠ EmptyString.
Proof. by intros [-> | ->]. Qed.

(** The three branches of one turn of the loop. *)
Lemma apply_change_branches db teacherId change :
  let studentId := ch_studentId change in
  let date := ch_date change in
  let status := ch_status change in
  int4 studentId → valid_date date →
  (status = EmptyString →
     apply_change db teacherId change
     = (true, with_attendance db
                (filter (λ a, ¬ student_date studentId date a) (attendance db))
                (attendance_id_seq db)))
  ∧ (status_check status →
     Exists (student_date studentId date) (attendance db) →
     apply_change db teacherId change
     = (true, with_attendance db
                ((λ a, if decide (student_date studentId date a)
                       then set_status status a else a) <$> attendance db)
                (attendance_id_seq db)))
  ∧ (status_check status →
     ¬ Exists (student_date studentId date) (attendance db) →
     studentId ∈ (st_id <$> students db) → teacherId ∈ users db →
     apply_change db teacherId change
     = (true, with_attendance db
                (attendance db ++ [mkAttendance (attendance_id_seq db + 1)
                                     studentId None None date status teacherId])
                (attendance_id_seq db + 1))).
Proof.
  intros studentId date status Hsid Hdate. unfold apply_change.
  fold studentId date status. split_and!.
  - intros Hempty. by rewrite !decide_True by done.
  - intros Hstatus Hex. rewrite decide_False by by apply status_check_nonempty.
    rewrite decide_True by done.
    apply Exists_exists in Hex as (a & Ha & Hsd). unfold queryOne.
    destruct (filter _ (attendance db)) as [|b rest] eqn:Hf.
    { destruct (filter_nil_not_elem_of _ _ a Hf Hsd Ha). }
    simpl. by rewrite decide_True by done.
  - intros Hstatus Hnex Hstudent Huser.
    rewrite decide_False by by apply status_check_nonempty.
    rewrite decide_True by done. unfold queryOne.
    replace (filter _ (attendance db)) with (@nil Attendance).
    2:{ symmetry. apply filter_eq_nil. intros x Hx Hsd. apply Hnex.
        apply Exists_exists. eauto. }
    simpl. rewrite decide_True by by apply status_check_varchar_1.
    by rewrite decide_True by (by split_and!).
Qed.

(** The UPDATE of the bulk edit, written out on the columns. *)
Lemma fmap_set_status s d status (rows : list Attendance) :
  (λ a, if decide (student_date s d a) then set_status status a else a) <$> rows
  = (λ a, if decide (student_date s d a)
          then mkAttendance (a_id a) (a_student_id a) (a_class_id a)
                            (a_period_id a) (a_date a) status (a_marked_by a)
          else a) <$> rows.
Proof. done. Qed.

(** C4: one entry (studentId, date, status) of the bulk edit.  With an
    empty status the attendance rows of that student and date are deleted;
    with a status and such a row present, the status of the row is updated
    -- the row then reads the new status, its other columns as before --
    and otherwise a row with no period (and no class) is inserted.  After a
    deletion no row of that student and date exists, and no group of any
    report counts one. *)
Theorem bulk_change_delete_update_insert db teacherId change :
  let studentId := ch_studentId change in
  let date := ch_date change in
  let status := ch_status change in
  int4 studentId → valid_date date →
  (status = EmptyString →
     ∃ db', apply_change db teacherId change = (true, db')
       ∧ same_other_tables db db'
       ∧ attendance db'
         = filter (λ a, ¬ student_date studentId date a) (attendance db)
       ∧ (∀ a, a ∈ attendance db' → ¬ student_date studentId date a)
       ∧ (∀ classId t period now g (row : JoinedRow) a,
            g ∈ report_groups db' classId t period now →
            row ∈ g.2 → row.1.2 = Some a → ¬ student_date studentId date a))
  ∧ (status_check status →
     Exists (student_date studentId date) (attendance db) →
     ∃ db', apply_change db teacherId change = (true, db')
       ∧ same_other_tables db db'
       ∧ attendance db'
         = (λ a, if decide (student_date studentId date a)
                 then mkAttendance (a_id a) (a_student_id a) (a_class_id a)
                        (a_period_id a) (a_date a) status (a_marked_by a)
                 else a) <$> attendance db
       ∧ Exists (student_date studentId date) (attendance db')
       ∧ (∀ a, a ∈ attendance db' → student_date studentId date a →
               a_status a = status))
  ∧ (status_check status →
     ¬ Exists (student_date studentId date) (attendance db) →
     studentId ∈ (st_id <$> students db) → teacherId ∈ users db →
     ∃ db' id, apply_change db teacherId change = (true, db')
       ∧ same_other_tables db db'
       ∧ attendance db'
         = attendance db ++ [mkAttendance id studentId None None date status
                               teacherId]).
Proof.
  intros studentId date status Hsid Hdate.
  destruct (apply_change_branches db teacherId change Hsid Hdate)
    as (Hdel & Hupd & Hins).
  fold studentId date status in Hdel, Hupd, Hins. split_and!.
  - intros Hempty. rewrite Hdel by done.
    eexists. split; [done|]. split; [done|]. simpl. split; [done|].
    assert (∀ a, a ∈ filter (λ a, ¬ student_date studentId date a)
                     (attendance db) → ¬ student_date studentId date a) as Hgone.
    { by intros a [? _]%list_elem_of_filter. }
    split; [done|].
    intros classId t period now g row a Hg Hrow Ha. apply Hgone.
    by eapply (report_groups_attendance (with_attendance db _ _)).
  - intros Hstatus Hex. rewrite Hupd by done.
    eexists. split; [done|]. split; [done|]. simpl.
    rewrite fmap_set_status. split; [done|]. split.
    + apply Exists_exists in Hex as (a & Ha & Hsd).
      apply Exists_exists. eexists. split.
      * apply list_elem_of_fmap. exists a. split; [done|exact Ha].
      * rewrite decide_True by done. exact Hsd.
    + intros a (b & -> & Hb)%list_elem_of_fmap Hsd.
      destruct (decide (student_date studentId date b)) as [|Hn]; [done|].
      by destruct Hn.
  - intros Hstatus Hnex Hstudent Huser. rewrite Hins by done. by eexists _, _.
Qed.

(** On the sample: Monday is cleared for student A; student A is set absent
    for Monday, which rewrites the row marked present; student C, who has
    no row, gets one. *)
Lemma bulk_change_delete_update_insert_witness :
  (∃ db', apply_change sample_db 2 (mkChange 10 mar_11 EmptyString) = (true, db')
     ∧ attendance db' = [rec_b; rec_a0])
  ∧ (∃ db', apply_change sample_db 2 (mkChange 10 mar_11 "A") = (true, db')
       ∧ attendance db'
         = [mkAttendance 1 10 (Some 5) (Some 1) mar_11 "A" 2; rec_a2; rec_b;
            rec_a0])
  ∧ (∃ db' id, apply_change sample_db 2 (mkChange 12 mar_11 "P") = (true, db')
       ∧ attendance db'
         = attendance sample_db ++ [mkAttendance id 12 None None mar_11 "P" 2]).
Proof.
  split_and!.
  - destruct (proj1 (bulk_change_delete_update_insert sample_db 2
                       (mkChange 10 mar_11 EmptyString)
                       ltac:(by_decide) ltac:(by_decide)))
      as (db' & Hchange & _ & Hrows & _); [reflexivity|].
    exists db'. split; [done|]. by rewrite Hrows.
  - destruct (proj1 (proj2 (bulk_change_delete_update_insert sample_db 2
                       (mkChange 10 mar_11 "A")
                       ltac:(by_decide) ltac:(by_decide))))
      as (db' & Hchange & _ & Hrows & _); [by_decide|by_decide|].
    exists db'. split; [done|]. by rewrite Hrows.
  - destruct (proj2 (proj2 (bulk_change_delete_update_insert sample_db 2
                       (mkChange 12 mar_11 "P")
                       ltac:(by_decide) ltac:(by_decide))))
      as (db' & id & Hchange & _ & Hrows); [by_decide..|].
    by exists db', id.
Defined.

(** C5: in the bulk edit, the delete branch and the update branch act on
    every attendance row of the (student, date), whatever its period_id:
    rows attributed to a timetable period, of the calling teacher or of
    another, are deleted or given the new status along with the period-less
    one, and the rows of other students or dates are untouched. *)
Theorem bulk_update_ignores_period db teacherId classId change :
  let studentId := ch_studentId change in
  let date := ch_date change in
  let status := ch_status change in
  is_Some (teacherAssignment db classId teacherId) →
  int4 studentId → valid_date date →
  (status = EmptyString →
     ∃ db', bulk_update db teacherId classId [change] = (BulkSuccess 1, db')
       ∧ (∀ a, a ∈ attendance db →
               a_student_id a = studentId → a_date a = date →
               a ∉ attendance db')
       ∧ (∀ a, a ∈ attendance db' ↔
               a ∈ attendance db
               ∧ ¬ (a_student_id a = studentId ∧ a_date a = date)))
  ∧ (status_check status →
     Exists (student_date studentId date) (attendance db) →
     ∃ db', bulk_update db teacherId classId [change] = (BulkSuccess 1, db')
       ∧ length (attendance db') = length (attendance db)
       ∧ (∀ i a, attendance db !! i = Some a →
               a_student_id a = studentId → a_date a = date →
               ∃ a', attendance db' !! i = Some a'
                 ∧ a_status a' = status
                 ∧ a_id a' = a_id a
                 ∧ a_student_id a' = a_student_id a
                 ∧ a_class_id a' = a_class_id a
                 ∧ a_period_id a' = a_period_id a
                 ∧ a_date a' = a_date a
                 ∧ a_marked_by a' = a_marked_by a)
       ∧ (∀ i a, attendance db !! i = Some a →
               ¬ (a_student_id a = studentId ∧ a_date a = date) →
               attendance db' !! i = Some a)).
Proof.
  intros studentId date status [x Hassign] Hsid Hdate.
  destruct (apply_change_branches db teacherId change Hsid Hdate)
    as (Hdel & Hupd & _).
  fold studentId date status in Hdel, Hupd.
  unfold bulk_update. rewrite Hassign. cbn [apply_changes]. split.
  - intros Hempty. rewrite Hdel by done. eexists. split; [done|].
    cbn [with_attendance attendance]. split.
    + intros a _ Hs Hd [Hn _]%list_elem_of_filter. by apply Hn.
    + intros a. rewrite list_elem_of_filter. unfold student_date. tauto.
  - intros Hstatus Hex. rewrite Hupd by done. eexists. split; [done|].
    cbn [with_attendance attendance]. rewrite fmap_set_status. split_and!.
    + by rewrite length_fmap.
    + intros i a Hi Hs Hd. rewrite list_lookup_fmap, Hi. simpl.
      rewrite decide_True by done. eexists. split; [done|]. done.
    + intros i a Hi Hn. rewrite list_lookup_fmap, Hi. simpl.
      by rewrite decide_False.
Qed.

(** Teacher 2 clears Monday for student A: the record that teacher 3 took
    in period 2 goes as well.  Teacher 3 sets student A present for that
    Monday: the record that teacher 2 took in period 1 is rewritten along
    with teacher 3's own. *)
Lemma bulk_update_ignores_period_witness :
  (∃ db', bulk_update sample_db 2 5 [mkChange 10 mar_11 EmptyString]
          = (BulkSuccess 1, db')
     ∧ rec_a2 ∉ attendance db')
  ∧ (∃ db' a1 a2, bulk_update sample_db 3 5 [mkChange 10 mar_11 "P"]
                  = (BulkSuccess 1, db')
       ∧ attendance db' !! 0%nat = Some a1
       ∧ a_period_id a1 = Some 1 ∧ a_marked_by a1 = 2 ∧ a_status a1 = "P"
       ∧ attendance db' !! 1%nat = Some a2
       ∧ a_period_id a2 = Some 2 ∧ a_marked_by a2 = 3 ∧ a_status a2 = "P").
Proof.
  split.
  - destruct (proj1 (bulk_update_ignores_period sample_db 2 5
                       (mkChange 10 mar_11 EmptyString)
                       ltac:(by eexists) ltac:(by_decide) ltac:(by_decide)))
      as (db' & Hbulk & Hgone & _); [reflexivity|].
    exists db'. split; [done|]. apply (Hgone rec_a2); [by_decide|done..].
  - destruct (proj2 (bulk_update_ignores_period sample_db 3 5
                       (mkChange 10 mar_11 "P")
                       ltac:(by eexists) ltac:(by_decide) ltac:(by_decide)))
      as (db' & Hbulk & _ & Hupd & _); [by_decide..|].
    destruct (Hupd 0%nat rec_a1) as (a1 & H1 & Hs1 & _ & _ & _ & Hp1 & _ & Hm1);
      [done..|].
    destruct (Hupd 1%nat rec_a2) as (a2 & H2 & Hs2 & _ & _ & _ & Hp2 & _ & Hm2);
      [done..|].
    exists db', a1, a2. by rewrite Hp1, Hm1, Hp2, Hm2.
Defined.

(** * Report Aggregator *)

Lemma report_since_window_start period now :
  report_since period now = window_start period now.
Proof.
  unfold report_since, window_start, iso_date.
  repeat case_decide; try done; f_equal.
  - replace (now - 7 * 24 * 60 * 60 * 1000) with (now + (-7) * 86400000) by lia.
    rewrite Z.div_add by lia. lia.
  - replace (now - 30 * 24 * 60 * 60 * 1000) with (now + (-30) * 86400000) by lia.
    rewrite Z.div_add by lia. lia.
Qed.

Lemma round_2_rounded num den :
  0 < den → rounded_2 num den (round_2 num den).
Proof.
  intros Hden. unfold rounded_2, round_2.
  pose proof (Z.div_mod (2 * (num * 100) + den) (2 * den) ltac:(lia)) as Hdm.
  pose proof (Z.mod_pos_bound (2 * (num * 100) + den) (2 * den) ltac:(lia)).
  nia.
Qed.

Section joins.
Context {A B : Type} (on : A → B → Prop) `{∀ a b, Decision (on a b)}.

Lemma left_join_cons a l r :
  left_join on (a :: l) r = left_join on [a] r ++ left_join on l r.
Proof. unfold left_join. simpl. by rewrite app_nil_r. Qed.

Lemma left_join_app l1 l2 r :
  left_join on (l1 ++ l2) r = left_join on l1 r ++ left_join on l2 r.
Proof. unfold left_join. by rewrite bind_app. Qed.

Lemma left_join_nil r : left_join on [] r = [].
Proof. done. Qed.

Lemma left_join_fst (row : A * option B) l r :
  row ∈ left_join on l r → row.1 ∈ l.
Proof. destruct row. intros Hin. by apply left_join_elem_of in Hin as [? _]. Qed.
End joins.

(** With a primary key on the right, a left join extends each row once. *)
Lemma filter_key_at_most_one {A} (f : A → Z) (k : Z) (l : list A) :
  NoDup (f <$> l) → (length (filter (λ x, f x = k) l) ≤ 1)%nat.
Proof.
  induction l as [|x l IH]; [simpl; lia|].
  rewrite fmap_cons. intros [Hx Hl]%NoDup_cons.
  destruct (decide (f x = k)) as [Hk|Hk].
  - rewrite filter_cons_True by done.
    replace (filter (λ x, f x = k) l) with (@nil A); [simpl; lia|].
    symmetry. apply filter_eq_nil. intros y Hy Hyk. apply Hx.
    apply list_elem_of_fmap. exists y. split; [congruence|done].
  - rewrite filter_cons_False by done. auto.
Qed.

Lemma on_period_at_most_one s a periods :
  NoDup (tp_id <$> periods) →
  (length (filter (on_period (s, Some a)) periods) ≤ 1)%nat.
Proof.
  intros Hpk. destruct (a_period_id a) as [pid|] eqn:Hpid.
  - rewrite (list_filter_iff _ (λ tp, tp_id tp = pid)).
    + by apply filter_key_at_most_one.
    + intros tp. unfold on_period. simpl. rewrite Hpid.
      split; [by intros [= <-]|by intros ->].
  - replace (filter (on_period (s, Some a)) periods) with (@nil Period);
      [simpl; lia|].
    symmetry. apply filter_eq_nil. intros tp _. unfold on_period. simpl.
    by rewrite Hpid.
Qed.

Lemma period_of_on_period s a periods :
  period_of periods a = head (filter (on_period (s, Some a)) periods).
Proof. reflexivity. Qed.

Lemma left_join_on_period l periods :
  NoDup (tp_id <$> periods) →
  left_join on_period l periods
  = (λ sa : Student * option Attendance,
       (sa, match sa.2 with Some a => period_of periods a | None => None end))
    <$> l.
Proof.
  intros Hpk. induction l as [|[s oa] l IH]; [done|].
  rewrite left_join_cons, IH, fmap_cons.
  change (?x :: ?l) with ([x] ++ l) at 2. f_equal.
  unfold left_join. simpl. rewrite app_nil_r.
  destruct oa as [a|]; simpl.
  - rewrite (period_of_on_period s).
    pose proof (on_period_at_most_one s a periods Hpk) as Hlen.
    destruct (filter (on_period (s, Some a)) periods) as [|tp [|tp' rest]];
      simpl in *; [done|done|lia].
  - replace (filter (on_period (s, None)) periods) with (@nil Period); [done|].
    symmetry. apply filter_eq_nil. by intros tp _ Hon.
Qed.

Lemma report_from_bind db :
  report_from db = students db ≫= student_rows db.
Proof.
  unfold report_from, student_rows.
  induction (students db) as [|s l IH]; [done|].
  rewrite left_join_cons, left_join_app, IH. done.
Qed.

Lemma student_rows_student db s (row : JoinedRow) :
  row ∈ student_rows db s → row.1.1 = s.
Proof.
  unfold student_rows. intros Hrow%left_join_fst%left_join_fst.
  by apply list_elem_of_singleton in Hrow.
Qed.

Lemma filter_all {A} (P : A → Prop) `{∀ x, Decision (P x)} (l : list A) :
  (∀ x, x ∈ l → P x) → filter P l = l.
Proof.
  intros Hall. induction l as [|x l IH]; [done|].
  rewrite filter_cons_True by (apply Hall; left).
  f_equal. apply IH. intros y Hy. apply Hall. by right.
Qed.

Lemma filter_fmap_comm {A B} (f : A → B) (P : B → Prop) `{∀ y, Decision (P y)}
    (l : list A) :
  filter P (f <$> l) = f <$> filter (λ x, P (f x)) l.
Proof.
  induction l as [|x l IH]; [done|]. rewrite fmap_cons.
  destruct (decide (P (f x))).
  - rewrite !filter_cons_True by done. by rewrite fmap_cons, IH.
  - rewrite !filter_cons_False by done. done.
Qed.

(** GROUP BY with a primary key in the key: the rows under a student's key
    are that student's rows. *)
Lemma filter_key_student_rows db (W : JoinedRow → Prop) `{∀ r, Decision (W r)}
    (l : list Student) s :
  NoDup (st_id <$> l) → s ∈ l →
  filter (λ row, report_key row = student_key s)
    (filter W (l ≫= student_rows db)) = filter W (student_rows db s).
Proof.
  assert (∀ y, st_id y ≠ st_id s →
               filter (λ row, report_key row = student_key s)
                 (filter W (student_rows db y)) = []) as Hother.
  { intros y Hid. apply filter_eq_nil.
    intros row [_ Hrow%student_rows_student]%list_elem_of_filter Hkey.
    apply Hid. unfold report_key, student_key in Hkey. by simplify_eq. }
  induction l as [|x l IH]; [by intros _ ?%elem_of_nil|].
  rewrite fmap_cons. intros [Hx Hl]%NoDup_cons Hs.
  rewrite bind_cons, !filter_app.
  destruct (decide (x = s)) as [->|Hne].
  - rewrite (filter_all (λ row, report_key row = student_key s)).
    2:{ intros row [_ Hrow%student_rows_student]%list_elem_of_filter.
        unfold report_key, student_key. by rewrite Hrow. }
    replace (filter _ (filter W (l ≫= student_rows db))) with (@nil JoinedRow).
    { by rewrite app_nil_r. }
    symmetry. apply filter_eq_nil.
    intros row [_ (y & Hrow & Hy)%list_elem_of_bind]%list_elem_of_filter Hkey.
    apply student_rows_student in Hrow. apply Hx.
    apply list_elem_of_fmap. exists y. split; [|done].
    unfold report_key, student_key in Hkey. by simplify_eq.
  - apply elem_of_cons in Hs as [->|Hs]; [done|].
    rewrite Hother, IH by
      (try done; intros Hid; apply Hx; rewrite Hid;
       apply list_elem_of_fmap; by exists s).
    done.
Qed.

(** The groups under one key: at most one, holding the rows of that key. *)
Lemma group_by_key {A K} `{EqDecision K} (key : A → K) (l : list A) (k : K) :
  filter (λ g, g.1 = k) (group_by key l)
  = match filter (λ x, key x = k) l with
    | [] => []
    | rows => [(k, rows)]
    end.
Proof.
  unfold group_by.
  rewrite (filter_fmap_comm _ (λ g : K * list A, g.1 = k)). simpl.
  assert (∀ ks : list K, NoDup ks →
            filter (λ k', k' = k) ks = if decide (k ∈ ks) then [k] else [])
    as Hnd.
  { induction ks as [|k' ks IH]; [done|]. intros [Hk' Hks]%NoDup_cons.
    destruct (decide (k' = k)) as [->|Hne].
    - rewrite filter_cons_True by done. rewrite decide_True by left.
      f_equal. apply filter_eq_nil. by intros ? ? ->.
    - rewrite filter_cons_False by done. rewrite IH by done.
      apply decide_ext. rewrite elem_of_cons.
      split; [by right|by intros [->|]]. }
  rewrite Hnd by apply NoDup_remove_dups.
  destruct (filter (λ x, key x = k) l) as [|r rs] eqn:Hf.
  - rewrite decide_False; [done|].
    rewrite elem_of_remove_dups. intros (x & Hk & Hx)%list_elem_of_fmap.
    by destruct (filter_nil_not_elem_of _ _ x Hf).
  - rewrite decide_True; [by rewrite <- Hf|].
    rewrite elem_of_remove_dups. apply list_elem_of_fmap.
    assert (r ∈ filter (λ x, key x = k) l) as [? ?]%list_elem_of_filter
      by (rewrite Hf; left).
    by exists r.
Qed.

(** The joined rows of a student, one for each of the student's records,
    or a single NULL-extended row when there is none. *)
Lemma student_rows_records db s :
  NoDup (tp_id <$> timetable_periods db) →
  student_rows db s
  = match filter (on_student s) (attendance db) with
    | [] => [(s, None, None)]
    | recs => (λ a, (s, Some a, period_of (timetable_periods db) a)) <$> recs
    end.
Proof.
  intros Hpk. unfold student_rows. rewrite left_join_on_period by done.
  unfold left_join. simpl. rewrite app_nil_r.
  destruct (filter (on_student s) (attendance db)) as [|a recs]; [done|].
  rewrite fmap_cons. simpl. f_equal.
  induction recs as [|b recs IH]; [done|]. simpl. by f_equal.
Qed.

Lemma count_id_records s (f : Attendance → option Period) recs :
  count_id ((λ a, (s, Some a, f a)) <$> recs) = Z.of_nat (length recs).
Proof.
  unfold count_id. rewrite filter_all, length_fmap; [done|].
  intros row (a & -> & _)%list_elem_of_fmap. by eexists.
Qed.

Lemma sum_status_records c s (f : Attendance → option Period) recs :
  sum_status c ((λ a, (s, Some a, f a)) <$> recs)
  = Z.of_nat (length (filter (λ a, a_status a = c) recs)).
Proof.
  unfold sum_status.
  rewrite (filter_fmap_comm _ (λ row : JoinedRow, a_status <$> row.1.2 = Some c)).
  rewrite length_fmap. do 2 f_equal. apply list_filter_iff.
  intros a. simpl. split; [by intros [= ->]|by intros ->].
Qed.

(** The rows of a student of the class that the WHERE clause keeps. *)
Lemma report_where_student_rows db classId teacherId since s :
  NoDup (tp_id <$> timetable_periods db) →
  st_class_id s = Some classId →
  filter (report_where classId teacherId since) (student_rows db s)
  = match filter (on_student s) (attendance db) with
    | [] => [(s, None, None)]
    | _ => (λ a, (s, Some a, period_of (timetable_periods db) a))
             <$> counted db teacherId since s
    end.
Proof.
  intros Hpk Hclass. rewrite student_rows_records by done.
  destruct (filter (on_student s) (attendance db)) as [|a0 recs] eqn:Hrecs.
  - rewrite filter_cons_True; [done|].
    unfold report_where. simpl. split_and!; [done|by right|by destruct since].
  - rewrite <- Hrecs.
    rewrite (filter_fmap_comm _ (report_where classId teacherId since)).
    f_equal. unfold counted. rewrite list_filter_filter.
    apply list_filter_iff. intros a. unfold report_where, on_student. simpl.
    destruct since as [b|]; simpl; split.
    + intros [(_ & [?|?] & ?) ?]; [|done]. split_and!; [done..|lia].
    + intros (? & ? & ?). split_and!; [done|by left|lia|done].
    + intros [(_ & [?|?] & ?) ?]; [|done]. done.
    + intros (? & ? & ?). split_and!; [done|by left|done|done].
Qed.

Lemma row_over_records s (f : Attendance → option Period) recs :
  recs ≠ [] →
  row_over s recs
    (report_select (student_key s, (λ a, (s, Some a, f a)) <$> recs)).
Proof.
  intros Hne. unfold row_over, report_select. simpl.
  rewrite count_id_records, !sum_status_records.
  assert (0 < Z.of_nat (length recs)) by (destruct recs; [done|simpl; lia]).
  split_and!; try done.
  rewrite decide_False by lia. split; [done|].
  by apply round_2_rounded.
Qed.

(** C1 (amended): when the requesting teacher has a non-break period in
    the class (any other request is redirected and gets no report), for
    every student of the class who has a record the
    query counts, or no attendance record at all, the report has one row
    (one group of the GROUP BY, hence one line), whose counts are taken
    over exactly the student's records whose period is taught by the
    requesting teacher -- records without a period are not counted -- with
    a date not before today minus 7 days (week), minus 30 days (month), or
    any date (otherwise); presentDays and absentDays count the statuses P
    and A, and the percentage is presentDays * 100 / totalDays rounded to
    two decimals when totalDays > 0, else null. *)
Theorem report_row_counts_teacher_periods db teacherId classId period now s :
  let per := default "week" period in
  let recs := counted db teacherId (window_start per now) s in
  primary_keys db →
  is_Some (teacherAssignment db classId teacherId) →
  s ∈ students db → st_class_id s = Some classId →
  (recs ≠ [] ∨ ∀ a, a ∈ attendance db → a_student_id a ≠ st_id s) →
  ∃ rows g,
    reports db teacherId classId period now = Some rows
    ∧ length rows = length (report_groups db classId teacherId per now)
    ∧ filter (λ g, g.1 = student_key s)
             (report_groups db classId teacherId per now) = [g]
    ∧ report_select g ∈ rows
    ∧ row_over s recs (report_select g).
Proof.
  intros per recs [Hspk Htpk] [x Hassign] Hs Hclass Hvisible.
  unfold reports. rewrite Hassign. fold per.
  set (groups := report_groups db classId teacherId per now).
  assert (filter (λ g, g.1 = student_key s) groups
          = match filter (report_where classId teacherId (window_start per now))
                         (student_rows db s) with
            | [] => []
            | rows => [(student_key s, rows)]
            end) as Hgroup.
  { unfold groups, report_groups. rewrite group_by_key.
    rewrite report_from_bind, filter_key_student_rows by done.
    by rewrite report_since_window_start. }
  rewrite report_where_student_rows in Hgroup by done. fold recs in Hgroup.
  assert (filter (on_student s) (attendance db) = [] → recs = []) as Hnorec.
  { intros Hrecs. apply filter_eq_nil. intros a Ha (Hid & _).
    by destruct (filter_nil_not_elem_of _ _ a Hrecs). }
  assert (filter (on_student s) (attendance db) ≠ [] → recs ≠ []) as Hsome.
  { intros Hrecs. destruct Hvisible as [Hne|Hnone]; [done|].
    destruct Hrecs. apply filter_eq_nil. intros a Ha Hon.
    by apply (Hnone a Ha). }
  clearbody recs groups.
  assert (∃ g, filter (λ g, g.1 = student_key s) groups = [g]
             ∧ row_over s recs (report_select g)) as (g & Hg & Hrow).
  { destruct (filter (on_student s) (attendance db)) as [|a0 rest] eqn:Hrecs.
    - (* no record at all: the NULL-extended row *)
      eexists. split; [done|]. rewrite Hnorec by done. by vm_compute.
    - (* one joined row for each counted record *)
      specialize (Hsome ltac:(done)).
      exists (student_key s,
              (λ a, (s, Some a, period_of (timetable_periods db) a)) <$> recs).
      split; [rewrite Hgroup; by destruct recs|].
      by apply row_over_records. }
  exists (merge_sort (le_on roll_no) (report_select <$> groups)), g.
  split_and!; try done.
  - by rewrite merge_sort_Permutation, length_fmap.
  - rewrite merge_sort_Permutation. apply list_elem_of_fmap. exists g.
    split; [done|].
    assert (g ∈ filter (λ g, g.1 = student_key s) groups) as Hin
      by (rewrite Hg; left).
    by apply list_elem_of_filter in Hin as [_ ?].
Qed.

Lemma report_row_counts_teacher_periods_witness :
  ∃ rows g,
    reports sample_db 2 5 (Some "week") mar_12 = Some rows
    ∧ length rows = length (report_groups sample_db 5 2 "week" mar_12)
    ∧ filter (λ g, g.1 = student_key student_a)
             (report_groups sample_db 5 2 "week" mar_12) = [g]
    ∧ report_select g ∈ rows
    ∧ row_over student_a
        (counted sample_db 2 (window_start "week" mar_12) student_a)
        (report_select g).
Proof.
  apply (report_row_counts_teacher_periods sample_db 2 5 (Some "week") mar_12
           student_a).
  - by_decide.
  - by eexists.
  - by_decide.
  - reflexivity.
  - left. by vm_compute.
Defined.

(** C1, as stated, fails: the report of teacher 2 for class 5 counts
    neither manual entry.  Student A is reported over one record (the
    specification counts two), and student B, whose only record is a manual
    entry, has no row at all. *)
Lemma report_omits_manual_entries :
  reports sample_db 2 5 (Some "week") mar_12
  = Some [mkReportRow 1 "A" 1 1 0 (Some 10000); mkReportRow 3 "C" 0 0 0 None]
  ∧ spec_counted sample_db 2 (window_start "week" mar_12) student_a
    = [rec_a1; rec_a0]
  ∧ spec_counted sample_db 2 (window_start "week" mar_12) student_b = [rec_b]
  ∧ ¬ spec_report sample_db 2 5 "week" mar_12.
Proof.
  split_and!; [by vm_compute..|].
  intros Hspec.
  destruct (Hspec student_b) as (rows & row & Hrows & Hin & Hroll & _).
  { by_decide. }
  { reflexivity. }
  vm_compute in Hrows. simplify_eq.
  apply elem_of_cons in Hin as [->|Hin]; [done|].
  apply list_elem_of_singleton in Hin as ->. done.
Qed.

(** * History Grid Builder: the window *)

Lemma history_window_week currentDate :
  calendar_date currentDate →
  ∃ startDate endDate dates,
    history_window "week" currentDate = Some (startDate, endDate, dates)
    ∧ is_week_of currentDate startDate endDate dates.
Proof.
  intros Hcur.
  unfold history_window. rewrite decide_True by done.
  remember (getDay currentDate) as dayOfWeek eqn:Hdow.
  remember (if decide (dayOfWeek = 0) then -6 else 1 - dayOfWeek)
    as daysToMonday eqn:Hdays.
  assert (setDate currentDate (getDate currentDate + daysToMonday)
          = add_days daysToMonday currentDate) as ->.
  { rewrite setDate_add_days by done. f_equal. lia. }
  remember (add_days daysToMonday currentDate) as startDate eqn:HstartDate.
  assert (calendar_date startDate) as Hstart
    by (subst startDate; by apply add_days_valid).
  assert (∀ i, setDate startDate (getDate startDate + i) = add_days i startDate)
    as Hset.
  { intros i. rewrite setDate_add_days by done. f_equal. lia. }
  assert (day_number startDate = day_number currentDate + daysToMonday)
    as Hdn by (subst startDate; by apply day_number_add_days).
  assert (0 ≤ dayOfWeek < 7) as Hrange
    by (subst dayOfWeek; apply Z.mod_pos_bound; lia).
  assert (- 6 ≤ daysToMonday ≤ 0) as Hdays_range
    by (subst daysToMonday; case_decide; lia).
  assert ((day_number startDate + 4) mod 7 = 1) as Hmonday.
  { rewrite Hdn. unfold getDay in Hdow. subst daysToMonday.
    case_decide; Z.div_mod_to_equations; lia. }
  exists startDate, (setDate startDate (getDate startDate + 6)),
    ((λ i, dateInfo (setDate startDate (getDate startDate + i))) <$> seqZ 0 7).
  split; [reflexivity|]. unfold is_week_of. rewrite Hset.
  assert ((λ i, dateInfo (setDate startDate (getDate startDate + i))) <$> seqZ 0 7
          = (λ i, dateInfo (add_days i startDate)) <$> seqZ 0 7) as ->.
  { apply list_fmap_ext. intros ? i _. by rewrite Hset. }
  rewrite (day_number_add_days 6) by done.
  split_and!.
  + exact Hmonday.
  + unfold getDay. rewrite day_number_add_days by done.
    Z.div_mod_to_equations; lia.
  + reflexivity.
  + reflexivity.
  + lia.
  + lia.
  + intros Hsun. subst daysToMonday startDate.
    rewrite decide_True by by rewrite Hdow. reflexivity.
  + reflexivity.
  + rewrite <- list_fmap_compose.
    rewrite (list_fmap_ext _ (Z.add (day_number startDate))).
    2:{ intros ? i _. by apply day_number_add_days. }
    by rewrite fmap_add_seqZ, Z.add_0_r.
  + rewrite <- list_fmap_compose. apply list_elem_of_fmap.
    exists (- daysToMonday). split.
    * change (currentDate = add_days (- daysToMonday) startDate).
      subst startDate. rewrite add_days_add by done.
      replace (- daysToMonday + daysToMonday) with 0 by lia.
      by rewrite add_days_0.
    * apply elem_of_seqZ. lia.
Qed.

Lemma history_window_month currentDate :
  calendar_date currentDate →
  ∃ startDate endDate dates,
    history_window "month" currentDate = Some (startDate, endDate, dates)
    ∧ is_month (full_year (d_year currentDate)) (d_month currentDate)
               startDate endDate dates.
Proof.
  intros Hcur.
  destruct currentDate as [y m d]. destruct Hcur as [Hm Hd]. simpl in *.
  unfold history_window. rewrite decide_False by done.
  rewrite decide_True by done.
  unfold getFullYear, getMonth, getDate. simpl.
  rewrite new_Date_last_day by done. simpl.
  pose proof (days_in_month_pos (full_year y) m Hm).
  rewrite new_Date_in_month by lia.
  assert ((λ i, dateInfo (new_Date y m i))
            <$> seqZ 1 (days_in_month (full_year y) m)
          = (λ i, dateInfo (mkDate (full_year y) m i))
              <$> seqZ 1 (days_in_month (full_year y) m))
    as ->.
  { apply list_fmap_ext. intros ? i Hi%list_elem_of_lookup_2.
    apply elem_of_seqZ in Hi. by rewrite new_Date_in_month by lia. }
  by eexists _, _, _.
Qed.

Lemma is_month_elem_of y m d startDate endDate dates :
  1 ≤ d ≤ days_in_month y m →
  is_month y m startDate endDate dates →
  mkDate y m d ∈ di_date <$> dates.
Proof.
  intros Hd (_ & _ & ->).
  rewrite <- list_fmap_compose. apply list_elem_of_fmap.
  exists d. split; [done|]. apply elem_of_seqZ. lia.
Qed.




(** The week of Sunday 10 March 2024 starts on Monday 4 March. *)
Example history_window_sunday :
  history_window "week" mar_10
  = Some (mkDate 2024 2 4, mar_10,
          dateInfo <$> [mkDate 2024 2 4; mkDate 2024 2 5; mkDate 2024 2 6;
                        mkDate 2024 2 7; mkDate 2024 2 8; mkDate 2024 2 9;
                        mar_10]).
Proof. by vm_compute. Qed.

(** * History Grid Builder: the grid *)

(** Assigning [m[key x] = V (key x)] for each [x] of a list. *)
Lemma foldl_insert_lookup {K V X} `{Countable K} (key : X → K) (val : K → V)
    (l : list X) (m0 : gmap K V) (k : K) :
  foldl (λ m x, <[key x := val (key x)]> m) m0 l !! k
  = if decide (k ∈ key <$> l) then Some (val k) else m0 !! k.
Proof.
  revert m0. induction l as [|x l IH]; intros m0.
  - done.
  - cbn [foldl]. rewrite IH, fmap_cons.
    destruct (decide (k ∈ key <$> l)) as [Hin|Hnin].
    + rewrite decide_True; [done|]. by right.
    + destruct (decide (key x = k)) as [<-|Hne].
      * rewrite decide_True by left. by rewrite lookup_insert_eq.
      * rewrite decide_False.
        -- by rewrite lookup_insert_ne.
        -- intros [?|?]%elem_of_cons; congruence.
Qed.

Lemma teacherPeriodsOnSameDays_elem_of db teacherId classId p :
  p ∈ teacherPeriodsOnSameDays db teacherId classId ↔
  p ∈ timetable_periods db ∧ tp_teacher_id p = Some teacherId
  ∧ tp_class_id p = Some classId ∧ tp_is_break p = false.
Proof.
  unfold teacherPeriodsOnSameDays.
  rewrite merge_sort_Permutation, elem_of_remove_dups, list_elem_of_filter.
  tauto.
Qed.

Lemma init_cells_lookup tps date k :
  init_cells tps date !! k
  = match k with
    | PeriodCell pid =>
        if decide (Exists (λ p, tp_day_of_week p = day_of_week date
                              ∧ tp_id p = pid) tps)
        then Some None else None
    | General =>
        if decide (Exists (λ p, tp_day_of_week p = day_of_week date) tps)
        then None else Some None
    end.
Proof.
  unfold init_cells. fold (day_of_week date).
  set (ps := filter (λ period, tp_day_of_week period = day_of_week date) tps).
  assert (∀ p, p ∈ ps ↔ p ∈ tps ∧ tp_day_of_week p = day_of_week date) as Hps.
  { intros p. unfold ps. rewrite list_elem_of_filter. tauto. }
  destruct (decide (0 < length ps)%nat) as [Hlen|Hlen].
  - rewrite (foldl_insert_lookup (λ p, PeriodCell (tp_id p)) (λ _, None)).
    rewrite lookup_empty.
    destruct k as [pid|].
    + apply decide_ext. rewrite list_elem_of_fmap, Exists_exists. split.
      * intros (p & [= ->] & Hp%Hps). exists p. tauto.
      * intros (p & Hp & Hd & <-). exists p. split; [done|]. by apply Hps.
    + rewrite decide_False.
      2:{ by intros (p & ? & _)%list_elem_of_fmap. }
      rewrite decide_True; [done|]. apply Exists_exists.
      destruct ps as [|p ps']; [simpl in Hlen; lia|].
      exists p. apply Hps. left.
  - assert (ps = []) as Hnil by (destruct ps; [done|simpl in Hlen; lia]).
    destruct k as [pid|].
    + rewrite lookup_singleton_ne by done. rewrite decide_False; [done|].
      intros (p & Hp & Hd & _)%Exists_exists.
      assert (p ∈ ps) as Hin by by apply Hps. rewrite Hnil in Hin.
      by apply elem_of_nil in Hin.
    + rewrite lookup_singleton_eq. rewrite decide_False; [done|].
      intros (p & Hp & Hd)%Exists_exists.
      assert (p ∈ ps) as Hin by by apply Hps. rewrite Hnil in Hin.
      by apply elem_of_nil in Hin.
Qed.

Lemma init_grid_row sts dates tps s :
  s ∈ sts →
  init_grid sts dates tps !! st_id s
  = Some (foldl (λ row info,
                   <[di_date info := init_cells tps (di_date info)]> row)
                ∅ dates).
Proof.
  intros Hs. unfold init_grid.
  rewrite (foldl_insert_lookup st_id
             (λ _, foldl (λ row info,
                           <[di_date info := init_cells tps (di_date info)]> row)
                         ∅ dates)).
  by rewrite decide_True by (apply list_elem_of_fmap; by exists s).
Qed.

Lemma init_grid_cells_of sts dates tps s info :
  s ∈ sts → info ∈ dates →
  ∃ row, init_grid sts dates tps !! st_id s = Some row
       ∧ row !! di_date info = Some (init_cells tps (di_date info)).
Proof.
  intros Hs Hinfo. eexists. split; [by apply init_grid_row|].
  rewrite (foldl_insert_lookup di_date (init_cells tps)).
  by rewrite decide_True by (apply list_elem_of_fmap; by exists info).
Qed.

Lemma init_grid_cell sts dates tps s info k :
  s ∈ sts → info ∈ dates →
  cell (init_grid sts dates tps) (st_id s) (di_date info) k
  = init_cells tps (di_date info) !! k.
Proof.
  intros Hs Hinfo. unfold cell.
  destruct (init_grid_cells_of sts dates tps s info Hs Hinfo)
    as (row & -> & Hrow).
  simpl. by rewrite Hrow.
Qed.



(** * History Grid Builder: the overlay *)

Lemma cell_of_row (grid : Grid) s d k row :
  grid !! s = Some row → cell grid s d k = default ∅ (row !! d) !! k.
Proof.
  intros Hrow. unfold cell. rewrite Hrow. simpl.
  destruct (row !! d); simpl; [done|]. by rewrite lookup_empty.
Qed.

Lemma overlay_record_unknown_student (grid : Grid) record :
  grid !! a_student_id record = None → overlay_record grid record = grid.
Proof. intros Hnone. unfold overlay_record. by rewrite Hnone. Qed.

(** One turn of the overlay writes one cell and leaves the others. *)
Lemma cell_overlay_record (grid : Grid) record s d k :
  is_Some (grid !! a_student_id record) →
  cell (overlay_record grid record) s d k
  = if decide (s = a_student_id record ∧ d = a_date record
               ∧ k = overlay_key grid record)
    then Some (Some (a_status record)) else cell grid s d k.
Proof.
  intros [row Hrow]. unfold overlay_record. rewrite Hrow.
  set (cells := default ∅ (row !! a_date record)).
  assert (∀ k', cell grid (a_student_id record) (a_date record) k' = cells !! k')
    as Hcells by (intros k'; by apply cell_of_row).
  set (key := match a_period_id record with
              | Some period_id =>
                  if decide (period_id ≠ 0 ∧ is_Some (cells !! PeriodCell period_id))
                  then PeriodCell period_id else General
              | None => General
              end).
  assert (overlay_key grid record = key) as ->.
  { unfold overlay_key, key. destruct (a_period_id record) as [pid|]; [|done].
    apply decide_ext. by rewrite Hcells. }
  unfold cell at 1.
  destruct (decide (s = a_student_id record)) as [->|Hs].
  - rewrite lookup_insert_eq. simpl.
    destruct (decide (d = a_date record)) as [->|Hd].
    + rewrite lookup_insert_eq. simpl.
      destruct (decide (k = key)) as [->|Hk].
      * rewrite lookup_insert_eq. by rewrite decide_True.
      * rewrite lookup_insert_ne by done. rewrite decide_False by tauto.
        by rewrite Hcells.
    + rewrite lookup_insert_ne by done. rewrite decide_False by tauto.
      unfold cell. by rewrite Hrow.
  - rewrite lookup_insert_ne by done. by rewrite decide_False by tauto.
Qed.

Lemma overlay_record_students (grid : Grid) record s :
  is_Some (overlay_record grid record !! s) ↔ is_Some (grid !! s).
Proof.
  unfold overlay_record.
  destruct (grid !! a_student_id record) as [row|] eqn:Hrow; [|done].
  destruct (decide (s = a_student_id record)) as [->|Hs].
  - rewrite lookup_insert_eq, Hrow. split; by eexists.
  - by rewrite lookup_insert_ne.
Qed.

(** The overlay never adds or removes the cell of a period. *)
Lemma overlay_record_period_cells (grid : Grid) record s d pid :
  is_Some (cell (overlay_record grid record) s d (PeriodCell pid))
  ↔ is_Some (cell grid s d (PeriodCell pid)).
Proof.
  destruct (grid !! a_student_id record) as [row|] eqn:Hrow.
  2:{ by rewrite overlay_record_unknown_student. }
  rewrite cell_overlay_record by by eexists.
  case_decide as Hkey; [|done]. destruct Hkey as (-> & -> & Hk).
  split; [intros _|by eexists].
  unfold overlay_key in Hk. destruct (a_period_id record) as [pid'|]; [|done].
  case_decide as Hex; [|done]. simplify_eq. tauto.
Qed.

Lemma foldl_overlay_students (grid : Grid) records s :
  is_Some (foldl overlay_record grid records !! s) ↔ is_Some (grid !! s).
Proof.
  revert grid. induction records as [|r rs IH]; intros grid; [done|].
  cbn [foldl]. by rewrite IH, overlay_record_students.
Qed.

Lemma foldl_overlay_period_cells (grid : Grid) records s d pid :
  is_Some (cell (foldl overlay_record grid records) s d (PeriodCell pid))
  ↔ is_Some (cell grid s d (PeriodCell pid)).
Proof.
  revert grid. induction records as [|r rs IH]; intros grid; [done|].
  cbn [foldl]. by rewrite IH, overlay_record_period_cells.
Qed.

(** C8: the overlay puts the status of a record of a student of the class
    into the cell of the record's period when the initialized grid has that
    cell for the record's date, and otherwise into the 'general' cell of
    that date -- so always into 'general' for a record without a period --
    and that turn changes no other cell.  ([earlier] are the records
    overlaid before this one; period ids, drawn from a sequence, are not
    zero.) *)
Theorem overlay_places_record (init : Grid) earlier record :
  is_Some (init !! a_student_id record) →
  a_period_id record ≠ Some 0 →
  let before := foldl overlay_record init earlier in
  let after := foldl overlay_record init (earlier ++ [record]) in
  cell after (a_student_id record) (a_date record) (target_cell init record)
  = Some (Some (a_status record))
  ∧ (∀ s d k,
       (s, d, k) ≠ (a_student_id record, a_date record, target_cell init record) →
       cell after s d k = cell before s d k)
  ∧ (a_period_id record = None → target_cell init record = General).
Proof.
  intros Hstudent Hnonzero before after.
  assert (after = overlay_record before record) as ->.
  { unfold after, before. by rewrite foldl_app. }
  assert (is_Some (before !! a_student_id record)) as Hbefore.
  { unfold before. by apply foldl_overlay_students. }
  assert (overlay_key before record = target_cell init record) as Hkey.
  { unfold overlay_key, target_cell.
    destruct (a_period_id record) as [pid|]; [|done].
    apply decide_ext. unfold before. rewrite foldl_overlay_period_cells.
    split; [tauto|]. intros ?. split; [|done]. by intros ->. }
  split_and!.
  - rewrite cell_overlay_record by done. rewrite Hkey. by rewrite decide_True.
  - intros s d k Hne. rewrite cell_overlay_record by done. rewrite Hkey.
    rewrite decide_False; [done|]. intros (-> & -> & ->). done.
  - intros Hnone. unfold target_cell. by rewrite Hnone.
Qed.

(** In the grid of teacher 2, the record that teacher 3 took in period 2
    has no cell of its own and goes to 'general'. *)
Lemma overlay_places_record_witness :
  let init := init_grid [student_a; student_b; student_c]
                [dateInfo mar_10; dateInfo mar_11]
                (teacherPeriodsOnSameDays sample_db 2 5) in
  let before := foldl overlay_record init [rec_a1] in
  let after := foldl overlay_record init ([rec_a1] ++ [rec_a2]) in
  cell after (a_student_id rec_a2) (a_date rec_a2) (target_cell init rec_a2)
  = Some (Some (a_status rec_a2))
  ∧ (∀ s d k,
       (s, d, k) ≠ (a_student_id rec_a2, a_date rec_a2, target_cell init rec_a2) →
       cell after s d k = cell before s d k)
  ∧ (a_period_id rec_a2 = None → target_cell init rec_a2 = General).
Proof.
  apply (overlay_places_record
           (init_grid [student_a; student_b; student_c]
              [dateInfo mar_10; dateInfo mar_11]
              (teacherPeriodsOnSameDays sample_db 2 5))
           [rec_a1] rec_a2); by_decide.
Defined.

(** The history page of teacher 2 for the week of Monday 11 March 2024:
    student A is present in period 1, and the absence recorded in teacher
    3's period shows under 'general'. *)
Example attendance_history_sample :
  (λ page, (h_startDate page, h_endDate page,
            cell (h_attendanceGrid page) 10 mar_11 (PeriodCell 1),
            cell (h_attendanceGrid page) 10 mar_11 (PeriodCell 2),
            cell (h_attendanceGrid page) 10 mar_11 General,
            cell (h_attendanceGrid page) 12 mar_11 (PeriodCell 1)))
    <$> attendance_history as_stored [] sample_db 2 5 None mar_11
  = Some (mar_11, mkDate 2024 2 17,
          Some (Some "P"), None, Some (Some "A"), Some None).
Proof. by vm_compute. Qed.

(** * Time Resolver *)

Lemma day_of_week_range d : 1 ≤ day_of_week d ≤ 7.
Proof.
  unfold day_of_week, getDay.
  pose proof (Z.mod_pos_bound (day_number d + 4) 7).
  case_decide; lia.
Qed.

Lemma ist_time_range off now :
  0 ≤ ist_time off now < 86400 ∧ ist_time off now mod 60 = 0.
Proof.
  unfold ist_time.
  remember (ist_ms off now mod 86400000) as r eqn:Hr.
  assert (0 ≤ r < 86400000) as Hrange
    by (subst r; apply Z.mod_pos_bound; lia).
  clear Hr. split.
  - assert (0 ≤ r / 60000 < 1440)
      by (split; [apply Z.div_pos; lia|apply Z.div_lt_upper_bound; lia]).
    lia.
  - apply Z.mod_mul. lia.
Qed.

(** X1: while the clock -- the time of the call, shifted to IST and by the
    manual offset -- is one a Date can hold, getCurrentDayOfWeek is the
    weekday of the calendar day the clock shows, from 1 for Monday to 7 for
    Sunday, and getCurrentTime is the time of day the clock shows, a whole
    minute of the day.  With a clock outside that range both are NaN. *)
Theorem time_resolver_ranges off now :
  (clock_in_range off now →
   ∃ day time,
     getCurrentDayOfWeek off now = Some day
     ∧ getCurrentTime off now = Some time
     ∧ day = day_of_week (ist_day off now)
     ∧ 1 ≤ day ≤ 7
     ∧ (day = 7 ↔ getDay (ist_day off now) = 0)
     ∧ time = ist_time off now
     ∧ 0 ≤ time < 86400
     ∧ time mod 60 = 0)
  ∧ (¬ clock_in_range off now →
     getCurrentDayOfWeek off now = None ∧ getCurrentTime off now = None).
Proof.
  split; [|apply clock_out_of_range].
  intros Hrange. eexists _, _.
  split; [by apply getCurrentDayOfWeek_ist|].
  split; [by apply getCurrentTime_ist|].
  pose proof (day_of_week_range (ist_day off now)).
  pose proof (ist_time_range off now) as [? ?].
  split_and!; try done; try lia.
  unfold day_of_week, getDay.
  pose proof (Z.mod_pos_bound (day_number (ist_day off now) + 4) 7).
  case_decide; split; lia.
Qed.

(** Monday 11 March 2024 at 09:30; and the same instant with a manual
    offset of 2e11 minutes, which no Date can hold. *)
Lemma time_resolver_ranges_witness :
  (getCurrentDayOfWeek 0 mar_11_0930 = Some 1
   ∧ getCurrentTime 0 mar_11_0930 = Some 34200
   ∧ ist_day 0 mar_11_0930 = mar_11)
  ∧ getCurrentDayOfWeek 200000000000 mar_11_0930 = None
  ∧ getCurrentTime 200000000000 mar_11_0930 = None.
Proof.
  split.
  - destruct (proj1 (time_resolver_ranges 0 mar_11_0930))
      as (day & time & -> & -> & -> & _ & _ & -> & _); [by_decide|].
    by vm_compute.
  - apply (proj2 (time_resolver_ranges 200000000000 mar_11_0930)). by_decide.
Defined.

Lemma time_resolver_weekly off now k :
  clock_in_range off now → clock_in_range off (now + k * msPerWeek) →
  getCurrentDayOfWeek off (now + k * msPerWeek) = getCurrentDayOfWeek off now
  ∧ getCurrentTime off (now + k * msPerWeek) = getCurrentTime off now.
Proof.
  intros Hnow Hlater. unfold getCurrentDayOfWeek, getCurrentTime.
  rewrite !getNowIST_in_range by done. simpl.
  remember (ist_ms off now) as ist eqn:Hist.
  replace (ist_ms off (now + k * msPerWeek)) with (ist + k * 604800000)
    by (subst ist; unfold ist_ms, msPerWeek; lia).
  clear Hist Hnow Hlater.
  assert ((ist + k * 604800000) / 86400000 = ist / 86400000 + k * 7) as ->.
  { replace (k * 604800000) with (k * 7 * 86400000) by lia.
    by rewrite Z.div_add by lia. }
  assert ((ist + k * 604800000) / 3600000 = ist / 3600000 + k * 7 * 24) as ->.
  { replace (k * 604800000) with (k * 7 * 24 * 3600000) by lia.
    by rewrite Z.div_add by lia. }
  assert ((ist + k * 604800000) / 60000 = ist / 60000 + k * 7 * 24 * 60) as ->.
  { replace (k * 604800000) with (k * 7 * 24 * 60 * 60000) by lia.
    by rewrite Z.div_add by lia. }
  replace (ist / 86400000 + k * 7 + 4) with (ist / 86400000 + 4 + k * 7) by lia.
  rewrite Z.mod_add by lia.
  replace (ist / 3600000 + k * 7 * 24) with (ist / 3600000 + (k * 7) * 24) by lia.
  rewrite Z.mod_add by lia.
  replace (ist / 60000 + k * 7 * 24 * 60) with (ist / 60000 + (k * 7 * 24) * 60)
    by lia.
  rewrite Z.mod_add by lia. done.
Qed.

(** X2: the timetable is weekly: when the clock is in range at an instant
    and a whole number of weeks later (or earlier), the time resolver reads
    the same weekday and time of day at both, and a mark sent at either is
    answered and stored alike. *)
Theorem period_matcher_weekly off now k :
  clock_in_range off now → clock_in_range off (now + k * msPerWeek) →
  getCurrentDayOfWeek off (now + k * msPerWeek) = getCurrentDayOfWeek off now
  ∧ getCurrentTime off (now + k * msPerWeek) = getCurrentTime off now
  ∧ ∀ db teacherId req,
      mark_attendance off db teacherId req (now + k * msPerWeek)
      = mark_attendance off db teacherId req now.
Proof.
  intros Hnow Hlater.
  destruct (time_resolver_weekly off now k Hnow Hlater) as [Hday Htime].
  split_and!; [done..|].
  intros db teacherId req. unfold mark_attendance. by rewrite Hday, Htime.
Qed.

(** Monday 11 March 2024 at 09:30 and the Monday after. *)
Lemma period_matcher_weekly_witness :
  getCurrentDayOfWeek 0 (mar_11_0930 + 1 * msPerWeek) = Some 1
  ∧ getCurrentTime 0 (mar_11_0930 + 1 * msPerWeek) = Some 34200
  ∧ ∀ db teacherId req,
      mark_attendance 0 db teacherId req (mar_11_0930 + 1 * msPerWeek)
      = mark_attendance 0 db teacherId req mar_11_0930.
Proof.
  destruct (period_matcher_weekly 0 mar_11_0930 1) as (-> & -> & Hmark);
    [by_decide..|].
  split_and!; [by vm_compute..|done].
Defined.

(** * What the writers of the attendance table keep *)

Lemma upsert_attendance_tables db studentId classId periodId date status
    markedBy :
  same_other_tables db
    (upsert_attendance db studentId classId periodId date status markedBy).2.
Proof.
  unfold upsert_attendance. repeat case_decide; done.
Qed.

Lemma upsert_attendance_failure db studentId classId periodId date status
    markedBy db' :
  upsert_attendance db studentId classId periodId date status markedBy
    = (false, db') →
  attendance db' = attendance db.
Proof.
  unfold upsert_attendance. repeat case_decide; intros; by simplify_eq.
Qed.



(** Rewriting the status (and marker) of some rows moves no key. *)
Lemma filter_same_key_rewrite s d p (P : Attendance → Prop)
    `{∀ a, Decision (P a)} (f : Attendance → Attendance)
    (rows : list Attendance) :
  (∀ a, same_key s d p (f a) ↔ same_key s d p a) →
  length (filter (same_key s d p) ((λ a, if decide (P a) then f a else a) <$> rows))
  = length (filter (same_key s d p) rows).
Proof.
  intros Hf. induction rows as [|a rows IH]; [done|]. rewrite fmap_cons.
  assert (same_key s d p (if decide (P a) then f a else a) ↔ same_key s d p a)
    as Hiff by (case_decide; [apply Hf|done]).
  destruct (decide (same_key s d p a)) as [Hk|Hk].
  - rewrite (filter_cons_True _ a) by done.
    rewrite filter_cons_True by by apply Hiff. simpl. by rewrite IH.
  - rewrite (filter_cons_False _ a) by done.
    rewrite filter_cons_False by (by rewrite Hiff). done.
Qed.

Lemma attendance_row_ok_tables db db' a :
  same_other_tables db db' → attendance_row_ok db a → attendance_row_ok db' a.
Proof.
  intros (Hu & Hc & Hs & Htp). unfold attendance_row_ok.
  by rewrite Hu, Hc, Hs, Htp.
Qed.

Lemma upsert_attendance_integrity db studentId classId periodId date status
    markedBy :
  attendance_integrity db →
  attendance_integrity
    (upsert_attendance db studentId classId periodId date status markedBy).2.
Proof.
  intros [Huniq Hrows].
  destruct (upsert_attendance db studentId classId periodId date status markedBy)
    as [[] db'] eqn:Hup; simpl.
  2:{ pose proof (upsert_attendance_tables db studentId classId periodId date
                    status markedBy) as Hframe.
      rewrite Hup in Hframe. simpl in Hframe.
      apply upsert_attendance_failure in Hup.
      split; rewrite Hup; [done|].
      eapply Forall_impl; [exact Hrows|]. intros a [? ?].
      split; [by eapply attendance_row_ok_tables|done]. }
  unfold upsert_attendance in Hup.
  destruct (decide (int4 studentId ∧ _)) as [(_ & _ & Hdate & _)|]; [|done].
  destruct (decide (Exists _ _)) as [Hex|Hnex].
  - destruct (decide (status_check status ∧ _)) as [[Hst Huser]|]; [|done].
    simplify_eq. split; simpl.
    + intros s d p.
      rewrite (filter_same_key_rewrite s d p
                 (same_key studentId date periodId)
                 (set_status_marked_by status markedBy)); [apply Huniq|].
      by intros a.
    + apply Forall_fmap. eapply Forall_impl; [exact Hrows|].
      intros a [(? & ? & ? & ? & ?) ?]. simpl.
      case_decide; [|done]. done.
  - destruct (decide (attendance_row_ok _ _)) as [Hok|]; [|done].
    simplify_eq. split; simpl.
    + intros s d p. rewrite filter_app, length_app.
      destruct (decide (same_key s d p
                  (mkAttendance (attendance_id_seq db + 1) studentId
                     (Some classId) (Some periodId) date status markedBy)))
        as [(Hs & Hd & Hp)|Hk].
      * simpl in Hs, Hd, Hp.
        replace (filter (same_key s d p) (attendance db)) with (@nil Attendance).
        { by rewrite filter_cons_True by done. }
        symmetry. apply filter_eq_nil. intros a Ha (Hs' & Hd' & Hp').
        apply Hnex, Exists_exists. exists a. split; [done|].
        unfold same_key. split_and!; congruence.
      * rewrite filter_cons_False by done. simpl.
        specialize (Huniq s d p). lia.
    + apply Forall_app. split; [done|]. by apply Forall_singleton.
Qed.

(** X4: markAttendance keeps the attendance table well formed: rows stay unique
    per (student, date, period), statuses stay P or A, dates stay calendar
    dates and every reference still resolves. *)
Theorem mark_attendance_keeps_integrity off db teacherId req now :
  attendance_integrity db →
  attendance_integrity (mark_attendance off db teacherId req now).2.
Proof.
  intros Hint. unfold mark_attendance.
  destruct (getCurrentDayOfWeek off now) as [day|]; [|done].
  destruct (getCurrentTime off now) as [time|]; [|done].
  destruct (decide (int4 (mr_classId req))); [|done].
  destruct (teacherCurrentPeriod _ _ _ _ _) as [p|]; [|done].
  pose proof (upsert_attendance_integrity db (mr_studentId req)
                (mr_classId req) (tp_id p) (mr_date req) (mr_status req)
                teacherId Hint) as Hup.
  by destruct (upsert_attendance _ _ _ _ _ _ _) as [[] db'].
Qed.

Lemma mark_attendance_keeps_integrity_witness :
  attendance_integrity
    (mark_attendance 0 sample_db 2 (mkMarkRequest 11 5 "P" mar_11) mar_11_0930).2.
Proof.
  apply (mark_attendance_keeps_integrity 0 sample_db 2
           (mkMarkRequest 11 5 "P" mar_11) mar_11_0930).
  split; [apply attendance_keys_NoDup|]; by_decide.
Defined.

Lemma length_filter_filter_le {A} (P Q : A → Prop) `{∀ x, Decision (P x)}
    `{∀ x, Decision (Q x)} (l : list A) :
  (length (filter P (filter Q l)) ≤ length (filter P l))%nat.
Proof.
  induction l as [|x l IH]; [done|].
  rewrite (filter_cons Q), (filter_cons P x l).
  destruct (decide (Q x)), (decide (P x));
    rewrite ?filter_cons_True, ?filter_cons_False by done; simpl; lia.
Qed.

Lemma apply_change_tables db teacherId change :
  same_other_tables db (apply_change db teacherId change).2.
Proof.
  unfold apply_change. repeat (case_decide || case_match); done.
Qed.

Lemma apply_change_failure db teacherId change :
  (apply_change db teacherId change).1 = false →
  attendance (apply_change db teacherId change).2 = attendance db.
Proof.
  unfold apply_change. repeat (case_decide || case_match); done.
Qed.

Lemma apply_change_integrity db teacherId change :
  attendance_integrity db →
  attendance_integrity (apply_change db teacherId change).2.
Proof.
  intros [Huniq Hrows]. unfold apply_change.
  set (sd := student_date (ch_studentId change) (ch_date change)).
  destruct (decide (ch_status change = EmptyString)).
  { case_decide; [|done]. split; simpl.
    - intros s d p. etrans; [apply length_filter_filter_le|apply Huniq].
    - apply Forall_forall. intros a [_ Ha]%list_elem_of_filter.
      rewrite Forall_forall in Hrows. by apply Hrows. }
  destruct (decide (int4 _ ∧ valid_date (ch_date change)))
    as [[_ Hdate]|]; [|done].
  destruct (queryOne _) as [existing|] eqn:Hq.
  - destruct (decide (status_check (ch_status change))) as [Hst|]; [|done].
    split; simpl.
    + intros s d p.
      rewrite (filter_same_key_rewrite s d p sd
                 (set_status (ch_status change))); [apply Huniq|].
      by intros a.
    + apply Forall_fmap. eapply Forall_impl; [exact Hrows|].
      intros a [(? & ? & ? & ? & ?) ?]. simpl. by case_decide.
  - destruct (decide (varchar_1 _)); [|done].
    destruct (decide (attendance_row_ok _ _)) as [Hok|]; [|done].
    split; simpl.
    + intros s d p. rewrite filter_app, length_app.
      rewrite filter_cons_False by (by intros (_ & _ & ?)).
      simpl. specialize (Huniq s d p). lia.
    + apply Forall_app. split; [done|]. by apply Forall_singleton.
Qed.

Lemma apply_changes_integrity db teacherId changes n :
  attendance_integrity db →
  attendance_integrity (apply_changes db teacherId changes n).2.
Proof.
  revert db n. induction changes as [|c cs IH]; intros db n Hint; [done|].
  cbn [apply_changes].
  pose proof (apply_change_integrity db teacherId c Hint) as Hc.
  destruct (apply_change db teacherId c) as [[] db']; [by apply IH|done].
Qed.

(** X5: The bulk edit keeps the attendance table well formed, whatever the
    list of changes and whether or not it runs to the end. *)
Theorem bulk_update_keeps_integrity db teacherId classId changes :
  attendance_integrity db →
  attendance_integrity (bulk_update db teacherId classId changes).2.
Proof.
  intros Hint. unfold bulk_update.
  destruct (teacherAssignment db classId teacherId); [|done].
  by apply apply_changes_integrity.
Qed.

Lemma bulk_update_keeps_integrity_witness :
  attendance_integrity
    (bulk_update sample_db 2 5
       [mkChange 10 mar_11 "A"; mkChange 12 mar_11 "P";
        mkChange 11 mar_11 EmptyString]).2.
Proof.
  apply (bulk_update_keeps_integrity sample_db 2 5).
  split; [apply attendance_keys_NoDup|]; by_decide.
Defined.

(** X6: Deleting a period keeps the attendance table well formed: the cascade
    leaves no row that refers to the deleted period. *)
Theorem delete_period_keeps_integrity db periodId :
  attendance_integrity db →
  attendance_integrity (delete_period db periodId).2.
Proof.
  intros [Huniq Hrows]. unfold delete_period.
  destruct (queryOne _) as [periodDetails|]; [|done]. split; simpl.
  - intros s d p. etrans; [apply length_filter_filter_le|apply Huniq].
  - apply Forall_forall. intros a [Hne Ha]%list_elem_of_filter.
    rewrite Forall_forall in Hrows.
    destruct (Hrows a Ha) as [(? & ? & ? & Hfk & ?) ?].
    split; [|done]. split_and!; try done. simpl.
    destruct (a_period_id a) as [pid|]; [|done]. simpl in *.
    apply list_elem_of_fmap in Hfk as (tp & -> & Htp).
    apply list_elem_of_fmap. exists tp. split; [done|].
    apply list_elem_of_filter. split; [|done]. by intros <-.
Qed.

Lemma delete_period_keeps_integrity_witness :
  attendance_integrity (delete_period sample_db 1).2.
Proof.
  apply (delete_period_keeps_integrity sample_db 1).
  split; [apply attendance_keys_NoDup|]; by_decide.
Defined.


(** * More on the bulk historical edit *)

Lemma same_other_tables_trans db1 db2 db3 :
  same_other_tables db1 db2 → same_other_tables db2 db3 →
  same_other_tables db1 db3.
Proof.
  intros (? & ? & ? & ?) (? & ? & ? & ?). unfold same_other_tables.
  split_and!; congruence.
Qed.

Lemma apply_changes_tables db teacherId changes n :
  same_other_tables db (apply_changes db teacherId changes n).2.
Proof.
  revert db n. induction changes as [|c cs IH]; intros db n; [done|].
  cbn [apply_changes].
  pose proof (apply_change_tables db teacherId c) as Hc.
  destruct (apply_change db teacherId c) as [[] db']; [|done].
  eapply same_other_tables_trans; [exact Hc|apply IH].
Qed.

Lemma apply_changes_count db teacherId changes n m db' :
  apply_changes db teacherId changes n = (BulkSuccess m, db') →
  m = (n + length changes)%nat.
Proof.
  revert db n. induction changes as [|c cs IH]; intros db n; cbn [apply_changes].
  - intros [= -> _]. simpl. lia.
  - destruct (apply_change db teacherId c) as [[] db1]; [|done].
    intros Hrest%IH. simpl. lia.
Qed.

Lemma apply_changes_app db teacherId cs1 cs2 n :
  apply_changes db teacherId (cs1 ++ cs2) n
  = match apply_changes db teacherId cs1 n with
    | (BulkSuccess m, db1) => apply_changes db1 teacherId cs2 m
    | other => other
    end.
Proof.
  revert db n. induction cs1 as [|c cs IH]; intros db n; [done|].
  rewrite <- app_comm_cons. cbn [apply_changes].
  destruct (apply_change db teacherId c) as [[] db1]; [apply IH|done].
Qed.



(** X9: The bulk edit is not atomic.  When the changes of [applied] go through
    and the next one raises, the answer is an error, the effect of
    [applied] stays in the table, and the changes after the failing one are
    never tried. *)
Theorem bulk_update_stops_at_first_error db teacherId classId applied bad rest
    db1 :
  is_Some (teacherAssignment db classId teacherId) →
  bulk_update db teacherId classId applied = (BulkSuccess (length applied), db1) →
  (apply_change db1 teacherId bad).1 = false →
  ∃ db', bulk_update db teacherId classId (applied ++ bad :: rest)
         = (BulkError, db')
       ∧ attendance db' = attendance db1
       ∧ same_other_tables db db'.
Proof.
  intros [x Hassign] Happlied Hbad. unfold bulk_update in *. rewrite Hassign in *.
  rewrite apply_changes_app, Happlied. cbn [apply_changes].
  pose proof (apply_change_failure db1 teacherId bad Hbad) as Hrows.
  pose proof (apply_change_tables db1 teacherId bad) as Hframe.
  pose proof (apply_changes_tables db teacherId applied 0) as Hframe1.
  rewrite Happlied in Hframe1.
  destruct (apply_change db1 teacherId bad) as [[] db']; [done|].
  eexists. split; [done|]. split; [done|].
  by eapply same_other_tables_trans.
Qed.

(** The second change has a status the CHECK refuses: the first absence is
    stored all the same, and the third change is not applied. *)
Lemma bulk_update_stops_at_first_error_witness :
  ∃ db', bulk_update sample_db 2 5
           ([mkChange 12 mar_11 "A"] ++ mkChange 11 mar_11 "L"
              :: [mkChange 10 mar_11 EmptyString])
         = (BulkError, db')
       ∧ attendance db'
         = attendance (bulk_update sample_db 2 5 [mkChange 12 mar_11 "A"]).2
       ∧ same_other_tables sample_db db'.
Proof.
  apply (bulk_update_stops_at_first_error sample_db 2 5
           [mkChange 12 mar_11 "A"] (mkChange 11 mar_11 "L")
           [mkChange 10 mar_11 EmptyString]).
  - by eexists.
  - reflexivity.
  - reflexivity.
Defined.

Lemma set_status_idem status a :
  set_status status (set_status status a) = set_status status a.
Proof. by destruct a. Qed.

Lemma fmap_update_idem {A} (P : A → Prop) `{∀ x, Decision (P x)} (f : A → A)
    (l : list A) :
  (∀ x, P x → P (f x)) → (∀ x, f (f x) = f x) →
  (λ x, if decide (P x) then f x else x)
    <$> ((λ x, if decide (P x) then f x else x) <$> l)
  = (λ x, if decide (P x) then f x else x) <$> l.
Proof.
  intros HP Hf. rewrite <- list_fmap_compose. apply list_fmap_ext.
  intros i x _. simpl. destruct (decide (P x)) as [Hx|Hx].
  - rewrite decide_True by auto. apply Hf.
  - by rewrite decide_False.
Qed.

Lemma filter_student_date_update s d status (rows : list Attendance) :
  filter (student_date s d)
    ((λ a, if decide (student_date s d a) then set_status status a else a)
       <$> rows)
  = set_status status <$> filter (student_date s d) rows.
Proof.
  induction rows as [|a rows IH]; [done|]. rewrite fmap_cons.
  destruct (decide (student_date s d a)) as [Hk|Hk].
  - rewrite (filter_cons_True _ a) by done.
    rewrite filter_cons_True by (by destruct Hk).
    by rewrite fmap_cons, IH.
  - rewrite !filter_cons_False by done. done.
Qed.



(** What a successful turn of the loop did. *)
Lemma apply_change_success db teacherId change db1 :
  apply_change db teacherId change = (true, db1) →
  let sd := student_date (ch_studentId change) (ch_date change) in
  (int4 (ch_studentId change) ∧ valid_date (ch_date change))
  ∧ ((ch_status change = EmptyString
      ∧ attendance db1 = filter (λ a, ¬ sd a) (attendance db))
     ∨ (status_check (ch_status change) ∧ Exists sd (attendance db)
        ∧ attendance db1
          = (λ a, if decide (sd a) then set_status (ch_status change) a else a)
            <$> attendance db)
     ∨ (status_check (ch_status change) ∧ ¬ Exists sd (attendance db)
        ∧ attendance db1
          = attendance db ++ [mkAttendance (attendance_id_seq db + 1)
                                (ch_studentId change) None None (ch_date change)
                                (ch_status change) teacherId])).
Proof.
  intros Hfirst sd. unfold apply_change in Hfirst. fold sd in Hfirst.
  destruct (decide (ch_status change = EmptyString)) as [Hempty|Hstatus].
  { case_decide; [|done]. simplify_eq. split; [done|]. by left. }
  case_decide; [|done]. split; [done|]. right. unfold queryOne in Hfirst.
  destruct (filter sd (attendance db)) as [|a0 rest] eqn:Hf; simpl in Hfirst.
  - case_decide; [|done]. case_decide as Hok; [|done]. simplify_eq. right.
    destruct Hok as (Hst & _). split_and!; [done| |done].
    intros (a & Ha & Hsd)%Exists_exists.
    by destruct (filter_nil_not_elem_of _ _ a Hf Hsd Ha).
  - case_decide; [|done]. simplify_eq. left. split_and!; [done| |done].
    apply Exists_exists. exists a0.
    assert (a0 ∈ filter sd (attendance db)) as Hin by (rewrite Hf; left).
    apply list_elem_of_filter in Hin. tauto.
Qed.

(** X11: Applying a change a second time alters no row: the bulk edit is
    idempotent on the attendance rows. *)
Theorem bulk_change_idempotent db teacherId change db1 :
  apply_change db teacherId change = (true, db1) →
  ∃ db2, apply_change db1 teacherId change = (true, db2)
       ∧ attendance db2 = attendance db1.
Proof.
  intros Hfirst.
  destruct (apply_change_success _ _ _ _ Hfirst) as [[Hsid Hdate] Hcases].
  destruct (apply_change_branches db1 teacherId change Hsid Hdate)
    as (Hdel & Hupd & _).
  set (sd := student_date (ch_studentId change) (ch_date change)) in *.
  assert (∀ rows : list Attendance,
            (∀ a, a ∈ rows → sd a → a_status a = ch_status change) →
            (λ a, if decide (sd a) then set_status (ch_status change) a else a)
              <$> rows = rows) as Hfix.
  { intros rows Hrows. rewrite <- (list_fmap_id rows) at 2.
    apply list_fmap_ext. intros i a Ha%list_elem_of_lookup_2. simpl.
    case_decide as Hsd; [|done]. specialize (Hrows a Ha Hsd).
    destruct a. simpl in *. by subst. }
  destruct Hcases as [[Hempty Hrows]|[(Hst & Hex & Hrows)|(Hst & Hnex & Hrows)]].
  - rewrite Hdel by done. eexists. split; [done|]. simpl. rewrite Hrows.
    apply filter_all. by intros a [? _]%list_elem_of_filter.
  - rewrite Hupd; [|done|].
    + eexists. split; [done|]. simpl. apply Hfix. rewrite Hrows.
      intros a (b & -> & _)%list_elem_of_fmap Hsd.
      case_decide as Hb; [done|]. by destruct Hb.
    + rewrite Hrows. apply Exists_fmap.
      eapply Exists_impl; [exact Hex|]. intros a Ha. simpl.
      rewrite decide_True by done. by destruct Ha.
  - rewrite Hupd; [|done|].
    + eexists. split; [done|]. simpl. apply Hfix. rewrite Hrows.
      intros a [Ha| ->%list_elem_of_singleton]%elem_of_app Hsd; [|done].
      destruct Hnex. apply Exists_exists. eauto.
    + rewrite Hrows. apply Exists_app. right. by constructor.
Qed.

Lemma bulk_change_idempotent_witness :
  ∃ db2, apply_change (apply_change sample_db 2 (mkChange 12 mar_11 "A")).2 2
           (mkChange 12 mar_11 "A") = (true, db2)
       ∧ attendance db2
         = attendance (apply_change sample_db 2 (mkChange 12 mar_11 "A")).2.
Proof.
  apply (bulk_change_idempotent sample_db 2 (mkChange 12 mar_11 "A")).
  reflexivity.
Defined.

(** * More on access and the report *)

Lemma teacherAssignment_teaches db classId teacherId :
  is_Some (teacherAssignment db classId teacherId)
  ↔ Exists (teaches classId teacherId) (timetable_periods db).
Proof.
  unfold teacherAssignment, queryOne.
  set (ids := remove_dups (tp_id <$> filter _ (timetable_periods db))).
  assert (is_Some (head ids) ↔ ∃ x, x ∈ ids) as ->.
  { destruct ids as [|x ids']; simpl.
    - split; [by intros []|]. by intros [x ?%elem_of_nil].
    - split; [|by eexists]. intros _. exists x. left. }
  unfold ids. rewrite Exists_exists. split.
  - intros (x & Hx). apply elem_of_remove_dups, list_elem_of_fmap in Hx
      as (tp & -> & [? ?]%list_elem_of_filter). by exists tp.
  - intros (tp & Htp & Ht). exists (tp_id tp).
    apply elem_of_remove_dups, list_elem_of_fmap. exists tp. split; [done|].
    by apply list_elem_of_filter.
Qed.



Lemma report_from_student db (row : JoinedRow) :
  row ∈ report_from db → row.1.1 ∈ students db.
Proof.
  unfold report_from. by intros Hrow%left_join_fst%left_join_fst.
Qed.

(** Present and absent rows are among the rows that carry a record; they
    are all of them when every status is P or A. *)
Lemma sum_status_count_id (rows : list JoinedRow) :
  0 ≤ sum_status "P" rows ∧ 0 ≤ sum_status "A" rows
  ∧ sum_status "P" rows + sum_status "A" rows ≤ count_id rows
  ∧ ((∀ row a, row ∈ rows → row.1.2 = Some a → status_check (a_status a)) →
     sum_status "P" rows + sum_status "A" rows = count_id rows).
Proof.
  unfold sum_status, count_id.
  induction rows as [|[[s oa] otp] rows IH]; [done|].
  destruct IH as (IHp & IHa & IHle & IHeq).
  rewrite !filter_cons. simpl.
  assert ((∀ row a, row ∈ rows → row.1.2 = Some a → status_check (a_status a)) →
          Z.of_nat (length (filter (λ row : JoinedRow,
                                      a_status <$> row.1.2 = Some "P") rows))
          + Z.of_nat (length (filter (λ row : JoinedRow,
                                        a_status <$> row.1.2 = Some "A") rows))
          = Z.of_nat (length (filter (λ row : JoinedRow, is_Some row.1.2) rows)))
    as IHeq' by exact IHeq.
  destruct (decide (is_Some oa)) as [Hsome|Hnone];
    destruct (decide (a_status <$> oa = Some "P")) as [Hp|Hp];
    destruct (decide (a_status <$> oa = Some "A")) as [Ha|Ha];
    simpl; try congruence;
    try (destruct oa; simpl in *; [|done]; exfalso; apply Hnone; by eexists).
  all: split_and!; try lia.
  all: intros Hall;
    assert (∀ row a, row ∈ rows → row.1.2 = Some a → status_check (a_status a))
      as Hrest by (intros row b Hrow; apply (Hall row b); by right);
    specialize (IHeq' Hrest); try lia.
  exfalso. destruct Hsome as [a ->].
  destruct (Hall (s, Some a, otp) a) as [Hst|Hst]; [left|done|..];
    simpl in *; congruence.
Qed.

Lemma round_2_percent present total :
  0 ≤ present ≤ total → 0 < total →
  0 ≤ round_2 (present * 100) total ≤ 10000.
Proof.
  intros Hp Ht. unfold round_2. split.
  - apply Z.div_pos; lia.
  - apply Z.lt_succ_r, Z.div_lt_upper_bound; lia.
Qed.

(** X13: Every line of the report belongs to a student of the class; the lines
    come in ascending roll number; present and absent days never exceed the
    total and add up to it when every stored status is P or A; the
    percentage is null exactly for a total of zero and lies between 0 and
    100 otherwise. *)
Theorem reports_lines db teacherId classId period now rows :
  reports db teacherId classId period now = Some rows →
  StronglySorted (le_on roll_no) rows
  ∧ ∀ row, row ∈ rows →
      (∃ s, s ∈ students db ∧ st_class_id s = Some classId
            ∧ roll_no row = st_roll_no s
            ∧ student_name row = st_student_name s)
      ∧ 0 ≤ present_days row ∧ 0 ≤ absent_days row
      ∧ present_days row + absent_days row ≤ total_days row
      ∧ (Forall (λ a, status_check (a_status a)) (attendance db) →
         present_days row + absent_days row = total_days row)
      ∧ (attendance_percentage row = None ↔ total_days row = 0)
      ∧ (∀ h, attendance_percentage row = Some h → 0 ≤ h ≤ 10000).
Proof.
  unfold reports. destruct (teacherAssignment db classId teacherId); [|done].
  intros [= <-]. split; [apply StronglySorted_merge_sort; apply _|].
  intros row. rewrite merge_sort_Permutation.
  intros (g & -> & Hg)%list_elem_of_fmap.
  unfold report_groups, group_by in Hg.
  apply list_elem_of_fmap in Hg as (k & -> & Hk).
  apply elem_of_remove_dups, list_elem_of_fmap in Hk as (r & -> & Hr).
  set (L := filter _ (report_from db)) in *.
  set (G := filter (λ x, report_key x = report_key r) L).
  apply list_elem_of_filter in Hr as [(Hclass & _) Hr].
  destruct (sum_status_count_id G) as (Hp & Ha & Hle & Heq).
  unfold report_select. simpl. fold G.
  split_and!; try done.
  - exists r.1.1. split_and!; try done. by apply report_from_student.
  - intros Hcheck. apply Heq. intros row a Hrow Hsome.
    rewrite Forall_forall in Hcheck. apply Hcheck.
    apply list_elem_of_filter in Hrow as [_ Hrow].
    apply list_elem_of_filter in Hrow as [_ Hrow].
    by eapply report_from_attendance.
  - by case_decide.
  - intros h. case_decide as Hz; [done|]. intros [= <-].
    apply round_2_percent; [lia|].
    assert (0 ≤ count_id G) by (unfold count_id; lia). lia.
Qed.

Lemma reports_lines_witness :
  StronglySorted (le_on roll_no)
    [mkReportRow 1 "A" 1 1 0 (Some 10000); mkReportRow 3 "C" 0 0 0 None]
  ∧ ∀ row, row ∈ [mkReportRow 1 "A" 1 1 0 (Some 10000);
                   mkReportRow 3 "C" 0 0 0 None] →
      (∃ s, s ∈ students sample_db ∧ st_class_id s = Some 5
            ∧ roll_no row = st_roll_no s
            ∧ student_name row = st_student_name s)
      ∧ 0 ≤ present_days row ∧ 0 ≤ absent_days row
      ∧ present_days row + absent_days row ≤ total_days row
      ∧ (Forall (λ a, status_check (a_status a)) (attendance sample_db) →
         present_days row + absent_days row = total_days row)
      ∧ (attendance_percentage row = None ↔ total_days row = 0)
      ∧ (∀ h, attendance_percentage row = Some h → 0 ≤ h ≤ 10000).
Proof.
  apply (reports_lines sample_db 2 5 (Some "week") mar_12). by vm_compute.
Defined.

(** The group of a student in the report's GROUP BY. *)
Lemma report_groups_of_student db classId teacherId per now s :
  primary_keys db → s ∈ students db → st_class_id s = Some classId →
  filter (λ g, g.1 = student_key s) (report_groups db classId teacherId per now)
  = match filter (on_student s) (attendance db) with
    | [] => [(student_key s, [(s, None, None)])]
    | _ =>
        match counted db teacherId (window_start per now) s with
        | [] => []
        | recs =>
            [(student_key s,
              (λ a, (s, Some a, period_of (timetable_periods db) a)) <$> recs)]
        end
    end.
Proof.
  intros [Hspk Htpk] Hs Hclass. unfold report_groups. rewrite group_by_key.
  rewrite report_from_bind, filter_key_student_rows by done.
  rewrite report_since_window_start.
  rewrite report_where_student_rows by done.
  destruct (filter (on_student s) (attendance db)); [done|].
  by destruct (counted db teacherId (window_start per now) s).
Qed.

(** X14: A student of the class who has attendance records, none of them
    counted for this teacher and period, is left out of the report: no line
    carries the student's roll number. *)
Theorem report_leaves_out_uncounted_student db teacherId classId period now
    s rows :
  primary_keys db → roll_no_unique (students db) →
  s ∈ students db → st_class_id s = Some classId →
  Exists (λ a, a_student_id a = st_id s) (attendance db) →
  counted db teacherId (window_start (default "week" period) now) s = [] →
  reports db teacherId classId period now = Some rows →
  ∀ row, row ∈ rows → roll_no row ≠ st_roll_no s.
Proof.
  intros Hpk Hroll Hs Hclass Hrec Hcounted Hrows row Hrow Heq.
  pose proof (report_groups_of_student db classId teacherId
                (default "week" period) now s Hpk Hs Hclass) as Hgroup.
  rewrite Hcounted in Hgroup.
  destruct (filter (on_student s) (attendance db)) as [|a0 rest] eqn:Hf.
  { apply Exists_exists in Hrec as (a & Ha & Hid).
    by destruct (filter_nil_not_elem_of _ _ a Hf). }
  unfold reports in Hrows.
  destruct (teacherAssignment db classId teacherId); [|done].
  simplify_eq. rewrite merge_sort_Permutation in Hrow.
  apply list_elem_of_fmap in Hrow as (g & -> & Hg).
  assert (g.1 = student_key s) as Hkey.
  { unfold report_groups, group_by in Hg.
    apply list_elem_of_fmap in Hg as (k & -> & Hk).
    apply elem_of_remove_dups, list_elem_of_fmap in Hk as (r & -> & Hr).
    apply list_elem_of_filter in Hr as [(Hc & _) Hr]. simpl in *.
    assert (r.1.1 = s) as <-; [|done].
    apply Hroll; [by apply report_from_student|done|by rewrite Hc|congruence|done]. }
  assert (g ∈ filter (λ g, g.1 = student_key s)
                (report_groups db classId teacherId (default "week" period) now))
    as Hin by by apply list_elem_of_filter.
  rewrite Hgroup in Hin. by apply elem_of_nil in Hin.
Qed.

(** Student B of the sample has a single manual entry and no line. *)
Lemma report_leaves_out_uncounted_student_witness :
  reports sample_db 2 5 (Some "week") mar_12
  = Some [mkReportRow 1 "A" 1 1 0 (Some 10000); mkReportRow 3 "C" 0 0 0 None]
  ∧ Forall (λ row, roll_no row ≠ st_roll_no student_b)
      [mkReportRow 1 "A" 1 1 0 (Some 10000); mkReportRow 3 "C" 0 0 0 None].
Proof.
  split; [by vm_compute|]. apply Forall_forall.
  apply (report_leaves_out_uncounted_student sample_db 2 5 (Some "week") mar_12
           student_b).
  - by_decide.
  - intros s1 s2 Hs1 Hs2 _ _ Hr.
    unfold sample_db in Hs1, Hs2. simpl in Hs1, Hs2.
    rewrite !elem_of_cons, elem_of_nil in Hs1, Hs2.
    destruct_or!; subst; try done; by vm_compute in Hr.
  - by_decide.
  - reflexivity.
  - by_decide.
  - reflexivity.
  - by vm_compute.
Defined.

(** * History: the window and its navigation links *)

Lemma history_window_week_start d :
  calendar_date d →
  history_window "week" d
  = Some (week_start d, add_days 6 (week_start d),
          (λ i, dateInfo (add_days i (week_start d))) <$> seqZ 0 7).
Proof.
  intros Hd. unfold history_window. rewrite decide_True by done.
  assert ((if decide (getDay d = 0) then -6 else 1 - getDay d)
          = - ((day_number d + 3) mod 7)) as Hdays.
  { unfold getDay. case_decide; Z.div_mod_to_equations; lia. }
  assert (setDate d (getDate d + (if decide (getDay d = 0) then -6
                                  else 1 - getDay d)) = week_start d) as ->.
  { rewrite setDate_add_days, Hdays by done. unfold week_start. f_equal. lia. }
  assert (calendar_date (week_start d)) as Hs by by apply add_days_valid.
  assert (∀ i, setDate (week_start d) (getDate (week_start d) + i)
               = add_days i (week_start d)) as Hset.
  { intros i. rewrite setDate_add_days by done. f_equal. lia. }
  rewrite Hset. do 2 f_equal.
  apply list_fmap_ext. intros ? i _. by rewrite Hset.
Qed.

Lemma week_start_monday d :
  calendar_date d → (day_number (week_start d) + 3) mod 7 = 0.
Proof.
  intros Hd. unfold week_start. rewrite day_number_add_days by done.
  Z.div_mod_to_equations; lia.
Qed.

Lemma week_start_add_days s i :
  calendar_date s → (day_number s + 3) mod 7 = 0 → 0 ≤ i < 7 →
  week_start (add_days i s) = s.
Proof.
  intros Hs Hmon Hi. unfold week_start.
  rewrite day_number_add_days by done.
  replace ((day_number s + i + 3) mod 7) with i
    by (Z.div_mod_to_equations; lia).
  rewrite add_days_add by done.
  replace (- i + i) with 0 by lia. apply add_days_0.
Qed.

Lemma history_window_other view d :
  view ≠ "week" → view ≠ "month" → history_window view d = None.
Proof. intros. unfold history_window. by rewrite !decide_False by done. Qed.

Lemma history_window_nav view d s e dates :
  calendar_date d → 100 < d_year d →
  history_window view d = Some (s, e, dates) →
  let prev := if decide (view = "week") then setDate s (getDate s - 7)
              else new_Date (getFullYear d) (getMonth d - 1) 1 in
  let next := if decide (view = "week") then setDate s (getDate s + 7)
              else new_Date (getFullYear d) (getMonth d + 1) 1 in
  (∀ info, info ∈ dates →
     history_window view (di_date info) = Some (s, e, dates)
     ∧ (view ≠ "week" → getFullYear (di_date info) = getFullYear d
                        ∧ getMonth (di_date info) = getMonth d))
  ∧ next = next_day e
  ∧ (∃ e' ds', history_window view next = Some (next, e', ds'))
  ∧ (∃ ds', history_window view prev = Some (prev, prev_day s, ds')).
Proof.
  intros Hd Hyear Hw.
  destruct (decide (view = "week")) as [->|Hweek].
  { rewrite history_window_week_start in Hw by done. simplify_eq.
    cbv zeta.
    pose proof (week_start_monday d Hd) as Hmon.
    assert (calendar_date (week_start d)) as Hs by by apply add_days_valid.
    remember (week_start d) as s eqn:Heqs. clear Heqs.
    assert (∀ i, setDate s (getDate s + i) = add_days i s) as Hset.
    { intros i. rewrite setDate_add_days by done. f_equal. lia. }
    replace (getDate s - 7) with (getDate s + -7) by lia. rewrite !Hset.
    assert (∀ k, (day_number (add_days (7 * k) s) + 3) mod 7 = 0) as Hmon'.
    { intros k. rewrite day_number_add_days by done.
      Z.div_mod_to_equations; lia. }
    assert (∀ k, week_start (add_days (7 * k) s) = add_days (7 * k) s) as Hk.
    { intros k. rewrite <- (add_days_0 (add_days (7 * k) s)) at 1.
      apply week_start_add_days; [by apply add_days_valid|done|lia]. }
    split_and!.
    - intros info (i & -> & Hi%elem_of_seqZ)%list_elem_of_fmap. simpl.
      split; [|done].
      rewrite history_window_week_start by by apply add_days_valid.
      by rewrite week_start_add_days by (done || lia).
    - change 7 with (6 + 1). by apply add_days_succ.
    - rewrite history_window_week_start by by apply add_days_valid.
      pose proof (Hk 1) as Hk1. change (7 * 1) with 7 in Hk1.
      rewrite Hk1. by eexists _, _.
    - rewrite history_window_week_start by by apply add_days_valid.
      pose proof (Hk (-1)) as Hk1. change (7 * -1) with (-7) in Hk1.
      rewrite Hk1.
      rewrite add_days_add by done. change (6 + -7) with (0 - 1).
      rewrite add_days_pred, add_days_0 by done. by eexists. }
  destruct (decide (view = "month")) as [->|Hmonth].
  2:{ by rewrite history_window_other in Hw. }
  cbv zeta.
  assert (∀ x, calendar_date x → ¬ 0 ≤ d_year x ≤ 99 →
            history_window "month" x
            = Some (mkDate (d_year x) (d_month x) 1,
                    mkDate (d_year x) (d_month x)
                           (days_in_month (d_year x) (d_month x)),
                    (λ i, dateInfo (mkDate (d_year x) (d_month x) i))
                      <$> seqZ 1 (days_in_month (d_year x) (d_month x))))
    as Hmonth_eq.
  { intros x Hx Hxy. destruct (history_window_month x Hx)
      as (s0 & e0 & ds0 & -> & Hs0 & He0 & Hds0).
    rewrite full_year_other in Hs0, He0, Hds0 by done. by subst. }
  rewrite Hmonth_eq in Hw by (done || lia). simplify_eq.
  destruct d as [y m dd]. destruct Hd as [Hm Hdd]. simpl in *.
  unfold getFullYear, getMonth. simpl.
  pose proof (days_in_month_pos y m Hm) as Hdim.
  assert (∀ y' m', 0 ≤ m' ≤ 11 → calendar_date (mkDate y' m' 1)) as Hfirst.
  { intros y' m' Hm'. pose proof (days_in_month_pos y' m' Hm').
    split; simpl; lia. }
  assert (∀ m', new_Date y m' 1 = mkDate (y + m' / 12) (m' mod 12) 1)
    as Hnew.
  { intros m'. unfold new_Date. by rewrite full_year_other by lia. }
  rewrite !Hnew.
  assert (-1 ≤ (m - 1) / 12 ≤ 0 ∧ 0 ≤ (m + 1) / 12 ≤ 1) as Hcarry
    by (Z.div_mod_to_equations; lia).
  split_and!.
  - intros info (i & -> & Hi%elem_of_seqZ)%list_elem_of_fmap. simpl.
    split; [|done]. rewrite Hmonth_eq; [done| |simpl; lia].
    split; simpl; lia.
  - unfold next_day. simpl. rewrite decide_False by lia.
    case_decide.
    + rewrite Z.div_small, Z.mod_small by lia. f_equal. lia.
    + by assert (m = 11) as -> by lia.
  - rewrite Hmonth_eq; [|apply Hfirst; Z.div_mod_to_equations; lia
                       |simpl; lia].
    by eexists _, _.
  - rewrite Hmonth_eq; [|apply Hfirst; Z.div_mod_to_equations; lia
                       |simpl; lia].
    simpl. eexists. do 2 f_equal. unfold prev_day. simpl. case_decide.
    + rewrite Z.div_small, Z.mod_small, Z.add_0_r by lia. done.
    + assert (m = 0) as -> by lia.
      change ((0 - 1) / 12) with (-1). change ((0 - 1) mod 12) with 11.
      simpl. f_equal.
Qed.

(** X15: for a reference date after the year 100, every date shown on the
    history page leads to the same page but for the reference date it
    echoes: the same students, dates, grid, bookmarks, periods, window and
    links, the database returning rows that tie under ORDER BY in the same
    order both times.  The "next" link is the day after the window's end and opens the
    window that starts there; the "previous" link opens the window that
    ends the day before this one starts.  For the week and the month view
    alike. *)
Theorem history_navigation order bookmarks db teacherId classId view
    currentDate page :
  js_date currentDate → 100 < d_year currentDate →
  attendance_history order bookmarks db teacherId classId view currentDate
    = Some page →
  h_currentDate page = currentDate
  ∧ h_view page = default "week" view
  ∧ (∀ info, info ∈ h_dates page →
       attendance_history order bookmarks db teacherId classId view
         (di_date info)
       = Some (mkHistoryPage (h_students page) (h_dates page)
                 (h_attendanceGrid page) (h_bookmarks page)
                 (h_teacherPeriodsOnSameDays page) (h_view page)
                 (di_date info) (h_prevDate page) (h_nextDate page)
                 (h_startDate page) (h_endDate page)))
  ∧ h_nextDate page = next_day (h_endDate page)
  ∧ (∃ next, attendance_history order bookmarks db teacherId classId view
               (h_nextDate page) = Some next
             ∧ h_startDate next = h_nextDate page)
  ∧ (∃ prev, attendance_history order bookmarks db teacherId classId view
               (h_prevDate page) = Some prev
             ∧ h_startDate prev = h_prevDate page
             ∧ h_endDate prev = prev_day (h_startDate page)).
Proof.
  intros [_ Hd] Hyear. unfold attendance_history.
  destruct (teacherAssignment db classId teacherId) as [assignment|]; [|done].
  destruct (decide (classId ∈ classes db)) as [Hclass|]; [|done].
  destruct (history_window (default "week" view) currentDate)
    as [[[s e] dates]|] eqn:Hw; [|done].
  intros [= <-]. simpl.
  destruct (history_window_nav _ _ _ _ _ Hd Hyear Hw)
    as (Hsame & Hnext & (e' & ds' & Hwn) & (dsp & Hwp)).
  split_and!; try done.
  - intros info Hinfo. destruct (Hsame info Hinfo) as [-> Hym].
    do 2 f_equal; case_decide; try done;
      destruct Hym as [-> ->]; done.
  - rewrite Hwn. by eexists.
  - rewrite Hwp. by eexists.
Qed.

(** The month of March 2024, opened for Monday the 11th. *)
Lemma history_navigation_witness :
  ∃ page,
    attendance_history as_stored [] sample_db 2 5 (Some "month") mar_11
      = Some page
    ∧ h_currentDate page = mar_11
    ∧ attendance_history as_stored [] sample_db 2 5 (Some "month") mar_10
      = Some (mkHistoryPage (h_students page) (h_dates page)
                (h_attendanceGrid page) (h_bookmarks page)
                (h_teacherPeriodsOnSameDays page) (h_view page)
                mar_10 (h_prevDate page) (h_nextDate page)
                (h_startDate page) (h_endDate page))
    ∧ h_nextDate page = mkDate 2024 3 1
    ∧ h_prevDate page = mkDate 2024 1 1.
Proof.
  assert (is_Some (attendance_history as_stored [] sample_db 2 5
                     (Some "month") mar_11))
    as [page Hpage] by by_decide.
  exists page. split; [done|].
  destruct (history_navigation as_stored [] sample_db 2 5 (Some "month")
              mar_11 page) as (Hcur & _ & Hsame & _);
    [by_decide|by_decide|done|].
  assert ((h_dates page, h_nextDate page, h_prevDate page)
          = ((λ i, dateInfo (mkDate 2024 2 i)) <$> seqZ 1 31,
             mkDate 2024 3 1, mkDate 2024 1 1)) as Hfields.
  { assert ((λ p, (h_dates p, h_nextDate p, h_prevDate p))
              <$> attendance_history as_stored [] sample_db 2 5
                    (Some "month") mar_11
            = Some ((λ i, dateInfo (mkDate 2024 2 i)) <$> seqZ 1 31,
                    mkDate 2024 3 1, mkDate 2024 1 1)) as Hcomputed
      by by vm_compute.
    rewrite Hpage in Hcomputed. by apply (inj Some) in Hcomputed. }
  injection Hfields as Hdates Hnext Hprev. split_and!; try done.
  apply (Hsame (dateInfo mar_10)).
  rewrite Hdates. by_decide.
Defined.

(** A view other than week or month gives no page: the handler ends in the
    redirect of its catch clause. *)
Lemma attendance_history_other_view order bookmarks db teacherId classId view
    currentDate :
  view ≠ "week" → view ≠ "month" →
  attendance_history order bookmarks db teacherId classId (Some view)
    currentDate = None.
Proof.
  intros. unfold attendance_history. simpl.
  rewrite history_window_other by done. by repeat case_match.
Qed.

(** * History: what a period cell shows *)

Lemma attendanceRecords_elem_of order db classId startDate endDate a :
  a ∈ attendanceRecords order db classId startDate endDate ↔
  a ∈ attendance db
  ∧ (∃ st, st ∈ students db ∧ a_student_id a = st_id st
           ∧ st_class_id st = Some classId)
  ∧ day_number startDate ≤ day_number (a_date a) ≤ day_number endDate.
Proof.
  unfold attendanceRecords. rewrite list_elem_of_fmap. split.
  - intros ([a' st] & -> & Hx).
    rewrite merge_sort_Permutation, arrange_Permutation in Hx.
    apply list_elem_of_filter in Hx as [(Hc & Hlo & Hhi) Hx]. simpl in *.
    apply list_elem_of_bind in Hx as (a0 & Hx & Ha0).
    apply list_elem_of_fmap in Hx as (st0 & [= -> ->] & Hst).
    apply list_elem_of_filter in Hst as [Hid Hst].
    split_and!; [done| |lia|lia]. by exists st0.
  - intros (Ha & (st & Hst & Hid & Hc) & Hlo & Hhi).
    exists (a, st). split; [done|].
    rewrite merge_sort_Permutation, arrange_Permutation.
    apply list_elem_of_filter. split; [simpl; split_and!; [done|lia|lia]|].
    apply list_elem_of_bind. exists a. split; [|done].
    apply list_elem_of_fmap. exists st. split; [done|].
    by apply list_elem_of_filter.
Qed.

Lemma history_window_dates view d s e dates info :
  calendar_date d → history_window view d = Some (s, e, dates) →
  info ∈ dates →
  day_number s ≤ day_number (di_date info) ≤ day_number e.
Proof.
  intros Hd Hw Hinfo.
  destruct (decide (view = "week")) as [->|Hweek].
  { rewrite history_window_week_start in Hw by done. simplify_eq.
    assert (calendar_date (week_start d)) by by apply add_days_valid.
    apply list_elem_of_fmap in Hinfo as (i & -> & Hi%elem_of_seqZ). simpl.
    rewrite !day_number_add_days by done. lia. }
  destruct (decide (view = "month")) as [->|Hmonth].
  2:{ by rewrite history_window_other in Hw. }
  destruct (history_window_month d Hd) as (s0 & e0 & ds0 & Hw0 & -> & -> & ->).
  rewrite Hw0 in Hw. simplify_eq.
  apply list_elem_of_fmap in Hinfo as (i & -> & Hi%elem_of_seqZ).
  unfold day_number. simpl. lia.
Qed.

(** The cell of one period after the overlay, when the records under its
    key agree on the status. *)
Lemma foldl_overlay_period_cell (grid : Grid) records s d pid st :
  pid ≠ 0 →
  is_Some (grid !! s) → is_Some (cell grid s d (PeriodCell pid)) →
  (∀ r, r ∈ records → same_key s d pid r → a_status r = st) →
  cell (foldl overlay_record grid records) s d (PeriodCell pid)
  = if decide (Exists (same_key s d pid) records) then Some (Some st)
    else cell grid s d (PeriodCell pid).
Proof.
  intros Hpid. revert grid.
  induction records as [|r rs IH]; intros grid Hrow Hcell Hst.
  { cbn [foldl]. rewrite decide_False; [done|]. by intros ?%Exists_nil. }
  cbn [foldl]. rewrite IH.
  2:{ by apply overlay_record_students. }
  2:{ by apply overlay_record_period_cells. }
  2:{ intros r' Hr'. apply Hst. by right. }
  destruct (decide (same_key s d pid r)) as [Hkey|Hkey].
  - assert (cell (overlay_record grid r) s d (PeriodCell pid)
            = Some (Some st)) as ->.
    { destruct Hkey as (Hs & Hd & Hp).
      rewrite cell_overlay_record by by rewrite Hs.
      rewrite decide_True.
      - f_equal. f_equal. apply Hst; [left|done].
      - split_and!; try done. unfold overlay_key. rewrite Hp.
        rewrite decide_True; [done|]. split; [done|]. by rewrite Hs, Hd. }
    rewrite (decide_True (P := Exists _ (r :: rs))) by by left.
    by case_decide.
  - assert (cell (overlay_record grid r) s d (PeriodCell pid)
            = cell grid s d (PeriodCell pid)) as ->.
    { destruct (grid !! a_student_id r) as [row|] eqn:Hr.
      2:{ by rewrite overlay_record_unknown_student. }
      rewrite cell_overlay_record by by rewrite Hr.
      rewrite decide_False; [done|]. intros (Hs & Hd & Hk). apply Hkey.
      split_and!; try done. unfold overlay_key in Hk.
      destruct (a_period_id r) as [pid'|]; [|done].
      case_decide; by simplify_eq. }
    destruct (decide (Exists _ rs)) as [Hex|Hnex].
    + rewrite decide_True; [done|]. by right.
    + rewrite decide_False; [done|].
      intros [?|?]%Exists_cons; done.
Qed.

Lemma attendance_history_period_cell order bookmarks db teacherId classId view
    currentDate page s info p :
  attendance_key_unique (attendance db) →
  calendar_date currentDate →
  attendance_history order bookmarks db teacherId classId view currentDate
    = Some page →
  s ∈ students db → st_class_id s = Some classId →
  info ∈ h_dates page →
  p ∈ timetable_periods db → scheduled teacherId classId (di_date info) p →
  tp_id p ≠ 0 →
  cell (h_attendanceGrid page) (st_id s) (di_date info) (PeriodCell (tp_id p))
  = Some (a_status <$>
            head (filter (same_key (st_id s) (di_date info) (tp_id p))
                         (attendance db))).
Proof.
  intros Huniq Hd Hpage Hs Hclass Hinfo Hp (Ht & Hc & Hb & Hday) Hid.
  unfold attendance_history in Hpage.
  destruct (teacherAssignment db classId teacherId); [|done].
  destruct (decide (classId ∈ classes db)); [|done].
  destruct (history_window (default "week" view) currentDate)
    as [[[startDate endDate] dates]|] eqn:Hw; [|done].
  simplify_eq. simpl in *.
  pose proof (history_window_dates _ _ _ _ _ _ Hd Hw Hinfo) as Hrange.
  set (sts := merge_sort (le_on st_roll_no)
                (filter (λ st, st_class_id st = Some classId) (students db))).
  set (tps := teacherPeriodsOnSameDays db teacherId classId).
  set (records := attendanceRecords order db classId startDate endDate).
  assert (s ∈ sts) as Hsts.
  { unfold sts. rewrite merge_sort_Permutation. by apply list_elem_of_filter. }
  assert (cell (init_grid sts dates tps) (st_id s) (di_date info)
               (PeriodCell (tp_id p)) = Some None) as Hinit.
  { rewrite init_grid_cell, init_cells_lookup by done.
    rewrite decide_True; [done|]. apply Exists_exists. exists p.
    split; [|done]. by apply teacherPeriodsOnSameDays_elem_of. }
  assert (∀ r, same_key (st_id s) (di_date info) (tp_id p) r →
               r ∈ records ↔ r ∈ attendance db) as Hrecords.
  { intros r (Hrs & Hrd & _). unfold records.
    rewrite attendanceRecords_elem_of. split; [by intros [? _]|].
    intros Hr. split_and!; try done; [|rewrite Hrd; lia..].
    by exists s. }
  pose proof (Huniq (st_id s) (di_date info) (tp_id p)) as Hlen.
  destruct (filter (same_key (st_id s) (di_date info) (tp_id p)) (attendance db))
    as [|a [|a' rest]] eqn:Hf; [| |simpl in Hlen; lia]; simpl.
  - rewrite (foldl_overlay_period_cell _ _ _ _ _ EmptyString).
    + rewrite decide_False; [done|].
      intros (r & Hr & Hkey)%Exists_exists.
      apply (filter_nil_not_elem_of _ _ r Hf); [done|]. by apply Hrecords.
    + done.
    + by rewrite init_grid_row.
    + by rewrite Hinit.
    + intros r Hr Hkey. exfalso.
      apply (filter_nil_not_elem_of _ _ r Hf); [done|]. by apply Hrecords.
  - assert (a ∈ attendance db ∧ same_key (st_id s) (di_date info) (tp_id p) a)
      as [Ha Hkey].
    { assert (a ∈ filter (same_key (st_id s) (di_date info) (tp_id p))
                    (attendance db)) as [? ?]%list_elem_of_filter
        by (rewrite Hf; left).
      done. }
    rewrite (foldl_overlay_period_cell _ _ _ _ _ (a_status a)).
    + rewrite decide_True; [done|]. apply Exists_exists. exists a.
      split; [|done]. by apply Hrecords.
    + done.
    + by rewrite init_grid_row.
    + by rewrite Hinit.
    + intros r Hr Hrkey.
      assert (r ∈ [a]) as ->%list_elem_of_singleton; [|done].
      rewrite <- Hf. apply list_elem_of_filter. split; [done|].
      by apply Hrecords.
Qed.



(** * From the mark to the history page *)

Lemma NoDup_fmap_eq {A B} (f : A → B) (l : list A) x y :
  NoDup (f <$> l) → x ∈ l → y ∈ l → f x = f y → x = y.
Proof.
  induction l as [|z l IH]; [by intros _ ?%elem_of_nil|].
  rewrite fmap_cons. intros [Hz Hl]%NoDup_cons.
  intros [->|Hx]%elem_of_cons [->|Hy]%elem_of_cons Heq; try done.
  - destruct Hz. rewrite Heq. apply list_elem_of_fmap. by exists y.
  - destruct Hz. rewrite <- Heq. apply list_elem_of_fmap. by exists x.
  - by apply IH.
Qed.

Lemma teacherCurrentPeriod_Some periods classId teacherId day time p :
  teacherCurrentPeriod periods classId teacherId day time = Some p →
  p ∈ periods ∧ tp_class_id p = Some classId
  ∧ tp_teacher_id p = Some teacherId ∧ tp_day_of_week p = day
  ∧ tp_is_break p = false.
Proof.
  unfold teacherCurrentPeriod.
  intros [Hp _]%queryOne_order_by_Some.
  by apply list_elem_of_filter in Hp as [(? & ? & ? & ? & ? & ?) ?].
Qed.

(** After a successful upsert the first row under the key carries the
    status sent. *)
Lemma upsert_attendance_head db studentId classId periodId date status
    markedBy db1 :
  upsert_attendance db studentId classId periodId date status markedBy
    = (true, db1) →
  a_status <$> head (filter (same_key studentId date periodId) (attendance db1))
  = Some status.
Proof.
  intros (_ & _ & _ & _ & Hrows)%upsert_attendance_success.
  assert (∃ a, a ∈ attendance db1 ∧ same_key studentId date periodId a)
    as (a0 & Ha0 & Hkey0).
  { destruct Hrows as [[Hex ->]|[_ ->]].
    - apply Exists_exists in Hex as (a & Ha & Hkey).
      exists (set_status_marked_by status markedBy a). split; [|done].
      apply list_elem_of_fmap. exists a. by rewrite decide_True.
    - eexists. split; [apply elem_of_app; right; left|done]. }
  assert (∀ a, a ∈ attendance db1 → same_key studentId date periodId a →
               a_status a = status) as Hstatus.
  { destruct Hrows as [[_ ->]|[Hnex ->]]; intros a Ha Hkey.
    - apply list_elem_of_fmap in Ha as (b & -> & Hb).
      case_decide; [done|]. done.
    - apply elem_of_app in Ha as [Ha| ->%list_elem_of_singleton]; [|done].
      destruct Hnex. apply Exists_exists. by exists a. }
  destruct (filter _ (attendance db1)) as [|a rest] eqn:Hf.
  { by destruct (filter_nil_not_elem_of _ _ a0 Hf). }
  simpl. f_equal. apply Hstatus.
  - assert (a ∈ filter (same_key studentId date periodId) (attendance db1))
      as [? ?]%list_elem_of_filter by (rewrite Hf; left). done.
  - assert (a ∈ filter (same_key studentId date periodId) (attendance db1))
      as [? ?]%list_elem_of_filter by (rewrite Hf; left). done.
Qed.



(** * The attendance page *)

Lemma left_join_at_most_one {A B} (on : A → B → Prop)
    `{∀ a b, Decision (on a b)} (l : list A) (r : list B) :
  (∀ a, (length (filter (on a) r) ≤ 1)%nat) →
  left_join on l r = (λ a, (a, head (filter (on a) r))) <$> l.
Proof.
  intros Hone. unfold left_join.
  induction l as [|a l IH]; [done|].
  rewrite bind_cons, IH, fmap_cons. f_equal.
  specialize (Hone a).
  destruct (filter (on a) r) as [|b [|b' bs]]; simpl in *; [done|done|lia].
Qed.

Lemma filter_on_today today periodId s (rows : list Attendance) :
  filter (on_today today periodId s) rows
  = filter (same_key (st_id s) today periodId) rows.
Proof.
  apply list_filter_iff. intros a. unfold on_today, same_key.
  split; intros (? & ? & ?); done.
Qed.

Lemma getCurrentDayOfWeek_range off now day :
  getCurrentDayOfWeek off now = Some day → 1 ≤ day ≤ 7.
Proof.
  unfold getCurrentDayOfWeek.
  destruct (getNowIST off now) as [ist|]; [|done]. simpl. intros [= <-].
  pose proof (Z.mod_pos_bound (ist / 86400000 + 4) 7).
  case_decide; lia.
Qed.

Lemma nextTimeString_is_Some now :
  - maxTime ≤ now + 2 * 3600000 ≤ maxTime → is_Some (nextTimeString now).
Proof.
  intros Hrange. unfold nextTimeString, TimeClip.
  rewrite decide_True by done. by eexists.
Qed.

(** The lines of the page, up to their order. *)
Lemma attendance_page_students off db teacherId classId now page :
  attendance_key_unique (attendance db) →
  attendance_page off db teacherId classId now = Some page →
  ap_date page = today_utc now
  ∧ (∃ day time,
       getCurrentDayOfWeek off now = Some day
       ∧ getCurrentTime off now = Some time
       ∧ ap_currentPeriodInfo page
         = teacherCurrentPeriod (timetable_periods db) classId teacherId
             day time)
  ∧ StronglySorted (le_on (λ row : Student * option Attendance,
                             st_roll_no row.1)) (ap_students page)
  ∧ ap_students page
    ≡ₚ (λ s, (s, ap_currentPeriodInfo page ≫= λ cp,
                 head (filter (same_key (st_id s) (today_utc now) (tp_id cp))
                              (attendance db))))
       <$> filter (λ s, st_class_id s = Some classId) (students db).
Proof.
  intros Huniq. unfold attendance_page.
  destruct (teacherAssignment db classId teacherId); [|done].
  destruct (decide (classId ∈ classes db)); [|done].
  destruct (getCurrentDayOfWeek off now) as [day|]; [|done].
  destruct (getCurrentTime off now) as [time|]; [|done].
  destruct (nextTimeString now) as [next|]; [|done].
  intros [= <-]. simpl. split; [done|]. split; [by exists day, time|].
  destruct (teacherCurrentPeriod _ _ _ _ _) as [cp|]; simpl.
  - split; [apply StronglySorted_merge_sort; apply _|].
    rewrite merge_sort_Permutation.
    rewrite left_join_at_most_one.
    2:{ intros s. rewrite filter_on_today. apply Huniq. }
    rewrite filter_fmap_comm. simpl.
    erewrite list_fmap_ext; [done|].
    intros ? s _. simpl. by rewrite filter_on_today.
  - split.
    + eapply StronglySorted_fmap; [|apply StronglySorted_merge_sort; apply _].
      by intros ??.
    + by rewrite merge_sort_Permutation.
Qed.

(** X18: With the unique key on attendance, the page has one line per student
    of the class, in ascending roll number; the line shows the record
    stored under (student, today's UTC date, the teacher's period running
    now), nothing when there is no such record or no such period.  The day
    name is always one of the seven. *)
Theorem attendance_page_lines off db teacherId classId now page :
  attendance_key_unique (attendance db) →
  attendance_page off db teacherId classId now = Some page →
  fst <$> ap_students page
    ≡ₚ filter (λ s, st_class_id s = Some classId) (students db)
  ∧ StronglySorted (le_on (λ row : Student * option Attendance,
                             st_roll_no row.1)) (ap_students page)
  ∧ (∀ s oa, (s, oa) ∈ ap_students page →
       oa = ap_currentPeriodInfo page ≫= λ cp,
              head (filter (same_key (st_id s) (ap_date page) (tp_id cp))
                           (attendance db)))
  ∧ (∃ name, ap_currentDayName page = Some name ∧ name ∈ tail dayNames).
Proof.
  intros Huniq Hpage.
  destruct (attendance_page_students _ _ _ _ _ _ Huniq Hpage)
    as (Hdate & _ & Hsorted & Hlines).
  split_and!.
  - rewrite Hlines, <- list_fmap_compose. simpl. by rewrite list_fmap_id.
  - done.
  - intros s oa Hrow. rewrite Hlines in Hrow.
    apply list_elem_of_fmap in Hrow as (s' & [= -> ->] & _).
    by rewrite Hdate.
  - unfold attendance_page in Hpage.
    destruct (teacherAssignment db classId teacherId); [|done].
    destruct (decide (classId ∈ classes db)); [|done].
    destruct (getCurrentDayOfWeek off now) as [day|] eqn:Hday; [|done].
    destruct (getCurrentTime off now) as [time|]; [|done].
    destruct (nextTimeString now) as [next|]; [|done].
    simplify_eq. simpl.
    pose proof (getCurrentDayOfWeek_range off now day Hday) as Hrange.
    clear Hday.
    assert (day = 1 ∨ day = 2 ∨ day = 3 ∨ day = 4 ∨ day = 5 ∨ day = 6
            ∨ day = 7) as Hcases by lia.
    destruct_or! Hcases; subst day; (eexists; split; [reflexivity|]);
      by_decide.
Qed.

Lemma attendance_page_lines_witness :
  ∃ page,
    attendance_page 0 sample_db 2 5 mar_11_0930 = Some page
    ∧ fst <$> ap_students page
        ≡ₚ filter (λ s, st_class_id s = Some 5) (students sample_db)
    ∧ StronglySorted (le_on (λ row : Student * option Attendance,
                               st_roll_no row.1)) (ap_students page)
    ∧ (∀ s oa, (s, oa) ∈ ap_students page →
         oa = ap_currentPeriodInfo page ≫= λ cp,
                head (filter (same_key (st_id s) (ap_date page) (tp_id cp))
                             (attendance sample_db)))
    ∧ (∃ name, ap_currentDayName page = Some name ∧ name ∈ tail dayNames).
Proof.
  eexists. split; [by vm_compute|].
  apply (attendance_page_lines 0 sample_db 2 5 mar_11_0930).
  - apply attendance_keys_NoDup. by_decide.
  - by vm_compute.
Defined.



(** X20: The upcoming period announced on the page is a non-break period of the
    teacher in the class that starts later today, no later than the clock
    time two hours from now.  That bound is a time of day: once it has
    wrapped past midnight -- with no manual offset, from 22:00 on -- no
    upcoming period is announced. *)
Theorem upcoming_period_window off db teacherId classId now page :
  attendance_page off db teacherId classId now = Some page →
  ∃ day next,
    getCurrentDayOfWeek off now = Some day
    ∧ getCurrentTime off now = Some (ap_currentTime page)
    ∧ nextTimeString now = Some next
    ∧ (∀ p, ap_upcomingPeriod page = Some p →
            p ∈ timetable_periods db ∧ teaches classId teacherId p
            ∧ tp_day_of_week p = day
            ∧ ap_currentTime page < tp_start_time p ≤ next)
    ∧ (next ≤ ap_currentTime page → ap_upcomingPeriod page = None)
    ∧ (off = 0 → 22 * 3600 ≤ ap_currentTime page →
       ap_upcomingPeriod page = None).
Proof.
  unfold attendance_page.
  destruct (teacherAssignment db classId teacherId); [|done].
  destruct (decide (classId ∈ classes db)); [|done].
  destruct (getCurrentDayOfWeek off now) as [day|]; [|done].
  destruct (getCurrentTime off now) as [time|] eqn:Htime; [|done].
  destruct (nextTimeString now) as [next|] eqn:Hnext; [|done].
  intros [= <-]. simpl. exists day, next. do 3 (split; [done|]).
  assert (next ≤ time →
          queryOne (merge_sort (le_on tp_start_time)
            (filter (λ tp, tp_class_id tp = Some classId
                         ∧ tp_teacher_id tp = Some teacherId
                         ∧ tp_day_of_week tp = day
                         ∧ tp_start_time tp > time
                         ∧ tp_start_time tp ≤ next
                         ∧ tp_is_break tp = false) (timetable_periods db)))
          = None) as Hwrap.
  { intros Hle. apply queryOne_order_by_None, filter_eq_nil.
    intros tp _ (_ & _ & _ & ? & ? & _). lia. }
  split_and!.
  - intros p [Hp _]%queryOne_order_by_Some.
    apply list_elem_of_filter in Hp as [(? & ? & ? & ? & ? & ?) ?].
    unfold teaches. split_and!; try done. lia.
  - done.
  - intros -> Hlate. apply Hwrap. revert Htime Hnext Hlate.
    unfold nextTimeString, getCurrentTime, getNowIST, TimeClip.
    replace (now + 19800000 + 0 * 60 * 1000) with (now + 19800000) by lia.
    do 2 (case_decide; [|done]). simpl. intros [= <-] [= <-].
    replace (now + 2 * 3600000 + 19800000)
      with (now + 19800000 + 2 * 3600000) by lia.
    remember (now + 19800000) as ist eqn:Hist. clear Hist.
    replace ((ist + 2 * 3600000) / 3600000) with (ist / 3600000 + 2)
      by (rewrite Z.div_add; lia).
    replace ((ist + 2 * 3600000) / 60000) with (ist / 60000 + 120)
      by (change (2 * 3600000) with (120 * 60000); rewrite Z.div_add; lia).
    remember (ist / 3600000) as h eqn:Hh. remember (ist / 60000) as m eqn:Hm.
    clear Hh Hm. intros Hlate.
    replace ((m + 120) mod 60) with (m mod 60)
      by (Z.div_mod_to_equations; lia).
    pose proof (Z.mod_pos_bound m 60). pose proof (Z.mod_pos_bound h 24).
    assert (22 ≤ h mod 24) by lia.
    replace ((h + 2) mod 24) with (h mod 24 - 22)
      by (Z.div_mod_to_equations; lia).
    lia.
Qed.

(** Monday 11 March 2024, 22:30 in Asia/Kolkata. *)
Lemma upcoming_period_window_witness :
  ∃ page,
    attendance_page 0 sample_db 2 5 (19793 * 86400000 + 17 * 3600000)
      = Some page
    ∧ ap_upcomingPeriod page = None.
Proof.
  assert (is_Some (attendance_page 0 sample_db 2 5
                     (19793 * 86400000 + 17 * 3600000)))
    as [page Hpage] by by_decide.
  exists page. split; [done|].
  destruct (upcoming_period_window 0 sample_db 2 5
              (19793 * 86400000 + 17 * 3600000) page Hpage)
    as (day & next & _ & Htime & _ & _ & _ & Hlate).
  apply Hlate; [done|].
  assert (getCurrentTime 0 (19793 * 86400000 + 17 * 3600000)
          = Some (22 * 3600 + 30 * 60)) as Hnow by by vm_compute.
  rewrite Hnow in Htime. injection Htime as <-. lia.
Defined.

(** * Deleting all periods of a class *)

Lemma delete_class_periods_found db classId :
  classId ∈ classes db →
  delete_class_periods db classId
  = (ClassPeriodsDeleted
       (length (filter (λ tp, tp_class_id tp = Some classId)
                       (timetable_periods db)))
       (length (filter (λ a, a_class_id a = Some classId) (attendance db))),
     delete_class_period_rows db classId).
Proof.
  intros Hc. unfold delete_class_periods, queryOne.
  destruct (filter (λ c, c = classId) (classes db)) as [|c0 cs] eqn:Hf; [|done].
  by destruct (filter_nil_not_elem_of _ _ classId Hf).
Qed.

Lemma delete_class_periods_not_found db classId :
  classId ∉ classes db →
  delete_class_periods db classId = (ClassNotFound, db).
Proof.
  intros Hc. unfold delete_class_periods, queryOne.
  destruct (filter (λ c, c = classId) (classes db)) as [|c0 cs] eqn:Hf; [done|].
  assert (c0 ∈ filter (λ c, c = classId) (classes db))
    as [-> ?]%list_elem_of_filter by (rewrite Hf; left).
  done.
Qed.

Lemma delete_class_period_rows_integrity db classId :
  attendance_integrity db →
  attendance_integrity (delete_class_period_rows db classId).
Proof.
  intros [Huniq Hrows]. split.
  - intros s d p. simpl.
    etrans; [apply length_filter_filter_le|apply Huniq].
  - simpl. apply Forall_forall. intros a [Hkeep Ha]%list_elem_of_filter.
    rewrite Forall_forall in Hrows.
    destruct (Hrows a Ha) as [(Hst & Hsid & Hcl & Hper & Hby) Hdate].
    split; [|done]. split_and!; try done. simpl.
    destruct (a_period_id a) as [pid|] eqn:Hpid; [|done]. simpl in *.
    apply list_elem_of_fmap in Hper as (tp & -> & Htp).
    apply list_elem_of_fmap. exists tp. split; [done|].
    apply list_elem_of_filter. split; [|done].
    intros Hclass. apply Hkeep. apply Exists_exists. exists tp.
    by rewrite Hpid.
Qed.

(** X21: Deleting all periods of a class keeps the attendance table consistent:
    the rows that stay still refer to existing periods, and the unique key
    still holds. *)
Theorem delete_class_periods_keeps_integrity db classId :
  attendance_integrity db →
  attendance_integrity (delete_class_periods db classId).2.
Proof.
  intros Hint. destruct (decide (classId ∈ classes db)).
  - rewrite delete_class_periods_found by done.
    by apply delete_class_period_rows_integrity.
  - by rewrite delete_class_periods_not_found.
Qed.

Lemma delete_class_periods_keeps_integrity_witness :
  attendance_integrity (delete_class_periods sample_db_manual 5).2.
Proof.
  apply (delete_class_periods_keeps_integrity sample_db_manual 5).
  split; [apply attendance_keys_NoDup|]; by_decide.
Defined.

Lemma filter_iff_elem_of {A} (P Q : A → Prop) `{∀ x, Decision (P x)}
    `{∀ x, Decision (Q x)} (l : list A) :
  (∀ x, x ∈ l → P x ↔ Q x) → filter P l = filter Q l.
Proof.
  intros Hiff. induction l as [|x l IH]; [done|].
  rewrite !filter_cons, IH by (intros y Hy; apply Hiff; by right).
  destruct (decide (P x)) as [HP|HP], (decide (Q x)) as [HQ|HQ]; try done.
  - destruct HQ. apply Hiff; [left|done].
  - destruct HP. apply Hiff; [left|done].
Qed.

Lemma length_filter_and_split {A} (P Q : A → Prop) `{∀ x, Decision (P x)}
    `{∀ x, Decision (Q x)} (l : list A) :
  length (filter Q l)
  = (length (filter (λ x, P x ∧ Q x) l)
     + length (filter (λ x, ¬ P x ∧ Q x) l))%nat.
Proof.
  rewrite (length_filter_split P (filter Q l)).
  by rewrite !list_filter_filter.
Qed.

(** X22: The number of attendance records the answer reports is the number of
    records filed under the class, while the cascade removes the records
    of the class's periods.  When every record's class is that of its
    period, the reported number is the number removed plus the number of
    records of the class without a period; records without a period are
    never removed. *)
Theorem delete_class_periods_reported_count db classId periodCount
    attendanceCount db' :
  NoDup (tp_id <$> timetable_periods db) →
  Forall (period_class_agrees (timetable_periods db)) (attendance db) →
  delete_class_periods db classId
    = (ClassPeriodsDeleted periodCount attendanceCount, db') →
  (attendanceCount + length (attendance db')
   = length (attendance db)
     + length (filter (λ a, a_class_id a = Some classId ∧ a_period_id a = None)
                      (attendance db)))%nat
  ∧ ∀ a, a ∈ attendance db → a_period_id a = None → a ∈ attendance db'.
Proof.
  intros Hpk Hagree Hdel.
  destruct (decide (classId ∈ classes db)) as [Hc|Hc].
  2:{ by rewrite delete_class_periods_not_found in Hdel. }
  rewrite delete_class_periods_found in Hdel by done. simplify_eq. simpl.
  rewrite Forall_forall in Hagree.
  set (P := in_class_period (timetable_periods db) classId).
  assert (∀ a, a ∈ attendance db → P a →
               a_class_id a = Some classId ∧ a_period_id a ≠ None) as HP.
  { intros a Ha (tp & Htp & Hclass & Hpid)%Exists_exists.
    split; [|by rewrite Hpid].
    specialize (Hagree a Ha). unfold period_class_agrees in Hagree.
    rewrite Hpid in Hagree.
    apply Exists_exists in Hagree as (tp' & Htp' & Hid & Hcl).
    assert (tp' = tp) as -> by by eapply (NoDup_fmap_eq tp_id).
    congruence. }
  assert (∀ a, a ∈ attendance db → a_class_id a = Some classId →
               ¬ P a → a_period_id a = None) as HnP.
  { intros a Ha Hclass Hna.
    destruct (a_period_id a) as [pid|] eqn:Hpid; [|done].
    destruct Hna. specialize (Hagree a Ha).
    unfold period_class_agrees in Hagree. rewrite Hpid in Hagree.
    apply Exists_exists in Hagree as (tp & Htp & Hid & Hcl).
    apply Exists_exists. exists tp. split; [done|].
    split; [congruence|]. by rewrite Hpid, Hid. }
  split.
  - rewrite (length_filter_and_split P (λ a, a_class_id a = Some classId)).
    rewrite (length_filter_split P (attendance db)).
    assert (filter (λ a, P a ∧ a_class_id a = Some classId) (attendance db)
            = filter P (attendance db)) as ->.
    { apply filter_iff_elem_of. intros a Ha.
      split; [by intros [? _]|]. intros HPa. split; [done|].
      by apply HP. }
    assert (filter (λ a, ¬ P a ∧ a_class_id a = Some classId) (attendance db)
            = filter (λ a, a_class_id a = Some classId ∧ a_period_id a = None)
                     (attendance db)) as ->.
    { apply filter_iff_elem_of. intros a Ha. split.
      - intros [HnPa Hclass]. split; [done|]. by apply HnP.
      - intros [Hclass Hnone]. split; [|done]. intros HPa.
        by destruct (HP a Ha HPa) as [_ ?]. }
    lia.
  - intros a Ha Hnone. apply list_elem_of_filter. split; [|done].
    intros HPa. by destruct (HP a Ha HPa) as [_ ?].
Qed.

(** Class 5 of the sample has two records with a period and one without:
    three are reported, two are removed. *)
Lemma delete_class_periods_reported_count_witness :
  (3 + length (attendance (delete_class_periods sample_db_manual 5).2)
   = length (attendance sample_db_manual)
     + length (filter (λ a, a_class_id a = Some 5%Z ∧ a_period_id a = None)
                      (attendance sample_db_manual)))%nat
  ∧ ∀ a, a ∈ attendance sample_db_manual → a_period_id a = None →
         a ∈ attendance (delete_class_periods sample_db_manual 5).2.
Proof.
  apply (delete_class_periods_reported_count sample_db_manual 5 2 3).
  - by_decide.
  - by_decide.
  - by vm_compute.
Defined.

Lemma delete_class_period_rows_twice db classId :
  delete_class_period_rows (delete_class_period_rows db classId) classId
  = delete_class_period_rows db classId.
Proof.
  unfold delete_class_period_rows. simpl. f_equal.
  - apply filter_all. by intros tp [? _]%list_elem_of_filter.
  - apply filter_all. intros a _ (tp & Htp & Hclass & _)%Exists_exists.
    by apply list_elem_of_filter in Htp as [? _].
Qed.

(** X23: Once all periods of a class are deleted, the class is closed to every
    teacher: no mark is accepted for it -- the answer is "no active period"
    whenever the clock and the class id are values the query can take --
    the report and the history page redirect, a bulk edit is refused, and
    nothing changes.  Deleting again finds no period and changes nothing. *)
Theorem delete_class_periods_closes_class db classId periodCount
    attendanceCount db' :
  delete_class_periods db classId
    = (ClassPeriodsDeleted periodCount attendanceCount, db') →
  (∀ off teacherId req now,
     mr_classId req = classId →
     (mark_attendance off db' teacherId req now).1 ≠ MarkSuccess
     ∧ (mark_attendance off db' teacherId req now).2 = db'
     ∧ (clock_in_range off now → int4 classId →
        mark_attendance off db' teacherId req now = (NoActivePeriod, db')))
  ∧ (∀ teacherId period now, reports db' teacherId classId period now = None)
  ∧ (∀ order bookmarks teacherId view currentDate,
       attendance_history order bookmarks db' teacherId classId view
         currentDate = None)
  ∧ (∀ teacherId changes,
       bulk_update db' teacherId classId changes = (BulkAccessDenied, db'))
  ∧ ∃ n, delete_class_periods db' classId = (ClassPeriodsDeleted 0 n, db').
Proof.
  intros Hdel.
  destruct (decide (classId ∈ classes db)) as [Hc|Hc].
  2:{ by rewrite delete_class_periods_not_found in Hdel. }
  rewrite delete_class_periods_found in Hdel by done. simplify_eq.
  assert (∀ tp, tp ∈ timetable_periods (delete_class_period_rows db classId) →
                tp_class_id tp ≠ Some classId) as Hgone.
  { by intros tp [? _]%list_elem_of_filter. }
  assert (∀ teacherId,
            teacherAssignment (delete_class_period_rows db classId) classId
              teacherId = None) as Hassign.
  { intros teacherId.
    destruct (teacherAssignment _ classId teacherId) eqn:Heq; [|done].
    assert (is_Some (teacherAssignment (delete_class_period_rows db classId)
                       classId teacherId)) as Hsome by by rewrite Heq.
    apply teacherAssignment_teaches, Exists_exists in Hsome
      as (tp & Htp & Hclass & _).
    by destruct (Hgone tp Htp). }
  split_and!.
  - intros off teacherId req now <-.
    assert (∀ day time,
              teacherCurrentPeriod
                (timetable_periods
                   (delete_class_period_rows db (mr_classId req)))
                (mr_classId req) teacherId day time = None) as Hnone.
    { intros day time.
      destruct (teacherCurrentPeriod _ _ _ _ _) as [p|] eqn:Hp; [|done].
      apply teacherCurrentPeriod_Some in Hp as (Hp & Hclass & _).
      by destruct (Hgone p Hp). }
    split_and!.
    + unfold mark_attendance.
      destruct (getCurrentDayOfWeek off now); [|done].
      destruct (getCurrentTime off now); [|done].
      case_decide; [|done]. by rewrite Hnone.
    + unfold mark_attendance.
      destruct (getCurrentDayOfWeek off now); [|done].
      destruct (getCurrentTime off now); [|done].
      case_decide; [|done]. by rewrite Hnone.
    + intros Hclock Hint. unfold mark_attendance.
      rewrite getCurrentDayOfWeek_ist, getCurrentTime_ist by done.
      rewrite decide_True by done. by rewrite Hnone.
  - intros. unfold reports. by rewrite Hassign.
  - intros. unfold attendance_history. by rewrite Hassign.
  - intros. unfold bulk_update. by rewrite Hassign.
  - eexists. rewrite delete_class_periods_found by done.
    rewrite delete_class_period_rows_twice. f_equal. f_equal.
    apply length_zero_iff_nil, filter_eq_nil. intros tp Htp.
    by apply Hgone.
Qed.

Lemma delete_class_periods_closes_class_witness :
  (∀ off teacherId req now,
     mr_classId req = 5 →
     (mark_attendance off (delete_class_periods sample_db_manual 5).2
        teacherId req now).1 ≠ MarkSuccess
     ∧ (mark_attendance off (delete_class_periods sample_db_manual 5).2
          teacherId req now).2 = (delete_class_periods sample_db_manual 5).2
     ∧ (clock_in_range off now → int4 5 →
        mark_attendance off (delete_class_periods sample_db_manual 5).2
          teacherId req now
        = (NoActivePeriod, (delete_class_periods sample_db_manual 5).2)))
  ∧ (∀ teacherId period now,
       reports (delete_class_periods sample_db_manual 5).2 teacherId 5 period
         now = None)
  ∧ (∀ order bookmarks teacherId view currentDate,
       attendance_history order bookmarks
         (delete_class_periods sample_db_manual 5).2
         teacherId 5 view currentDate = None)
  ∧ (∀ teacherId changes,
       bulk_update (delete_class_periods sample_db_manual 5).2 teacherId 5
         changes
       = (BulkAccessDenied, (delete_class_periods sample_db_manual 5).2))
  ∧ ∃ n, delete_class_periods (delete_class_periods sample_db_manual 5).2 5
         = (ClassPeriodsDeleted 0 n, (delete_class_periods sample_db_manual 5).2).
Proof.
  apply (delete_class_periods_closes_class sample_db_manual 5 2 3).
  by vm_compute.
Defined.

(** * Timetables by day *)

#[global] Instance by_day_and_number_total : Total by_day_and_number.
Proof. intros p q. unfold by_day_and_number. lia. Qed.

#[global] Instance by_day_and_number_trans : Transitive by_day_and_number.
Proof. intros p q r. unfold by_day_and_number. lia. Qed.

Lemma StronglySorted_filter {A} (R : relation A) (P : A → Prop)
    `{∀ x, Decision (P x)} (l : list A) :
  StronglySorted R l → StronglySorted R (filter P l).
Proof.
  induction 1 as [|x l Hl IH Hx]; [constructor|].
  rewrite filter_cons. case_decide; [|done].
  constructor; [done|].
  apply Forall_forall. intros y [_ Hy]%list_elem_of_filter.
  rewrite Forall_forall in Hx. by apply Hx.
Qed.

(** The periods of one day, taken from a list in (day, number) order, are
    in period-number order. *)
Lemma StronglySorted_day d (l : list Period) :
  StronglySorted by_day_and_number l →
  StronglySorted (le_on tp_period_number)
    (filter (λ p, tp_day_of_week p = d) l).
Proof.
  intros Hl%(StronglySorted_filter _ (λ p, tp_day_of_week p = d)).
  assert (Forall (λ p, tp_day_of_week p = d)
                 (filter (λ p, tp_day_of_week p = d) l)) as Hday.
  { apply Forall_forall. by intros p [? _]%list_elem_of_filter. }
  induction Hl as [|x l' Hl' IH Hx]; [constructor|].
  apply Forall_cons in Hday as [Hxd Hday].
  constructor; [by apply IH|].
  rewrite Forall_forall in Hx, Hday. apply Forall_forall. intros y Hy.
  specialize (Hx y Hy). specialize (Hday y Hy). simpl in *.
  unfold by_day_and_number in Hx. unfold le_on. lia.
Qed.



Lemma foldl_push_period_lookup (timetable : gmap Z DaySchedule) periods d :
  foldl push_period timetable periods !! d
  = (λ entry, mkDaySchedule (ds_day entry)
                (ds_periods entry
                   ++ filter (λ p, tp_day_of_week p = d) periods))
      <$> timetable !! d.
Proof.
  revert timetable. induction periods as [|p periods IH]; intros timetable.
  { cbn [foldl]. rewrite filter_nil.
    destruct (timetable !! d) as [[name ps]|]; simpl; [|done].
    by rewrite app_nil_r. }
  cbn [foldl]. rewrite IH. unfold push_period.
  destruct (decide (tp_day_of_week p = d)) as [<-|Hne].
  - rewrite filter_cons_True by done.
    destruct (timetable !! tp_day_of_week p) as [entry|] eqn:Hentry.
    + rewrite lookup_insert_eq. simpl. by rewrite <- app_assoc.
    + by rewrite Hentry.
  - rewrite filter_cons_False by done.
    destruct (timetable !! tp_day_of_week p) as [entry|]; [|done].
    by rewrite lookup_insert_ne.
Qed.

(** X25: The teacher's timetable has the six days Monday to Saturday and no
    other.  Each lists the teacher's non-break periods of that day whose
    subject and class exist, in ascending period number.  The total counts
    all such periods, so one scheduled on a Sunday is counted and listed
    nowhere; on a Sunday the number of today's periods is zero.  All this
    with a clock a Date can hold; with any other the page is the empty one
    of the error path, with no day and no period. *)
Theorem teacher_timetable_days off subjects db teacherId now :
  let page := teacher_timetable off subjects db teacherId now in
  (clock_in_range off now →
     (∀ d, 1 ≤ d ≤ 6 →
        ∃ entry, tt_timetable page !! d = Some entry
          ∧ (∀ p, p ∈ ds_periods entry ↔
                  p ∈ teacher_periods subjects db teacherId
                  ∧ tp_day_of_week p = d)
          ∧ StronglySorted (le_on tp_period_number) (ds_periods entry))
     ∧ (∀ d, ¬ 1 ≤ d ≤ 6 → tt_timetable page !! d = None)
     ∧ tt_totalPeriods page = length (teacher_periods subjects db teacherId)
     ∧ (getCurrentDayOfWeek off now = Some 7 → tt_todayPeriods page = 0%nat)
     ∧ (∀ p, p ∈ teacher_periods subjects db teacherId →
             tp_day_of_week p = 7 →
             (0 < tt_totalPeriods page)%nat
             ∧ ∀ d entry, tt_timetable page !! d = Some entry →
                          p ∉ ds_periods entry))
  ∧ (¬ clock_in_range off now →
     tt_timetable page = ∅ ∧ tt_totalPeriods page = 0%nat
     ∧ tt_todayPeriods page = 0%nat ∧ tt_currentPeriodInfo page = None).
Proof.
  intros page. subst page. unfold teacher_timetable. split; intros Hclock.
  2:{ destruct (clock_out_of_range off now Hclock) as [Hday _].
      by rewrite Hday. }
  rewrite (getCurrentDayOfWeek_ist off now Hclock).
  rewrite (getCurrentTime_ist off now Hclock).
  fold (teacher_periods subjects db teacherId).
  set (allPeriods := merge_sort by_day_and_number
                       (teacher_periods subjects db teacherId)).
  cbn [imap foldl compose tt_timetable tt_totalPeriods tt_todayPeriods].
  simpl Z.add.
  set (init := insert (Z.of_nat 5 + 1) _ _ : gmap Z DaySchedule).
  assert (∀ d, 1 ≤ d ≤ 6 → ∃ name, init !! d = Some (mkDaySchedule name []))
    as Hinit.
  { intros d Hd.
    assert (d = 1 ∨ d = 2 ∨ d = 3 ∨ d = 4 ∨ d = 5 ∨ d = 6) as Hcases by lia.
    unfold init.
    destruct_or! Hcases; subst d;
      rewrite ?lookup_insert_ne by done; rewrite lookup_insert_eq;
      by eexists. }
  assert (∀ d, ¬ 1 ≤ d ≤ 6 → init !! d = None) as Hnone.
  { intros d Hd. unfold init. rewrite !lookup_insert_ne by lia.
    apply lookup_empty. }
  assert (length allPeriods = length (teacher_periods subjects db teacherId))
    as Hlen by (unfold allPeriods; by rewrite merge_sort_Permutation).
  assert (∀ d, ¬ 1 ≤ d ≤ 6 → foldl push_period init allPeriods !! d = None)
    as Hnone'.
  { intros d Hd. by rewrite foldl_push_period_lookup, Hnone. }
  assert (∀ d entry, foldl push_period init allPeriods !! d = Some entry →
            1 ≤ d ≤ 6
            ∧ ds_periods entry = filter (λ p, tp_day_of_week p = d) allPeriods)
    as Hsome.
  { intros d entry Hentry.
    destruct (decide (1 ≤ d ≤ 6)) as [Hd|Hd].
    2:{ by rewrite Hnone' in Hentry. }
    split; [done|]. rewrite foldl_push_period_lookup in Hentry.
    destruct (Hinit d Hd) as [name Hname]. rewrite Hname in Hentry.
    by simplify_eq/=. }
  split_and!.
  - intros d Hd. destruct (Hinit d Hd) as [name Hname].
    rewrite foldl_push_period_lookup, Hname. simpl.
    eexists. split; [done|]. simpl. split.
    + intros p. rewrite list_elem_of_filter. unfold allPeriods.
      rewrite merge_sort_Permutation. tauto.
    + apply StronglySorted_day, StronglySorted_merge_sort; apply _.
  - exact Hnone'.
  - exact Hlen.
  - intros [= ->]. by rewrite Hnone' by lia.
  - intros p Hp Hday. split.
    + rewrite Hlen. destruct (teacher_periods subjects db teacherId);
        [by apply elem_of_nil in Hp|simpl; lia].
    + intros d entry [Hd ->]%Hsome [Hpd _]%list_elem_of_filter. lia.
Qed.

(** Teacher 2 on Sunday 10 March 2024 at 09:30; and the same instant with
    a manual offset of 2e11 minutes. *)
Lemma teacher_timetable_days_witness :
  (tt_totalPeriods (teacher_timetable 0 [1] sample_db 2
                      (mar_11_0930 - 86400000))
   = length (teacher_periods [1] sample_db 2)
   ∧ tt_todayPeriods (teacher_timetable 0 [1] sample_db 2
                        (mar_11_0930 - 86400000)) = 0%nat)
  ∧ tt_timetable (teacher_timetable 200000000000 [1] sample_db 2 mar_11_0930)
    = ∅.
Proof.
  split.
  - destruct (proj1 (teacher_timetable_days 0 [1] sample_db 2
                       (mar_11_0930 - 86400000)))
      as (_ & _ & Htotal & Htoday & _); [by_decide|].
    split; [done|]. apply Htoday. by vm_compute.
  - apply (proj2 (teacher_timetable_days 200000000000 [1] sample_db 2
                    mar_11_0930)).
    by_decide.
Defined.
